(** * Campus assistant chat route: shallow embedding and verified properties

    The repository holds two Express handlers for [POST /chat]:

    - the validated handler (helmet / express-validator variant, 1100 lines),
      embedded below as module [Validated];
    - the plain handler of [src/routes/chat.route.js], embedded as modules
      [Plain] and [PlainHandler].

    Both are one long [if / else if] chain over [lowerMessage.includes(...)]
    followed by per-intent reply assembly.  The embedding keeps that shape:
    the keyword predicates are boolean functions over the lowered message,
    the branches are functions from the request body to a reply, exceptions
    and early [return res.json(...)] are explicit constructors of a
    completion type, and the wall clock and [Math.random()] are fields of an
    environment record.

    Conventions.
    - A JavaScript string is a [string] holding its UTF-8 bytes.  Every
      keyword searched for by the handlers is ASCII, so byte-wise substring
      search agrees with [String.prototype.includes] on UTF-16 code units.
    - A JavaScript number is an exact rational ([Q]); integer-valued fields
      validated with [isInt] are [Z].  Rounding of IEEE doubles is not
      modelled.
    - A missing property ([undefined]) is [None]. *)

From Stdlib Require Import ZArith QArith Qround Bool List Lia Lqa Sorting.Sorted.
From Stdlib Require Import Sorting.Permutation.
From Stdlib Require Import Strings.Ascii Strings.String Numbers.DecimalString.
Import ListNotations.

Local Open Scope string_scope.
Local Open Scope Z_scope.

(** ** JavaScript primitives used by the handlers *)

Module JS.

(** [s.includes(needle)] *)
Fixpoint includes (s needle : string) {struct s} : bool :=
if prefix needle s then true
else match s with
     | EmptyString => false
     | String _ rest => includes rest needle
     end.

(** [String.prototype.toLowerCase] on the ASCII letters; other bytes are
  kept. *)
Definition lowerChar (c : ascii) : ascii :=
let n := nat_of_ascii c in
if (Nat.leb 65 n && Nat.leb n 90)%bool then ascii_of_nat (n + 32) else c.

Fixpoint toLowerCase (s : string) : string :=
match s with
| EmptyString => EmptyString
| String c rest => String (lowerChar c) (toLowerCase rest)
end.

(** White space removed by [trim]: TAB, LF, VT, FF, CR and space. *)
Definition isWhiteSpace (c : ascii) : bool :=
let n := nat_of_ascii c in
(Nat.leb 9 n && Nat.leb n 13 || Nat.eqb n 32)%bool.

Fixpoint trimStart (s : string) : string :=
match s with
| EmptyString => EmptyString
| String c rest => if isWhiteSpace c then trimStart rest else s
end.

Fixpoint trimEnd (s : string) : string :=
match s with
| EmptyString => EmptyString
| String c rest =>
    let rest' := trimEnd rest in
    if (isWhiteSpace c && String.eqb rest' "")%bool then EmptyString
    else String c rest'
end.

Definition trim (s : string) : string := trimEnd (trimStart s).

(** [Array.prototype.join] *)
Fixpoint join (sep : string) (parts : list string) : string :=
match parts with
| [] => ""
| [p] => p
| p :: rest => p ++ sep ++ join sep rest
end.

(** Truthiness of a string-valued entry: [null] and [""] are falsy. *)
Definition truthy (x : option string) : bool :=
match x with
| Some s => negb (String.eqb s "")
| None => false
end.

(** [lines.filter(Boolean)] on an array of strings and [null]s *)
Definition filterBoolean (lines : list (option string)) : list string :=
flat_map (fun l => match l with
                   | Some s => if String.eqb s "" then [] else [s]
                   | None => []
                   end) lines.

(** Comparison of numbers. *)
Definition ltb (x y : Q) : bool := negb (Qle_bool y x).
Definition gtb (x y : Q) : bool := ltb y x.
Definition geb (x y : Q) : bool := Qle_bool y x.
Definition leb (x y : Q) : bool := Qle_bool x y.

(** Comparison where an operand may be [undefined] or [NaN]: every
  relational operator is then false. *)
Definition ltb' (x y : option Q) : bool :=
match x, y with Some a, Some b => ltb a b | _, _ => false end.
Definition gtb' (x y : option Q) : bool := ltb' y x.
Definition geb' (x y : option Q) : bool :=
match x, y with Some a, Some b => geb a b | _, _ => false end.
Definition leb' (x y : option Q) : bool := geb' y x.

(** Decimal rendering of an integer, as in a template literal. *)
Definition showZ (z : Z) : string :=
NilEmpty.string_of_int (Z.to_int z).

Definition showNat (n : nat) : string := showZ (Z.of_nat n).

(** Left padding with zeros up to [width] characters. *)
Fixpoint zeros (n : nat) : string :=
match n with
| O => ""
| S k => String "0" (zeros k)
end.

Definition padZeros (width : nat) (s : string) : string :=
zeros (width - String.length s) ++ s.

(** [x.toFixed(f)]: let [n] be the integer with [n / 10^f] closest to [|x|],
  the larger one on a tie; print [n] with a point before its last [f]
  digits, and a minus sign when [x < 0]. *)
Definition toFixed (f : nat) (x : Q) : string :=
let neg := ltb x 0 in
let a := if neg then Qopp x else x in
let scale := Z.pow 10 (Z.of_nat f) in
let n := Qfloor (a * inject_Z scale + (1 # 2)) in
let body :=
  match f with
  | O => showZ n
  | S _ => showZ (n / scale) ++ "." ++ padZeros f (showZ (n mod scale))
  end in
if neg then "-" ++ body else body.

(** [Number::toString] for the numbers a JSON body carries: the integer
  part, then the digits of the fraction while a remainder is left (at most
  seventeen of them). *)
Fixpoint fractionDigits (fuel : nat) (r d : Z) : string :=
match fuel with
| O => ""
| S k =>
    if r =? 0 then ""
    else showZ ((10 * r) / d) ++ fractionDigits k ((10 * r) mod d) d
end.

Definition numberToString (x : Q) : string :=
let n := Qnum x in
let d := Zpos (Qden x) in
let a := Z.abs n in
let r := a mod d in
(if n <? 0 then "-" else "")
++ showZ (a / d)
++ (if r =? 0 then "" else "." ++ fractionDigits 17 r d).

(** Rendering of a property that may be [undefined]. *)
Definition showProp {A} (show : A -> string) (x : option A) : string :=
match x with
| Some a => show a
| None => "undefined"
end.

(** Rendering of a computed number that may be [NaN]. *)
Definition showNaN (x : option Z) : string :=
match x with
| Some z => showZ z
| None => "NaN"
end.

(** A stable sort: [Array.prototype.sort] with a comparator that reports
  "strictly before" through [before]. *)
Section Sort.
Context {A : Type} (before : A -> A -> bool).

Fixpoint insertSorted (x : A) (l : list A) : list A :=
match l with
| [] => [x]
| y :: rest => if before y x then y :: insertSorted x rest
               else x :: y :: rest
end.

Definition sortBy (l : list A) : list A :=
fold_right insertSorted [] l.
End Sort.

(** Regular expressions of the shape [/a.*b/]: [a], then any run of
  characters other than line terminators (LF, CR, U+2028, U+2029), then
  [b]. *)
Definition LF : string := String (ascii_of_nat 10) "".
Definition CR : string := String (ascii_of_nat 13) "".
Definition LS : string :=
String (ascii_of_nat 226) (String (ascii_of_nat 128)
  (String (ascii_of_nat 168) "")).
Definition PS : string :=
String (ascii_of_nat 226) (String (ascii_of_nat 128)
  (String (ascii_of_nat 169) "")).

Definition lineTerminatorAt (s : string) : bool :=
(prefix LF s || prefix CR s || prefix LS s || prefix PS s)%bool.

Fixpoint dropPrefix (p s : string) {struct p} : option string :=
match p, s with
| EmptyString, _ => Some s
| String a p', String b s' =>
    if Ascii.eqb a b then dropPrefix p' s' else None
| String _ _, EmptyString => None
end.

Fixpoint dotStarThen (s b : string) {struct s} : bool :=
if prefix b s then true
else match s with
     | EmptyString => false
     | String _ rest =>
         if lineTerminatorAt s then false else dotStarThen rest b
     end.

Fixpoint matchesThen (s a b : string) {struct s} : bool :=
(match dropPrefix a s with
 | Some rest => dotStarThen rest b
 | None => false
 end
 || match s with
    | EmptyString => false
    | String _ rest => matchesThen rest a b
    end)%bool.

(** [s.split(c)] for a one-character separator *)
Fixpoint split (c : ascii) (s : string) : list string :=
match s with
| EmptyString => [EmptyString]
| String a rest =>
    if Ascii.eqb a c then EmptyString :: split c rest
    else match split c rest with
         | [] => [String a EmptyString]
         | p :: ps => String a p :: ps
         end
end.

(** [x || y] on numbers that may be missing: [undefined] and [0] are
  falsy, and the last operand is the result when none is truthy. *)
Definition orElse (x y : option Q) : option Q :=
match x with
| Some a => if Qeq_bool a 0 then y else x
| None => y
end.

(** [x || 0] *)
Definition orZero (x : option Q) : Q :=
match x with Some a => a | None => 0%Q end.
Definition orZeroZ (x : option Z) : Z :=
match x with Some a => a | None => 0 end.

(** [x || y] on strings that may be missing *)
Definition orElseString (x : option string) (y : string) : string :=
match x with
| Some s => if String.eqb s "" then y else s
| None => y
end.

(** [obj[key]] on a dictionary *)
Fixpoint lookup {A} (key : string) (obj : list (string * A)) : option A :=
match obj with
| [] => None
| (k, v) :: rest => if String.eqb k key then Some v else lookup key rest
end.

(** [array.sort()] without comparator on strings: code-unit order. *)
Definition sortStrings (l : list string) : list string :=
sortBy String.ltb l.

End JS.


(** ** Request data *)

Module ClassEntry.
Record t := {
  name : option string;
  subject : option string;
  startTime : option string;
  endTime : option string;
  time : option string
}.
End ClassEntry.

Module SemesterRecord.
Record t := {
  sgpa : option Q;
  gpa : option Q;
  score : option Q;
  semester : option string;
  name : option string
}.
End SemesterRecord.

Module CalendarMark.
Record t := {
  date : option string;
  categoryName : option string
}.
End CalendarMark.

Module SubjectAttendance.
Record t := {
  percentage : option Q;
  attended : option Z;
  held : option Z
}.
End SubjectAttendance.

Module Attendance.
Record t := {
  totalHeld : option Z;
  totalAttended : option Z;
  percentage : option Q;
  subjects : option (list (string * SubjectAttendance.t))
}.
(** the default [attendance = {}] *)
Definition empty : t := Build_t None None None None.
End Attendance.

Module Expenses.
Record t := {
  total : option Q;
  thisMonth : option Q;
  categories : option (list (string * Q))
}.
(** the default [expenses = {}] *)
Definition empty : t := Build_t None None None.
(** [Object.keys(expenses).length] *)
Definition keyCount (e : t) : nat :=
  (match total e with Some _ => 1 | None => 0 end
   + match thisMonth e with Some _ => 1 | None => 0 end
   + match categories e with Some _ => 1 | None => 0 end)%nat.
End Expenses.

(** [req.body] after the destructuring defaults of the handler.  Objects
    used as dictionaries are association lists in property order. *)
Record Body := {
  message : string;
  firstName : option string;
  assignments : list (string * Z);
  timetable : list (string * list ClassEntry.t);
  todayIndex : Z;
  cgpa : list SemesterRecord.t;
  calendarMarks : list CalendarMark.t;
  attendance : Attendance.t;
  expenses : Expenses.t
}.

(** What a request reads from outside its body: the clock ([new Date()]
    and its local-time getters), [Math.random()], the [DEBUG] flag fixed at
    start-up and the date parser ([new Date(s).getTime()], [None] when the
    date is invalid). *)
Record Env := {
  now : Z;
  getDay : Z;
  getHours : Z;
  startOfToday : Z;
  random : Q;
  DEBUG : bool;
  parseDate : string -> option Z
}.

Inductive Intent :=
| GENERAL_QUERY
| NAME_QUERY
| EXPENSE_MONTHLY
| EXPENSE_INSIGHTS
| ATTENDANCE_INSIGHTS
| ACADEMIC_INSIGHTS
| ASSIGNMENT_PLANNING
| CALENDAR_MANAGEMENT
| TIMETABLE_ANALYSIS
| GREETING
| GRATITUDE
| GUIDANCE
| VALIDATION_ERROR
| ERROR.

(** The [dataUsed] block of the response metadata. *)
Record DataUsed := {
  hasExpenses : bool;
  hasAttendance : bool;
  hasTimetable : bool;
  hasAssignments : bool;
  hasCalendar : bool;
  hasCgpa : bool
}.

(** [metadata]; [timestamp] is the instant that [toISOString] prints. *)
Module Metadata.
Record t := {
  timestamp : Z;
  userName : string;
  dataUsed : DataUsed
}.
End Metadata.

(** The JSON document sent with [res.status(status).json(...)]; a key that
    is left out, or set to [undefined], is [None]. *)
Module Response.
Record t := {
  status : Z;
  intent : Intent;
  reply : string;
  metadata : option Metadata.t;
  error : option string
}.
End Response.

(** How the body of the [try] block ends for one request. *)
Inductive Completion :=
| FallThrough (i : Intent) (r : string)
    (* the branch assigned [intent] and [reply]; control reaches the final
       [res.status(200).json] *)
| EarlyReturn (i : Intent) (r : string)
    (* the branch ran [return res.json({ intent, reply })] *)
| Throw (msg : string).
    (* an exception reached the [catch] clause *)

(** A computation inside a branch: a value, or the message of the
    exception it threw. *)
Definition Result (A : Type) : Type := (A + string)%type.
Definition Text : Type := Result string.
Definition ok (s : string) : Text := inl s.
Definition throw {A} (msg : string) : Result A := inr msg.
Definition bind {A B} (t : Result A) (k : A -> Result B) : Result B :=
  match t with
  | inl a => k a
  | inr m => inr m
  end.

Notation "x <- t ;; k" := (bind t (fun x => k))
  (at level 61, t at next level, right associativity).

(** Keyword groups shared by the two handlers. *)
Module Keywords.
Import JS.

(** [lowerMessage.includes(k1) || lowerMessage.includes(k2) || ...] *)
Definition anyOf (lowerMessage : string) (keys : list string) : bool :=
  existsb (includes lowerMessage) keys.

Definition nameQuery (lowerMessage : string) : bool :=
  anyOf lowerMessage
    ["what is my name"; "who am i"; "do you know my name";
     "what's my name"; "whats my name"].

Definition expenseMonthly (lowerMessage : string) : bool :=
  includes lowerMessage "this month"
  && (includes lowerMessage "spend" || includes lowerMessage "expense").

Definition expenseInsights (lowerMessage : string) : bool :=
  anyOf lowerMessage
    ["expense"; "spend"; "spent"; "money"; "budget"; "cost";
     "expensive"; "saving"].

Definition attendanceInsights (lowerMessage : string) : bool :=
  anyOf lowerMessage ["attendance"; "present"; "absent"; "percentage"].

Definition assignmentPlanning (lowerMessage : string) : bool :=
  anyOf lowerMessage
    ["assignment"; "homework"; "deadline"; "due"; "project"].

Definition greetingWord (lowerMessage : string) : bool :=
  anyOf lowerMessage ["hi"; "hello"; "hey"].

Definition gratitude (lowerMessage : string) : bool :=
  anyOf lowerMessage ["thank"; "thanks"; "appreciate"].
End Keywords.


(** ** Helpers declared at the top of both route files *)

Module Common.
Import JS.

Definition DAYS : list string :=
  ["Monday"; "Tuesday"; "Wednesday"; "Thursday"; "Friday"; "Saturday";
   "Sunday"].

(** [DAYS[index] ?? `Day ${index + 1}`] *)
Definition getDayName (index : Z) : string :=
  match (if index <? 0 then None else nth_error DAYS (Z.to_nat index)) with
  | Some d => d
  | None => "Day " ++ showZ (index + 1)
  end.

Definition formatReply (lines : list (option string)) : string :=
  join LF (filterBoolean lines).

Definition paragraph (lines : list (option string)) : string :=
  join " " (filterBoolean lines).

(** [(1000 * 60 * 60 * 24)] *)
Definition MS_PER_DAY : Z := 1000 * 60 * 60 * 24.

(** [Math.ceil((new Date(date) - now) / (1000 * 60 * 60 * 24))], with
    [due] the time value of [new Date(date)]; [None] is [NaN]. *)
Definition daysBetween (due : option Z) (now : Z) : option Z :=
  match due with
  | Some t => Some (Qceiling (inject_Z (t - now) / inject_Z MS_PER_DAY))
  | None => None
  end.

(** [Math.ceil(held * 0.75) - attended] *)
Definition classesShort (held attended : Z) : Z :=
  Qceiling (inject_Z held * (75 # 100)) - attended.

(** The [{ day, count }] objects of the weekly analysis; the lightest day
    starts at [count: Infinity]. *)
Inductive Count :=
| Finite (n : Z)
| Infinity.

Record DayCount := {
  day : option Z;
  count : Count
}.

Record Analysis := {
  busiestDay : DayCount;
  lightestDay : DayCount;
  totalClasses : Z;
  daysWithClasses : Z
}.

(** [count > c] and [count < c] against a stored count *)
Definition above (count : Z) (c : Count) : bool :=
  match c with
  | Finite n => n <? count
  | Infinity => false
  end.

Definition below (count : Z) (c : Count) : bool :=
  match c with
  | Finite n => count <? n
  | Infinity => true
  end.

Definition isInfinity (c : Count) : bool :=
  match c with
  | Infinity => true
  | Finite _ => false
  end.

Section Timetable.
Variable timetable : list (string * list ClassEntry.t).

Definition normalizeClassTime (cls : ClassEntry.t) : ClassEntry.t :=
  if (truthy (ClassEntry.startTime cls)
      && truthy (ClassEntry.endTime cls))%bool then cls
  else
    match ClassEntry.time cls with
    | Some t =>
        if (negb (String.eqb t "") && includes t "-")%bool then
          let parts := map trim (split "-" t) in
          {| ClassEntry.name := ClassEntry.name cls;
             ClassEntry.subject := ClassEntry.subject cls;
             ClassEntry.startTime := nth_error parts 0;
             ClassEntry.endTime := nth_error parts 1;
             ClassEntry.time := ClassEntry.time cls |}
        else cls
    | None => cls
    end.

(** [timetable[`day_${dayIndex}`] || []], normalised *)
Definition getClassesForDay (dayIndex : Z) : list ClassEntry.t :=
  let classes :=
    match lookup ("day_" ++ showZ dayIndex) timetable with
    | Some l => l
    | None => []
    end in
  map normalizeClassTime classes.

Definition emptyAnalysis : Analysis :=
  {| busiestDay := {| day := None; count := Finite 0 |};
     lightestDay := {| day := None; count := Infinity |};
     totalClasses := 0;
     daysWithClasses := 0 |}.

(** One iteration of the [for] loop of [analyzeWeeklyPattern]. *)
Definition analyzeDay (analysis : Analysis) (i : Z) : Analysis :=
  let classes := getClassesForDay i in
  let count := Z.of_nat (List.length classes) in
  let busiest :=
    if above count (Common.count (busiestDay analysis))
    then {| day := Some i; count := Finite count |}
    else busiestDay analysis in
  let lightest :=
    if (below count (Common.count (lightestDay analysis))
        && (0 <? count))%bool
    then {| day := Some i; count := Finite count |}
    else lightestDay analysis in
  {| busiestDay := busiest;
     lightestDay := lightest;
     totalClasses := totalClasses analysis + count;
     daysWithClasses :=
       if 0 <? count then daysWithClasses analysis + 1
       else daysWithClasses analysis |}.

(** The scan [for (let i = 0; i < 7; i++)]. *)
Definition weekDays : list Z := [0; 1; 2; 3; 4; 5; 6].

Definition analyzeWeeklyPattern : Analysis :=
  let analysis := fold_left analyzeDay weekDays emptyAnalysis in
  if isInfinity (count (lightestDay analysis))
  then {| busiestDay := busiestDay analysis;
          lightestDay := {| day := None; count := Finite 0 |};
          totalClasses := totalClasses analysis;
          daysWithClasses := daysWithClasses analysis |}
  else analysis.

(** [classes.map(c => c.name || c.subject || 'class').join(', ')] *)
Definition classList (classes : list ClassEntry.t) : string :=
  join ", "
    (map (fun c =>
            orElseString (ClassEntry.name c)
              (orElseString (ClassEntry.subject c) "class"))
         classes).
End Timetable.
End Common.


(** ** The validated handler

    [router.post('/chat', validateChat, ...)].  The body reaches the
    classifier after [validateChat] and the sanitising replacements, so
    [message body] below is [sanitizedMessage]. *)

Module Validated.
Import JS Keywords Common.

(** *** Keyword predicates of the [else if] chain *)

Definition academicInsights (lowerMessage : string) : bool :=
  anyOf lowerMessage
    ["cgpa"; "gpa"; "grade"; "sgpa"; "semester"; "marks"; "performance";
     "result"; "academic"; "progress"; "improvement"; "trend"].

Definition calendarManagement (lowerMessage : string) : bool :=
  anyOf lowerMessage
    ["calendar"; "event"; "exam"; "holiday"; "important date"; "meeting"].

Definition busiestDayQuery (lowerMessage : string) : bool :=
  anyOf lowerMessage
    ["busiest day"; "most busy"; "which day is busiest";
     "what is my busiest day"; "when am i busiest"].

Definition workloadQuery (lowerMessage : string) : bool :=
  anyOf lowerMessage
    ["busy"; "packed"; "workload"; "work load"; "how busy"; "how packed";
     "am i busy"; "am i too busy"; "am i packed"; "is my week busy";
     "is my week packed"; "overall load"].

Definition timetableAnalysis (lowerMessage : string) : bool :=
  (anyOf lowerMessage
     ["class"; "lecture"; "timetable"; "schedule";
      "tomorrow"; "today"; "monday"; "tuesday"; "wednesday"; "thursday";
      "friday"; "saturday"; "sunday";
      "free day"; "off day"; "day off";
      "week"; "weekly"]
   || workloadQuery lowerMessage
   || busiestDayQuery lowerMessage)%bool.

(** The chain itself: the first group that matches names the intent. *)
Definition classifyIntent (sanitizedMessage : string) : Intent :=
  let lowerMessage := toLowerCase sanitizedMessage in
  if nameQuery lowerMessage then NAME_QUERY
  else if expenseMonthly lowerMessage then EXPENSE_MONTHLY
  else if expenseInsights lowerMessage then EXPENSE_INSIGHTS
  else if attendanceInsights lowerMessage then ATTENDANCE_INSIGHTS
  else if academicInsights lowerMessage then ACADEMIC_INSIGHTS
  else if assignmentPlanning lowerMessage then ASSIGNMENT_PLANNING
  else if calendarManagement lowerMessage then CALENDAR_MANAGEMENT
  else if timetableAnalysis lowerMessage then TIMETABLE_ANALYSIS
  else if (greetingWord lowerMessage
           || String.eqb (trim sanitizedMessage) "")%bool then GREETING
  else if gratitude lowerMessage then GRATITUDE
  else GUIDANCE.

(** *** Second-level predicates *)

Definition perSubjectQuery (lowerMessage : string) : bool :=
  anyOf lowerMessage
    ["per subject"; "by subject"; "each subject"; "subject wise";
     "subject-wise"; "subject breakdown"; "breakdown by subject"].

Definition lowestSubjectQuery (lowerMessage : string) : bool :=
  (includes lowerMessage "which subject"
   || includes lowerMessage "what subject"
   || (matchesThen lowerMessage "subject" "low"
       || matchesThen lowerMessage "low" "subject")
   || (matchesThen lowerMessage "subject" "below"
       || matchesThen lowerMessage "below" "subject"))%bool.

Definition allGradesQuery (lowerMessage : string) : bool :=
  anyOf lowerMessage
    ["all"; "semester wise"; "semester-wise"; "each semester"; "breakdown";
     "list"; "show my grades"; "show grades"].

Definition trendQuery (lowerMessage : string) : bool :=
  anyOf lowerMessage ["trend"; "progress"; "improvement"; "change"].

(** *** Grade helpers *)

(** [sem.sgpa || sem.gpa || sem.score] *)
Definition scoreOf (sem : SemesterRecord.t) : option Q :=
  orElse (orElse (SemesterRecord.sgpa sem) (SemesterRecord.gpa sem))
         (SemesterRecord.score sem).

(** [sem.semester || sem.name || `Semester ${position}`] *)
Definition semesterName (sem : SemesterRecord.t) (position : nat) : string :=
  orElseString (SemesterRecord.semester sem)
    (orElseString (SemesterRecord.name sem)
       ("Semester " ++ showNat position)).

(** [x.toFixed(2)] where [x] may be [undefined]: a [TypeError]. *)
Definition toFixed2 (x : option Q) : Text :=
  match x with
  | Some q => ok (toFixed 2 q)
  | None => throw "Cannot read properties of undefined (reading 'toFixed')"
  end.

(** The five trend bands and their wording. *)
Inductive Trend :=
| SignificantDrop
| SlightDecline
| Stable
| SlightImprovement
| StrongImprovement.

Definition trendText (t : Trend) : string :=
  match t with
  | StrongImprovement => "📈 strong improvement"
  | SlightImprovement => "📈 slight improvement"
  | SignificantDrop => "📉 significant drop"
  | SlightDecline => "📉 slight decline"
  | Stable => "➡️ stable"
  end.

(** The [if (difference > 0.3) ... else trend = 'stable'] cascade. *)
Definition trendOf (difference : Q) : Trend :=
  if gtb difference (3 # 10) then StrongImprovement
  else if gtb difference 0 then SlightImprovement
  else if ltb difference (- (3 # 10)) then SignificantDrop
  else if ltb difference 0 then SlightDecline
  else Stable.

(** [sum + sgpa] over all semesters; [None] is [NaN]. *)
Definition totalScore (sems : list SemesterRecord.t) : option Q :=
  fold_left (fun sum sem =>
               match sum, scoreOf sem with
               | Some s, Some v => Some (s + v)%Q
               | _, _ => None
               end) sems (Some 0%Q).

(** [(total / cgpa.length).toFixed(2)] *)
Definition cgpaAvg (sems : list SemesterRecord.t) : string :=
  match totalScore sems with
  | Some t => toFixed 2 (t / inject_Z (Z.of_nat (List.length sems)))
  | None => "NaN"
  end.

(** [Math.max(0, Math.ceil(held * 0.75) - attended)]; [None] is [NaN]. *)
Definition neededClasses (held attended : option Z) : option Z :=
  match held, attended with
  | Some h, Some a => Some (Z.max 0 (classesShort h a))
  | _, _ => None
  end.

Section Handler.
Variable env : Env.
Variable body : Body.

Definition lowerMessage : string := toLowerCase (message body).

(** [user.firstName || 'there'] *)
Definition userName : string := orElseString (firstName body) "there".

Definition addressMaybe (text name : string) : string :=
  let useName := ltb (random env) (35 # 100) in
  if (negb useName || String.eqb name "")%bool then text
  else name ++ ", " ++ text.

Definition normalizedTodayIndex : Z :=
  if getDay env =? 0 then 6 else getDay env - 1.

Definition assignmentCount : Z :=
  fold_left (fun sum kv => sum + snd kv) (assignments body) 0.

Definition daysUntil (date : option string) : option Z :=
  match date with
  | Some d => daysBetween (parseDate env d) (now env)
  | None => None
  end.

(** [getFutureDates(items)] *)
Definition isFuture (item : CalendarMark.t) : bool :=
  match CalendarMark.date item with
  | Some d =>
      if String.eqb d "" then false
      else match parseDate env d with
           | Some t => startOfToday env <=? t
           | None => false
           end
  | None => false
  end.

Definition earlier (a b : CalendarMark.t) : bool :=
  match CalendarMark.date a, CalendarMark.date b with
  | Some da, Some db =>
      match parseDate env da, parseDate env db with
      | Some ta, Some tb => ta <? tb
      | _, _ => false
      end
  | _, _ => false
  end.

Definition getFutureDates (items : list CalendarMark.t)
  : list CalendarMark.t :=
  sortBy earlier (filter isFuture items).

(** *** NAME_QUERY *)
Definition nameQueryReply : string :=
  "Your name is " ++ userName ++ ". How can I help you today?".

(** *** EXPENSE_MONTHLY *)
Definition expenseMonthlyReply : string :=
  match Expenses.thisMonth (expenses body) with
  | None =>
      addressMaybe "I don't have any expense records for this month yet."
        userName
  | Some thisMonth =>
      let spending := toFixed 2 thisMonth in
      if gtb thisMonth 10000 then
        paragraph
          [Some ("You've spent ₹" ++ spending
                 ++ " this month, which is on the higher side.");
           Some "Might be worth reviewing where the money's going — especially discretionary spending."]
      else if gtb thisMonth 5000 then
        paragraph
          [Some ("So far this month, you've spent ₹" ++ spending ++ ".");
           Some "That's within a moderate range — nothing alarming."]
      else
        paragraph
          [Some ("Your spending this month is at ₹" ++ spending ++ ".");
           Some "Looks like you're keeping things under control."]
  end.

(** *** EXPENSE_INSIGHTS *)
Definition categoryLine (total : Q) (entry : string * Q) : string :=
  let (cat, amt) := entry in
  let percentage :=
    if gtb total 0 then toFixed 1 ((amt / total) * 100)%Q else "0" in
  "• " ++ cat ++ ": ₹" ++ toFixed 2 amt
  ++ " (" ++ percentage ++ "% of total)".

Definition expenseInsightsReply : string :=
  let e := expenses body in
  if Nat.eqb (Expenses.keyCount e) 0 then
    addressMaybe "I don't have any expense records yet. Start tracking your spending and I can help you manage your budget."
      userName
  else
    let total := orZero (Expenses.total e) in
    let thisMonth := orZero (Expenses.thisMonth e) in
    let categories :=
      match Expenses.categories e with Some c => c | None => [] end in
    let pace :=
      if gtb thisMonth 10000 then
        ["This month's spending is a bit elevated — worth keeping an eye on."]
      else if gtb thisMonth 5000 then
        ["Monthly spending is within a reasonable range."]
      else if gtb thisMonth 0 then
        ["You're spending at a comfortable pace right now."]
      else [] in
    let sortedCategories :=
      firstn 2 (sortBy (fun a b => gtb (snd a) (snd b)) categories) in
    let areas :=
      match categories, sortedCategories with
      | _ :: _, _ :: _ =>
          "Your main spending areas:"
          :: map (categoryLine total) sortedCategories
      | _, _ => []
      end in
    let headline :=
      "Overall, you've spent ₹" ++ toFixed 2 total
      ++ " across all time, with ₹" ++ toFixed 2 thisMonth
      ++ " so far this month." in
    let parts := headline :: List.app pace areas in
    addressMaybe (join " " parts) userName.

(** *** ATTENDANCE_INSIGHTS *)

Definition subjectPercent (entry : string * SubjectAttendance.t) : Q :=
  orZero (SubjectAttendance.percentage (snd entry)).

Definition subjectLine (entry : string * SubjectAttendance.t) : string :=
  let (subjectName, data) := entry in
  let subPercent := orZero (SubjectAttendance.percentage data) in
  let subAttended := orZeroZ (SubjectAttendance.attended data) in
  let subHeld := orZeroZ (SubjectAttendance.held data) in
  let indicator :=
    if ltb subPercent 75 then "⚠️"
    else if geb subPercent 85 then "✓"
    else "" in
  indicator ++ " " ++ subjectName ++ ": " ++ numberToString subPercent
  ++ "% (" ++ showZ subAttended ++ "/" ++ showZ subHeld ++ ")".

Definition overallFigures (a : Attendance.t) (sep : string) : string :=
  showProp numberToString (Attendance.percentage a) ++ "% ("
  ++ showProp showZ (Attendance.totalAttended a) ++ sep
  ++ showProp showZ (Attendance.totalHeld a).

Definition perSubjectReply : string :=
  let a := attendance body in
  let subjectEntries :=
    match Attendance.subjects a with Some s => s | None => [] end in
  match subjectEntries with
  | [] => addressMaybe "No subject-wise attendance data available."
            userName
  | _ :: _ =>
      let sortedSubjects :=
        sortBy (fun x y => ltb (subjectPercent x) (subjectPercent y))
          subjectEntries in
      let overall := LF ++ "Overall: " ++ overallFigures a "/" ++ ")" in
      let lines :=
        "Here's your attendance by subject:"
        :: List.app (map subjectLine sortedSubjects) [overall] in
      formatReply (map Some lines)
  end.

(** The [forEach] that looks for the lowest percentage. *)
Definition lowestStep (acc : option string * Q)
    (entry : string * SubjectAttendance.t) : option string * Q :=
  let (name, data) := entry in
  let percent := orZero (SubjectAttendance.percentage data) in
  let heldPositive :=
    match SubjectAttendance.held data with
    | Some h => 0 <? h
    | None => false
    end in
  if (ltb percent (snd acc) && heldPositive)%bool
  then (Some name, percent)
  else acc.

Definition lowestSubjectReply : string :=
  let a := attendance body in
  let subjects :=
    match Attendance.subjects a with Some s => s | None => [] end in
  match subjects with
  | [] => addressMaybe "No subject-wise data available." userName
  | _ :: _ =>
      let (lowestSubject, lowestPercent) :=
        fold_left lowestStep subjects (None, 101%Q) in
      match lowestSubject with
      | Some name =>
          if String.eqb name "" then
            addressMaybe "All your subjects are above 75% attendance."
              userName
          else if ltb lowestPercent 75 then
            let data := lookup name subjects in
            let held := match data with
                        | Some d => SubjectAttendance.held d
                        | None => None
                        end in
            let attended := match data with
                            | Some d => SubjectAttendance.attended d
                            | None => None
                            end in
            let needed := neededClasses held attended in
            addressMaybe
              ("Your lowest attendance is in " ++ name ++ " at "
               ++ numberToString lowestPercent ++ "% ("
               ++ showProp showZ attended ++ "/" ++ showProp showZ held
               ++ "). You need to attend " ++ showNaN needed
               ++ " more classes to reach 75%.")
              userName
          else
            addressMaybe
              ("Your lowest attendance is in " ++ name ++ " at "
               ++ numberToString lowestPercent
               ++ "%, which is still above 75%.")
              userName
      | None =>
          addressMaybe "All your subjects are above 75% attendance."
            userName
      end
  end.

(** The array [parts] of the overall reply. *)
Definition overallParts : list string :=
  let a := attendance body in
  let percentage := Attendance.percentage a in
  let attended := Attendance.totalAttended a in
  let held := Attendance.totalHeld a in
  let summary :=
    "Your attendance is at " ++ overallFigures a " out of "
    ++ " classes)." in
  if ltb' percentage (Some 75%Q) then
    let needed := neededClasses held attended in
    let neededPart :=
      match needed with
      | Some n =>
          if 0 <? n then
            ["You'd need to attend " ++ showZ n
             ++ " more classes to reach 75%."]
          else []
      | None => []
      end in
    let breakdownPart :=
      match Attendance.subjects a with
      | Some (_ :: _) =>
          ["Want to see the breakdown by subject? Just ask."]
      | _ => []
      end in
    summary
    :: "This is below the 75% threshold — something to be mindful of."
    :: List.app neededPart breakdownPart
  else if ltb' percentage (Some 85%Q) then
    [summary; "It's acceptable, though there's room to improve."]
  else
    [summary; "You're maintaining good attendance — that's solid."].

Definition overallReply : string :=
  addressMaybe (join " " overallParts) userName.

Definition attendanceBranch : Completion :=
  match Attendance.totalHeld (attendance body) with
  | Some 0 =>
      EarlyReturn ATTENDANCE_INSIGHTS
        (addressMaybe "No attendance records yet. Once classes start, I can help you track it."
           userName)
  | _ =>
      FallThrough ATTENDANCE_INSIGHTS
        (if perSubjectQuery lowerMessage then perSubjectReply
         else if lowestSubjectQuery lowerMessage then lowestSubjectReply
         else overallReply)
  end.

(** *** ACADEMIC_INSIGHTS *)

(** The [forEach] of the semester listing, from position [index]. *)
Fixpoint semesterLines (index : nat) (sems : list SemesterRecord.t)
  : Result (list string) :=
  match sems with
  | [] => inl []
  | sem :: rest =>
      shown <- toFixed2 (scoreOf sem) ;;
      more <- semesterLines (S index) rest ;;
      inl (("  " ++ showNat (S index) ++ ". "
            ++ semesterName sem (S index) ++ ": " ++ shown) :: more)
  end.

Definition allGradesReply : Text :=
  let n := List.length (cgpa body) in
  let headline :=
    "You have " ++ showNat n ++ " semester"
    ++ (if Nat.ltb 1 n then "s" else "") ++ " of data:" in
  perSemester <- semesterLines 0 (cgpa body) ;;
  let average :=
    if Nat.ltb 1 n
    then [LF ++ "Overall CGPA: " ++ cgpaAvg (cgpa body)]
    else [] in
  ok (formatReply (map Some (headline :: List.app perSemester average))).

(** [cgpa.map(sem => val.toFixed(2))] *)
Fixpoint progression (sems : list SemesterRecord.t)
  : Result (list string) :=
  match sems with
  | [] => inl []
  | sem :: rest =>
      shown <- toFixed2 (scoreOf sem) ;;
      more <- progression rest ;;
      inl (shown :: more)
  end.

(** [sgpa - first]; [None] is [NaN]. *)
Definition difference (first latest : option Q) : option Q :=
  match first, latest with
  | Some f, Some l => Some (l - f)%Q
  | _, _ => None
  end.

(** The variable [trend]; every comparison with [NaN] is false. *)
Definition trendLabel (d : option Q) : string :=
  match d with
  | Some q => trendText (trendOf q)
  | None => trendText Stable
  end.

Definition trendReply : Text :=
  match cgpa body with
  | [] => throw "Cannot read properties of undefined (reading 'sgpa')"
  | [only] =>
      shown <- toFixed2 (scoreOf only) ;;
      ok (addressMaybe
            ("Your current SGPA is " ++ shown
             ++ ". Add more semesters to see trends.") userName)
  | firstSem :: _ =>
      let n := List.length (cgpa body) in
      let first := scoreOf firstSem in
      let sgpa := scoreOf (last (cgpa body) firstSem) in
      let d := difference first sgpa in
      let trend := trendLabel d in
      firstShown <- toFixed2 first ;;
      latestShown <- toFixed2 sgpa ;;
      let sign := if gtb' d (Some 0%Q) then "+" else "" in
      let delta := match d with
                   | Some q => toFixed 2 q
                   | None => "NaN"
                   end in
      let parts :=
        ["Over " ++ showNat n ++ " semesters, your grades have shown "
         ++ trend ++ ".";
         "Started at " ++ firstShown ++ " → now at " ++ latestShown
         ++ " (" ++ sign ++ delta ++ ")."] in
      steps <- (if Nat.leb n 4 then
                  shown <- progression (cgpa body) ;;
                  inl ["Semester progression: " ++ join " → " shown]
                else inl []) ;;
      ok (addressMaybe (join " " (List.app parts steps)) userName)
  end.

Definition latestReply : Text :=
  match cgpa body with
  | [] => throw "Cannot read properties of undefined (reading 'sgpa')"
  | firstSem :: _ =>
      let n := List.length (cgpa body) in
      let latest := last (cgpa body) firstSem in
      let sgpa := scoreOf latest in
      let name := semesterName latest n in
      if Nat.eqb n 1 then
        shown <- toFixed2 sgpa ;;
        ok (addressMaybe
              ("Your SGPA for " ++ name ++ " is " ++ shown ++ ".")
              userName)
      else
        let average := cgpaAvg (cgpa body) in
        shown <- toFixed2 sgpa ;;
        ok (paragraph
              [Some (addressMaybe
                       ("Your latest SGPA (" ++ name ++ ") is " ++ shown
                        ++ ".") userName);
               Some ("Your overall CGPA across " ++ showNat n
                     ++ " semesters is " ++ average ++ ".");
               Some "Want to see all semesters or grade trends? Just ask."])
  end.

Definition academicReply : Text :=
  match cgpa body with
  | [] =>
      ok (addressMaybe "No academic records yet. Add your semester grades and I can track your progress."
            userName)
  | _ :: _ =>
      if allGradesQuery lowerMessage then allGradesReply
      else if trendQuery lowerMessage then trendReply
      else latestReply
  end.

Definition academicBranch : Completion :=
  match academicReply with
  | inl r => FallThrough ACADEMIC_INSIGHTS r
  | inr msg => Throw msg
  end.

(** *** ASSIGNMENT_PLANNING *)

Definition plural (n : option Z) : string :=
  match n with
  | Some k => if 1 <? k then "s" else ""
  | None => ""
  end.

(** [daysUntil >= 0 && daysUntil <= 7] *)
Definition dueThisWeek (date : string) : bool :=
  match daysUntil (Some date) with
  | Some d => ((0 <=? d) && (d <=? 7))%bool
  | None => false
  end.

Definition weekLine (date : string) : string :=
  let count := lookup date (assignments body) in
  "• " ++ date ++ ": " ++ showProp showZ count ++ " assignment"
  ++ plural count ++ " (in " ++ showNaN (daysUntil (Some date))
  ++ " days)".

Definition assignmentReply : string :=
  let sortedDates := sortStrings (map fst (assignments body)) in
  if (includes lowerMessage "week"
      || includes lowerMessage "this week")%bool then
    let weekAssignments := filter dueThisWeek sortedDates in
    match weekAssignments with
    | _ :: _ =>
        addressMaybe
          (join " " ("Here's what's due this week:"
                     :: map weekLine weekAssignments))
          userName
    | [] =>
        addressMaybe "Nothing due this week — a good time to get ahead."
          userName
    end
  else
    let nearestDate := nth_error sortedDates 0 in
    let nearestCount :=
      match nearestDate with
      | Some d => lookup d (assignments body)
      | None => None
      end in
    let days := daysUntil nearestDate in
    if (includes lowerMessage "next"
        || includes lowerMessage "upcoming")%bool then
      addressMaybe
        ("Your next deadline is " ++ showProp id nearestDate ++ " — "
         ++ showProp showZ nearestCount ++ " assignment"
         ++ plural nearestCount ++ " due in " ++ showNaN days
         ++ " days.")
        userName
    else
      addressMaybe
        ("You have " ++ showZ assignmentCount ++ " pending assignment"
         ++ plural (Some assignmentCount) ++ ". The nearest is on "
         ++ showProp id nearestDate ++ " ("
         ++ showProp showZ nearestCount ++ " assignment"
         ++ plural nearestCount ++ ", " ++ showNaN days ++ " days).")
        userName.

Definition assignmentBranch : Completion :=
  if assignmentCount =? 0 then
    EarlyReturn ASSIGNMENT_PLANNING
      (addressMaybe "No pending assignments at the moment." userName)
  else FallThrough ASSIGNMENT_PLANNING assignmentReply.

(** *** CALENDAR_MANAGEMENT *)

(** [(d.categoryName || '').toLowerCase()] *)
Definition category (d : CalendarMark.t) : string :=
  toLowerCase (orElseString (CalendarMark.categoryName d) "").

Definition isHoliday (d : CalendarMark.t) : bool :=
  (includes (category d) "holiday" || includes (category d) "break"
   || includes (category d) "vacation")%bool.

Definition isExam (d : CalendarMark.t) : bool :=
  (includes (category d) "exam" || includes (category d) "test")%bool.

(** [daysUntil !== 1 ? 's' : ''] *)
Definition pluralDays (d : option Z) : string :=
  match d with
  | Some 1 => ""
  | _ => "s"
  end.

Definition dateLine (index : nat) (d : CalendarMark.t) : string :=
  "  " ++ showNat (S index) ++ ". "
  ++ showProp id (CalendarMark.date d) ++ " — "
  ++ showProp id (CalendarMark.categoryName d) ++ " (in "
  ++ showNaN (daysUntil (CalendarMark.date d)) ++ " days)".

Fixpoint dateLines (index : nat) (l : list CalendarMark.t)
  : list string :=
  match l with
  | [] => []
  | d :: rest => dateLine index d :: dateLines (S index) rest
  end.

Definition calendarReply : string :=
  let futureDates := getFutureDates (calendarMarks body) in
  if includes lowerMessage "holiday" then
    match filter isHoliday futureDates with
    | [] => addressMaybe "No upcoming holidays scheduled." userName
    | nextHoliday :: _ =>
        let days := daysUntil (CalendarMark.date nextHoliday) in
        addressMaybe
          ("Your next holiday is on "
           ++ showProp id (CalendarMark.date nextHoliday) ++ " — "
           ++ showNaN days ++ " day" ++ pluralDays days ++ " to go.")
          userName
    end
  else if includes lowerMessage "exam" then
    match filter isExam futureDates with
    | [] => addressMaybe "No upcoming exams in your calendar." userName
    | nextExam :: _ =>
        let days := daysUntil (CalendarMark.date nextExam) in
        addressMaybe
          ("Your next exam is on "
           ++ showProp id (CalendarMark.date nextExam) ++ " — "
           ++ showNaN days ++ " day" ++ pluralDays days ++ " left.")
          userName
    end
  else if (includes lowerMessage "next"
           || includes lowerMessage "upcoming")%bool then
    match futureDates with
    | [] => addressMaybe "No upcoming dates in your calendar." userName
    | nextDate :: _ =>
        addressMaybe
          ("Your next marked date is "
           ++ showProp id (CalendarMark.date nextDate) ++ " ("
           ++ showProp id (CalendarMark.categoryName nextDate)
           ++ ") — in " ++ showNaN (daysUntil (CalendarMark.date nextDate))
           ++ " days.")
          userName
    end
  else
    match futureDates with
    | [] => addressMaybe "No upcoming dates in your calendar." userName
    | _ :: _ =>
        let n := List.length futureDates in
        formatReply
          (map Some
             (("You have " ++ showNat n ++ " upcoming date"
               ++ (if Nat.ltb 1 n then "s" else "") ++ ":")
              :: dateLines 0 futureDates))
    end.

Definition calendarBranch : Completion :=
  match calendarMarks body with
  | [] =>
      EarlyReturn CALENDAR_MANAGEMENT
        (addressMaybe "Your calendar is clear — no dates marked yet."
           userName)
  | _ :: _ => FallThrough CALENDAR_MANAGEMENT calendarReply
  end.

(** *** TIMETABLE_ANALYSIS *)

Definition dayMap : list (string * Z) :=
  [("monday", 0); ("tuesday", 1); ("wednesday", 2); ("thursday", 3);
   ("friday", 4); ("saturday", 5); ("sunday", 6)].

Definition specificDay : option Z :=
  match find (fun e => includes lowerMessage (fst e)) dayMap with
  | Some (_, index) => Some index
  | None => None
  end.

Definition showCount (c : Count) : string :=
  match c with
  | Finite n => showZ n
  | Infinity => "Infinity"
  end.

(** [`${n} class${n > 1 ? 'es' : ''}`] *)
Definition classes (n : nat) : string :=
  showNat n ++ " class" ++ (if Nat.ltb 1 n then "es" else "").

Definition weekLineFor (i : Z) : string :=
  let classCount := List.length (getClassesForDay (timetable body) i) in
  let todayMarker := if i =? normalizedTodayIndex then " (today)" else "" in
  getDayName i ++ todayMarker ++ ": " ++ showNat classCount ++ " class"
  ++ (if Nat.eqb classCount 1 then "" else "es").

Definition timetableReply : string :=
  let analysis := analyzeWeeklyPattern (timetable body) in
  let todayClasses :=
    getClassesForDay (timetable body) normalizedTodayIndex in
  let tomorrowClasses :=
    getClassesForDay (timetable body) ((normalizedTodayIndex + 1) mod 7) in
  if busiestDayQuery lowerMessage then
    match day (busiestDay analysis) with
    | Some d =>
        addressMaybe
          ("Your busiest day is " ++ getDayName d ++ " with "
           ++ showCount (count (busiestDay analysis)) ++ " classes.")
          userName
    | None =>
        if totalClasses analysis =? 0
        then addressMaybe "No classes scheduled this week." userName
        else addressMaybe "Your schedule is pretty evenly spread out."
               userName
    end
  else if workloadQuery lowerMessage then
    if totalClasses analysis =? 0 then
      addressMaybe "No classes scheduled this week — you're completely free."
        userName
    else
      let load :=
        if 8 <=? totalClasses analysis then
          "That's quite a full week — make sure to pace yourself."
        else if 5 <=? totalClasses analysis then
          "A moderate week — manageable with good planning."
        else "A lighter week — good time to get ahead on other work." in
      let busiest :=
        match day (busiestDay analysis) with
        | Some d =>
            ["Your busiest day is " ++ getDayName d ++ " with "
             ++ showCount (count (busiestDay analysis)) ++ " classes."]
        | None => []
        end in
      addressMaybe
        (join " "
           (("You have " ++ showZ (totalClasses analysis)
             ++ " classes across " ++ showZ (daysWithClasses analysis)
             ++ " days this week.") :: load :: busiest))
        userName
  else if includes lowerMessage "tomorrow" then
    match tomorrowClasses with
    | _ :: _ =>
        addressMaybe
          ("Tomorrow you have " ++ classes (List.length tomorrowClasses)
           ++ ": " ++ classList tomorrowClasses ++ ".")
          userName
    | [] => addressMaybe "No classes tomorrow — you're free." userName
    end
  else if includes lowerMessage "today" then
    match todayClasses with
    | _ :: _ =>
        addressMaybe
          ("Today's schedule: " ++ classes (List.length todayClasses)
           ++ " — " ++ classList todayClasses ++ ".")
          userName
    | [] =>
        addressMaybe "No classes today. A good day to catch up on work."
          userName
    end
  else
    match specificDay with
    | Some d =>
        match getClassesForDay (timetable body) d with
        | _ :: _ as dayClasses =>
            addressMaybe
              ("On " ++ getDayName d ++ ": "
               ++ classes (List.length dayClasses) ++ " — "
               ++ classList dayClasses ++ ".")
              userName
        | [] =>
            addressMaybe
              (getDayName d ++ " is free — no classes scheduled.")
              userName
        end
    | None =>
        if anyOf lowerMessage ["free"; "off day"; "day off"; "which day"]
        then
          let freeDays :=
            map getDayName
              (filter
                 (fun i =>
                    Nat.eqb
                      (List.length (getClassesForDay (timetable body) i))
                      0)
                 weekDays) in
          match freeDays with
          | _ :: _ =>
              addressMaybe
                ("You're free on: " ++ join ", " freeDays ++ ".") userName
          | [] =>
              addressMaybe "You have classes every day this week — no full free days."
                userName
          end
        else if (includes lowerMessage "week"
                 || includes lowerMessage "weekly")%bool then
          if 0 <? totalClasses analysis then
            addressMaybe
              (join " " ("Here's your week:" :: map weekLineFor weekDays))
              userName
          else
            addressMaybe "No classes scheduled this week — a completely free week."
              userName
        else
          match todayClasses with
          | _ :: _ =>
              addressMaybe
                ("Today: " ++ classes (List.length todayClasses) ++ " — "
                 ++ classList todayClasses ++ ".")
                userName
          | [] =>
              addressMaybe "No classes today. Want to know about tomorrow or the rest of the week?"
                userName
          end
    end.

(** *** GREETING *)
Definition greetingReply : string :=
  let todayClasses :=
    getClassesForDay (timetable body) normalizedTodayIndex in
  let timeOfDay := getHours env in
  let greeting :=
    if timeOfDay <? 12 then "Good morning"
    else if timeOfDay <? 17 then "Good afternoon"
    else "Good evening" in
  let greetingLine :=
    if ltb (random env) (1 # 2)
    then greeting ++ ", " ++ userName ++ "."
    else greeting ++ "." in
  formatReply
    [Some greetingLine;
     Some (match todayClasses with
           | _ :: _ =>
               "You have " ++ classes (List.length todayClasses)
               ++ " today."
           | [] => "You're free today — no classes scheduled."
           end);
     (if 0 <? assignmentCount
      then Some (showZ assignmentCount ++ " pending assignment"
                 ++ plural (Some assignmentCount) ++ ".")
      else None);
     (match Attendance.totalHeld (attendance body) with
      | Some h =>
          if 0 <? h
          then Some ("Attendance at "
                     ++ showProp numberToString
                          (Attendance.percentage (attendance body))
                     ++ "%.")
          else None
      | None => None
      end);
     (match Expenses.thisMonth (expenses body) with
      | Some m =>
          if gtb m 0
          then Some ("Spent ₹" ++ toFixed 2 m ++ " this month.")
          else None
      | None => None
      end);
     Some "Let me know if you need anything specific."].

(** *** GRATITUDE and GUIDANCE *)
Definition gratitudeReply : string :=
  addressMaybe "Happy to help. Let me know if you need anything else."
    userName.

Definition guidanceReply : string :=
  addressMaybe
    "I can help you check your schedule, assignments, attendance, expenses, or calendar. Just ask — like 'how busy is my week' or 'when's my next exam'."
    userName.

(** *** The [try] block, the final envelope and the [catch] clause *)

Definition tryBlock : Completion :=
  match classifyIntent (message body) with
  | NAME_QUERY => FallThrough NAME_QUERY nameQueryReply
  | EXPENSE_MONTHLY => FallThrough EXPENSE_MONTHLY expenseMonthlyReply
  | EXPENSE_INSIGHTS => FallThrough EXPENSE_INSIGHTS expenseInsightsReply
  | ATTENDANCE_INSIGHTS => attendanceBranch
  | ACADEMIC_INSIGHTS => academicBranch
  | ASSIGNMENT_PLANNING => assignmentBranch
  | CALENDAR_MANAGEMENT => calendarBranch
  | TIMETABLE_ANALYSIS => FallThrough TIMETABLE_ANALYSIS timetableReply
  | GREETING => FallThrough GREETING greetingReply
  | GRATITUDE => FallThrough GRATITUDE gratitudeReply
  | _ => FallThrough GUIDANCE guidanceReply
  end.

Definition usedData : DataUsed :=
  {| hasExpenses := Nat.ltb 0 (Expenses.keyCount (expenses body));
     hasAttendance :=
       match Attendance.totalHeld (attendance body) with
       | Some h => 0 <? h
       | None => false
       end;
     hasTimetable := Nat.ltb 0 (List.length (timetable body));
     hasAssignments := 0 <? assignmentCount;
     hasCalendar := Nat.ltb 0 (List.length (calendarMarks body));
     hasCgpa := Nat.ltb 0 (List.length (cgpa body)) |}.

Definition chat : Response.t :=
  match tryBlock with
  | FallThrough i r =>
      {| Response.status := 200;
         Response.intent := i;
         Response.reply := r;
         Response.metadata :=
           Some {| Metadata.timestamp := now env;
                   Metadata.userName := userName;
                   Metadata.dataUsed := usedData |};
         Response.error := None |}
  | EarlyReturn i r =>
      {| Response.status := 200;
         Response.intent := i;
         Response.reply := r;
         Response.metadata := None;
         Response.error := None |}
  | Throw msg =>
      {| Response.status := 500;
         Response.intent := ERROR;
         Response.reply := "Something went wrong. Could you try that again?";
         Response.metadata := None;
         Response.error := if DEBUG env then Some msg else None |}
  end.
End Handler.
End Validated.


(** ** Arrays as heap objects

    [Array.prototype.sort] reorders the array it is called on and returns
    the same reference; [filter] and [slice] build a new array.  To tell the
    two apart an array variable holds a reference into a heap of arrays. *)

Module Heap.
Section Arrays.
Context {A : Type}.

Definition ref : Type := nat.
Definition t : Type := list (list A).

(** The elements of the array behind [r]. *)
Definition read (r : ref) (h : t) : list A := nth r h [].

(** Overwrite the array behind [r], keeping its identity. *)
Fixpoint write (r : ref) (elems : list A) (h : t) : t :=
  match r, h with
  | O, _ :: rest => elems :: rest
  | S r', a :: rest => a :: write r' elems rest
  | _, [] => []
  end.

(** A fresh array. *)
Definition alloc (elems : list A) (h : t) : ref * t :=
  (List.length h, List.app h [elems]).

(** [array.sort(compare)]: in place, returns the receiver. *)
Definition sort (before : A -> A -> bool) (r : ref) (h : t) : ref * t :=
  (r, write r (JS.sortBy before (read r h)) h).

(** [array.filter(keep)]: a new array. *)
Definition filter (keep : A -> bool) (r : ref) (h : t) : ref * t :=
  alloc (List.filter keep (read r h)) h.

(** [array.slice(0, n)]: a new array. *)
Definition slice (n : nat) (r : ref) (h : t) : ref * t :=
  alloc (firstn n (read r h)) h.
End Arrays.
End Heap.

(** ** The plain handler of [src/routes/chat.route.js] *)

Module Plain.
Import JS Keywords Common.

Definition academicInsights (lowerMessage : string) : bool :=
  anyOf lowerMessage
    ["cgpa"; "gpa"; "grade"; "sgpa"; "semester"; "marks"; "performance"].

Definition calendarManagement (lowerMessage : string) : bool :=
  anyOf lowerMessage
    ["calendar"; "event"; "exam"; "important date"; "meeting"].

Definition timetableAnalysis (lowerMessage : string) : bool :=
  anyOf lowerMessage
    ["class"; "lecture"; "timetable"; "schedule"; "tomorrow"; "today";
     "free day"; "week"; "busy"; "packed"].

(** The [if / else if] chain on a message that passed the
    [!message] check. *)
Definition classifyIntent (message : string) : Intent :=
  let lowerMessage := toLowerCase message in
  if expenseMonthly lowerMessage then EXPENSE_MONTHLY
  else if expenseInsights lowerMessage then EXPENSE_INSIGHTS
  else if attendanceInsights lowerMessage then ATTENDANCE_INSIGHTS
  else if academicInsights lowerMessage then ACADEMIC_INSIGHTS
  else if assignmentPlanning lowerMessage then ASSIGNMENT_PLANNING
  else if calendarManagement lowerMessage then CALENDAR_MANAGEMENT
  else if timetableAnalysis lowerMessage then TIMETABLE_ANALYSIS
  else if (greetingWord lowerMessage
           || String.eqb lowerMessage "")%bool then GREETING
  else if gratitude lowerMessage then GRATITUDE
  else GUIDANCE.

Definition addressUser (text userName : string) : string :=
  userName ++ ", " ++ text.

(** *** ATTENDANCE_INSIGHTS *)

(** The array [replyLines] after the opening sentence. *)
Definition attendanceRemarks (a : Attendance.t) : list string :=
  let percentage := Attendance.percentage a in
  if ltb' percentage (Some 75%Q) then
    let needed :=
      match Attendance.totalHeld a, Attendance.totalAttended a with
      | Some held, Some attended => Some (classesShort held attended)
      | _, _ => None
      end in
    "This is below the recommended threshold of 75%."
    :: match needed with
       | Some n =>
           if 0 <? n
           then ["You need to attend " ++ showZ n
                 ++ " more classes to reach 75%."]
           else []
       | None => []
       end
  else if ltb' percentage (Some 85%Q) then
    ["This is acceptable, but could be improved for better academic standing."]
  else
    ["This is at a good level for academic requirements."].

Definition attendanceReply (userName : string) (a : Attendance.t) : string :=
  match Attendance.totalHeld a with
  | Some 0 => addressUser "No attendance records available yet." userName
  | _ =>
      paragraph
        (map Some
           (addressUser
              ("your attendance is currently at "
               ++ showProp numberToString (Attendance.percentage a) ++ "% ("
               ++ showProp showZ (Attendance.totalAttended a) ++ " of "
               ++ showProp showZ (Attendance.totalHeld a) ++ " classes).")
              userName
            :: attendanceRemarks a))
  end.

(** *** CALENDAR_MANAGEMENT

    An element of [calendarMarks] is printed with [`${date}`] and parsed
    with [new Date(date)]: a date string, or an object that carries a
    [categoryName]. *)

Inductive Mark :=
| DateString (s : string)
| MarkObject (m : CalendarMark.t).

(** String conversion, as used by [sort()], [new Date(d)] and template
    literals. *)
Definition toString (d : Mark) : string :=
  match d with
  | DateString s => s
  | MarkObject _ => "[object Object]"
  end.

(** [d.categoryName?.toLowerCase() || d.toLowerCase()] *)
Definition categoryOf (d : Mark) : Result string :=
  match d with
  | DateString s => inl (toLowerCase s)
  | MarkObject m =>
      match CalendarMark.categoryName m with
      | Some c =>
          if String.eqb (toLowerCase c) ""
          then throw "d.toLowerCase is not a function"
          else inl (toLowerCase c)
      | None => throw "d.toLowerCase is not a function"
      end
  end.

(** The callback of [calendarMarks.filter] over the whole array: the
    first exception aborts the filter. *)
Fixpoint examFilter (l : list Mark) : Result (list Mark) :=
  match l with
  | [] => inl []
  | d :: rest =>
      c <- categoryOf d ;;
      more <- examFilter rest ;;
      inl (if (includes c "exam" || includes c "test")%bool
           then d :: more else more)
  end.

Section Calendar.
Variable env : Env.
Variable lowerMessage : string.
Variable userName : string.

Definition daysUntil (d : Mark) : option Z :=
  daysBetween (parseDate env (toString d)) (now env).

Fixpoint numbered (show : Mark -> string) (index : nat) (l : list Mark)
  : list string :=
  match l with
  | [] => []
  | d :: rest =>
      (showNat (S index) ++ ". " ++ toString d ++ " (" ++ show d ++ ")")
      :: numbered show (S index) rest
  end.

Definition inDays (d : Mark) : string := showNaN (daysUntil d) ++ " days".

(** [daysUntil >= 0 ? daysUntil + ' days' : 'passed'] *)
Definition inDaysOrPassed (d : Mark) : string :=
  match daysUntil d with
  | Some n => if 0 <=? n then showZ n ++ " days" else "passed"
  | None => "passed"
  end.

(** The branch, run on a heap in which [calendarMarks] is the array of
    the request body.  The result is the completion and the heap the
    branch leaves behind. *)
Definition calendarBranch (calendarMarks : Heap.ref) (h : Heap.t)
  : Completion * Heap.t :=
  match Heap.read calendarMarks h with
  | [] =>
      (EarlyReturn CALENDAR_MANAGEMENT
         (addressUser "No important dates in calendar." userName), h)
  | _ :: _ =>
      let (sortedDates, h1) :=
        Heap.sort (fun a b => String.ltb (toString a) (toString b))
          calendarMarks h in
      if includes lowerMessage "exam" then
        match examFilter (Heap.read calendarMarks h1) with
        | inr msg => (Throw msg, h1)
        | inl kept =>
            let (examDates, h2) := Heap.alloc kept h1 in
            match Heap.read examDates h2 with
            | _ :: _ =>
                (FallThrough CALENDAR_MANAGEMENT
                   (formatReply
                      (map Some
                         (addressUser "your exam schedule:" userName
                          :: numbered inDays 0
                               (Heap.read examDates h2)))), h2)
            | [] =>
                (FallThrough CALENDAR_MANAGEMENT
                   (addressUser
                      ("found "
                       ++ showNat
                            (List.length (Heap.read calendarMarks h2))
                       ++ " important dates, none specifically marked as exams.")
                      userName), h2)
            end
        end
      else if (includes lowerMessage "next"
               || includes lowerMessage "upcoming")%bool then
        match Heap.read sortedDates h1 with
        | nextDate :: _ =>
            (FallThrough CALENDAR_MANAGEMENT
               (paragraph
                  [Some (addressUser
                           ("your next important date is "
                            ++ toString nextDate) userName);
                   Some ("which is " ++ showNaN (daysUntil nextDate)
                         ++ " day"
                         ++ (match daysUntil nextDate with
                             | Some 1 => ""
                             | _ => "s"
                             end)
                         ++ " from now.")]), h1)
        | [] =>
            (FallThrough CALENDAR_MANAGEMENT
               (paragraph
                  [Some (addressUser
                           "your next important date is undefined"
                           userName);
                   Some "which is NaN days from now."]), h1)
        end
      else if Nat.leb (List.length (Heap.read calendarMarks h1)) 3 then
        (FallThrough CALENDAR_MANAGEMENT
           (formatReply
              (map Some
                 (addressUser "important calendar dates:" userName
                  :: numbered inDaysOrPassed 0
                       (Heap.read calendarMarks h1)))), h1)
      else
        let (upcoming, h2) := Heap.slice 3 sortedDates h1 in
        (FallThrough CALENDAR_MANAGEMENT
           (formatReply
              (map Some
                 (addressUser
                    ("you have "
                     ++ showNat (List.length (Heap.read calendarMarks h2))
                     ++ " important dates. Here are the upcoming ones:")
                    userName
                  :: numbered inDays 0 (Heap.read upcoming h2)))), h2)
  end.

(** A request whose body holds the array [marks]: the completion of the
    calendar branch and the contents of that same array afterwards. *)
Definition runCalendar (marks : list Mark) : Completion * list Mark :=
  let (calendarMarks, h) := Heap.alloc marks [] in
  let (completion, h') := calendarBranch calendarMarks h in
  (completion, Heap.read calendarMarks h').
End Calendar.
End Plain.

(** ** [getFutureDates] of the validated handler, on the heap *)

Module ValidatedHeap.
(** [items.filter(...).sort(...)]: the filter allocates, the sort works on
    the array the filter returned. *)
Definition getFutureDates (env : Env) (items : Heap.ref)
    (h : @Heap.t CalendarMark.t) : Heap.ref * Heap.t :=
  let (kept, h1) := Heap.filter (Validated.isFuture env) items h in
  Heap.sort (Validated.earlier env) kept h1.
End ValidatedHeap.


(** ** Vocabulary of the statements *)

(** What the weekly analysis is measured against: the class count of each
    day, read off the timetable the way the loop reads it. *)
Module WeeklySpec.
Import Common.

Section Spec.
Variable timetable : list (string * list ClassEntry.t).

Definition classCount (i : Z) : Z :=
  Z.of_nat (List.length (getClassesForDay timetable i)).

Definition sumCounts (days : list Z) : Z :=
  fold_right (fun i acc => classCount i + acc) 0 days.

Definition activeDays (days : list Z) : Z :=
  Z.of_nat (List.length (filter (fun i => 0 <? classCount i) days)).

(** [b] is the busiest of [days]: a day of maximal count, the earliest
    one among equals; no day when every count is zero. *)
Definition busiestOver (days : list Z) (b : DayCount) : Prop :=
  match day b with
  | Some i =>
      In i days /\ count b = Finite (classCount i) /\ 0 < classCount i
      /\ (forall j, In j days -> classCount j <= classCount i)
      /\ (forall j, In j days -> j < i -> classCount j < classCount i)
  | None =>
      count b = Finite 0 /\ forall j, In j days -> classCount j = 0
  end.

(** [l] is the lightest of [days]: a day of minimal non-zero count, the
    earliest one among equals; no day, with count [unset], when every
    count is zero. *)
Definition lightestOver (unset : Count) (days : list Z) (l : DayCount)
  : Prop :=
  match day l with
  | Some i =>
      In i days /\ count l = Finite (classCount i) /\ 0 < classCount i
      /\ (forall j, In j days -> 0 < classCount j ->
                    classCount i <= classCount j)
      /\ (forall j, In j days -> j < i -> 0 < classCount j ->
                    classCount i < classCount j)
  | None =>
      count l = unset /\ forall j, In j days -> classCount j = 0
  end.

(** The loop invariant after the days [done]. *)
Definition scanned (done : list Z) (a : Analysis) : Prop :=
  totalClasses a = sumCounts done
  /\ daysWithClasses a = activeDays done
  /\ busiestOver done (busiestDay a)
  /\ lightestOver Infinity done (lightestDay a).
End Spec.
End WeeklySpec.

(** The classifier as the specification words it: an ordered table of
    (predicate, intent) rules, the first rule whose predicate holds names
    the intent, [GUIDANCE] when none does.  A predicate sees the sanitised
    message and its lower-case form. *)
Module RuleTable.
Import JS Keywords.

Definition Rule : Type := ((string -> string -> bool) * Intent)%type.

Fixpoint firstMatch (rules : list Rule) (sanitized lower : string)
  : Intent :=
  match rules with
  | [] => GUIDANCE
  | (applies, intent) :: rest =>
      if applies sanitized lower then intent
      else firstMatch rest sanitized lower
  end.

Definition onLower (p : string -> bool) : string -> string -> bool :=
  fun _ lower => p lower.

Definition canonicalOrder : list Rule :=
  [(onLower nameQuery, NAME_QUERY);
   (onLower expenseMonthly, EXPENSE_MONTHLY);
   (onLower expenseInsights, EXPENSE_INSIGHTS);
   (onLower attendanceInsights, ATTENDANCE_INSIGHTS);
   (onLower Validated.academicInsights, ACADEMIC_INSIGHTS);
   (onLower assignmentPlanning, ASSIGNMENT_PLANNING);
   (onLower Validated.calendarManagement, CALENDAR_MANAGEMENT);
   (onLower Validated.timetableAnalysis, TIMETABLE_ANALYSIS);
   (fun sanitized lower =>
      (greetingWord lower || String.eqb (trim sanitized) "")%bool,
    GREETING);
   (onLower gratitude, GRATITUDE)].

Definition plainOrder : list Rule :=
  [(onLower expenseMonthly, EXPENSE_MONTHLY);
   (onLower expenseInsights, EXPENSE_INSIGHTS);
   (onLower attendanceInsights, ATTENDANCE_INSIGHTS);
   (onLower Plain.academicInsights, ACADEMIC_INSIGHTS);
   (onLower assignmentPlanning, ASSIGNMENT_PLANNING);
   (onLower Plain.calendarManagement, CALENDAR_MANAGEMENT);
   (onLower Plain.timetableAnalysis, TIMETABLE_ANALYSIS);
   (fun _ lower => (greetingWord lower || String.eqb lower "")%bool,
    GREETING);
   (onLower gratitude, GRATITUDE)].
End RuleTable.

(** Request bodies of the worked examples. *)
Module Scenario.
(** A body with only [message]: every other key takes its default. *)
Definition onlyMessage (msg : string) : Body :=
  {| message := msg;
     firstName := None;
     assignments := [];
     timetable := [];
     todayIndex := 0;
     cgpa := [];
     calendarMarks := [];
     attendance := Attendance.empty;
     expenses := Expenses.empty |}.

Definition withUser (msg name : string) : Body :=
  {| message := msg;
     firstName := Some name;
     assignments := [];
     timetable := [];
     todayIndex := 0;
     cgpa := [];
     calendarMarks := [];
     attendance := Attendance.empty;
     expenses := Expenses.empty |}.

Definition withAttendance (msg : string) (a : Attendance.t) : Body :=
  {| message := msg;
     firstName := None;
     assignments := [];
     timetable := [];
     todayIndex := 0;
     cgpa := [];
     calendarMarks := [];
     attendance := a;
     expenses := Expenses.empty |}.

Definition withCgpa (msg : string) (sems : list SemesterRecord.t) : Body :=
  {| message := msg;
     firstName := None;
     assignments := [];
     timetable := [];
     todayIndex := 0;
     cgpa := sems;
     calendarMarks := [];
     attendance := Attendance.empty;
     expenses := Expenses.empty |}.

(** A fixed environment for the examples: Thursday 1 January 2026,
    00:00 UTC, on a server whose local time is UTC; [Math.random()]
    returns 0.5, so no reply is prefixed with the user name; production
    mode.  The parser knows the dates the examples use. *)
Definition knownDates : list (string * Z) :=
  [("2025-12-31", 1767139200000);
   ("2026-01-01", 1767225600000);
   ("2026-01-02", 1767312000000);
   ("2026-01-05", 1767571200000);
   ("2026-01-08", 1767830400000);
   ("2026-01-09", 1767916800000);
   ("2026-01-02T15:00:00Z", 1767366000000);
   ("2026-03-01", 1772323200000)].

Definition newYear : Env :=
  {| now := 1767225600000;
     getDay := 4;
     getHours := 0;
     startOfToday := 1767225600000;
     random := 1 # 2;
     DEBUG := false;
     parseDate := fun s => JS.lookup s knownDates |}.

(** [{ totalHeld, totalAttended, percentage }] *)
Definition summary (held attended : Z) (percentage : Q) : Attendance.t :=
  {| Attendance.totalHeld := Some held;
     Attendance.totalAttended := Some attended;
     Attendance.percentage := Some percentage;
     Attendance.subjects := None |}.

(** The sentences of the overall attendance reply. *)
Definition overallSummary (percentage : Q) (attended held : Z) : string :=
  "Your attendance is at " ++ JS.numberToString percentage ++ "% ("
  ++ JS.showZ attended ++ " out of " ++ JS.showZ held ++ " classes).".

Definition belowThreshold : string :=
  "This is below the 75% threshold — something to be mindful of.".

Definition neededSentence (needed : Z) : string :=
  "You'd need to attend " ++ JS.showZ needed
  ++ " more classes to reach 75%.".

Definition breakdownOffer : string :=
  "Want to see the breakdown by subject? Just ask.".

Definition acceptableTone : string :=
  "It's acceptable, though there's room to improve.".

Definition goodTone : string :=
  "You're maintaining good attendance — that's solid.".

(** [{ sgpa }], [{ gpa }], [{ sgpa, gpa }] *)
Definition semester (sgpa gpa score : option Q) : SemesterRecord.t :=
  {| SemesterRecord.sgpa := sgpa;
     SemesterRecord.gpa := gpa;
     SemesterRecord.score := score;
     SemesterRecord.semester := None;
     SemesterRecord.name := None |}.
End Scenario.

(** Vocabulary for the grade statements. *)
Module GradeSpec.
Import Validated.

(** The bands from the worst to the best. *)
Definition trendRank (t : Trend) : Z :=
  match t with
  | SignificantDrop => 0
  | SlightDecline => 1
  | Stable => 2
  | SlightImprovement => 3
  | StrongImprovement => 4
  end.

(** The same request with another [cgpa] array. *)
Definition setCgpa (body : Body) (sems : list SemesterRecord.t) : Body :=
  {| message := message body;
     firstName := firstName body;
     assignments := assignments body;
     timetable := timetable body;
     todayIndex := todayIndex body;
     cgpa := sems;
     calendarMarks := calendarMarks body;
     attendance := attendance body;
     expenses := expenses body |}.

(** Two semester records that resolve to the same score and carry the
    same labels. *)
Definition sameGrade (a b : SemesterRecord.t) : Prop :=
  scoreOf a = scoreOf b
  /\ SemesterRecord.semester a = SemesterRecord.semester b
  /\ SemesterRecord.name a = SemesterRecord.name b.

(** A record whose keys, where present, hold non-zero numbers. *)
Definition nonZero (x : option Q) : Prop :=
  match x with
  | Some v => ~ (v == 0)%Q
  | None => True
  end.

(** First-present-wins among [sgpa], [gpa], [score]. *)
Definition firstPresent (sem : SemesterRecord.t) : option Q :=
  match SemesterRecord.sgpa sem with
  | Some v => Some v
  | None =>
      match SemesterRecord.gpa sem with
      | Some v => Some v
      | None => SemesterRecord.score sem
      end
  end.

(** The resolved score as [toFixed(2)] prints it. *)
Definition shownScore (sem : SemesterRecord.t) : string :=
  match scoreOf sem with
  | Some v => JS.toFixed 2 v
  | None => "undefined"
  end.

(** No byte of [s] is outside ASCII. *)
Definition isAscii (c : ascii) : bool := Nat.ltb (nat_of_ascii c) 128.

Fixpoint allAscii (s : string) : bool :=
  match s with
  | EmptyString => true
  | String c rest => (isAscii c && allAscii rest)%bool
  end.
End GradeSpec.

(** Request bodies for the assignment examples. *)
Module AssignmentScenario.
(** [{ "2026-01-09": 1, "2026-01-05": 2, "2026-03-01": 3 }] *)
Definition pending : list (string * Z) :=
  [("2026-01-09", 1); ("2026-01-05", 2); ("2026-03-01", 3)].

Definition withAssignments (msg : string) (a : list (string * Z)) : Body :=
  {| message := msg;
     firstName := None;
     assignments := a;
     timetable := [];
     todayIndex := 0;
     cgpa := [];
     calendarMarks := [];
     attendance := Attendance.empty;
     expenses := Expenses.empty |}.
End AssignmentScenario.

(** A timetable for the weekly examples. *)
Module WeekScenario.
Definition lecture (title slot : string) : ClassEntry.t :=
  {| ClassEntry.name := Some title;
     ClassEntry.subject := None;
     ClassEntry.startTime := None;
     ClassEntry.endTime := None;
     ClassEntry.time := Some slot |}.

Definition threeDays : list (string * list ClassEntry.t) :=
  [("day_0", [lecture "Algebra" "09:00-10:00";
              lecture "Physics" "10:00-11:00"]);
   ("day_2", [lecture "Chemistry" "09:00-10:00";
              lecture "Algebra" "11:00 - 12:00"]);
   ("day_4", [lecture "Lab" "14:00-16:00"])].
End WeekScenario.


(** ** The plain handler, remaining branches and envelope

    [router.post('/chat', ...)] of [src/routes/chat.route.js].  The
    classifier, the attendance branch and the calendar branch are in module
    [Plain]; this module adds the other branches, the [try] block and the
    responses.  The handler reads [calendarMarks] as an array of [Plain.Mark]
    (see there), passed beside the body as [marks]; the field
    [calendarMarks body] is not read. *)

Module PlainHandler.
Import JS Keywords Common Plain.

(** What the route sends back. *)
Inductive Outcome :=
| BadRequest
    (* [res.status(400).json({ error: 'Message is required',
                               intent: 'ERROR' })] *)
| Answer (r : Response.t).

(** [x.toFixed(2)] where [x] may be [undefined] *)
Definition toFixed2 (x : option Q) : Text :=
  match x with
  | Some q => ok (toFixed 2 q)
  | None => throw "Cannot read properties of undefined (reading 'toFixed')"
  end.

(** [latest.sgpa || latest.gpa || latest.score] *)
Definition scoreOf (sem : SemesterRecord.t) : option Q :=
  orElse (orElse (SemesterRecord.sgpa sem) (SemesterRecord.gpa sem))
         (SemesterRecord.score sem).

(** [n > 1 ? 's' : ''] where [n] may be [undefined] *)
Definition plural (n : option Z) : string :=
  match n with
  | Some k => if 1 <? k then "s" else ""
  | None => ""
  end.

(** [`${n} class${n > 1 ? 'es' : ''}`] *)
Definition classes (n : nat) : string :=
  showNat n ++ " class" ++ (if Nat.ltb 1 n then "es" else "").

Definition showCount (c : Count) : string :=
  match c with
  | Finite n => showZ n
  | Infinity => "Infinity"
  end.

Definition dayMap : list (string * Z) :=
  [("monday", 0); ("tuesday", 1); ("wednesday", 2); ("thursday", 3);
   ("friday", 4); ("saturday", 5); ("sunday", 6)].

Section Handler.
Variable env : Env.
Variable body : Body.
Variable marks : list Mark.

Definition lowerMessage : string := toLowerCase (message body).

(** [user.firstName || 'there'] *)
Definition userName : string := orElseString (firstName body) "there".

Definition normalizedTodayIndex : Z :=
  if getDay env =? 0 then 6 else getDay env - 1.

Definition assignmentCount : Z :=
  fold_left (fun sum kv => sum + snd kv) (assignments body) 0.

Definition daysUntil (date : option string) : option Z :=
  match date with
  | Some d => daysBetween (parseDate env d) (now env)
  | None => None
  end.

(** *** EXPENSE_MONTHLY *)
Definition expenseMonthlyReply : string :=
  match Expenses.thisMonth (expenses body) with
  | None =>
      addressUser "No expense data available for this month." userName
  | Some thisMonth =>
      paragraph
        [Some (addressUser
                 ("you've spent ₹" ++ toFixed 2 thisMonth
                  ++ " so far this month.") userName);
         Some (if gtb thisMonth 10000
               then "Spending is on the higher side, so keeping an eye on discretionary expenses would help."
               else "Your spending looks reasonably controlled at the moment.")]
  end.

(** *** EXPENSE_INSIGHTS *)
Definition categoryLine (total : Q) (entry : string * Q) : string :=
  let (cat, amt) := entry in
  let percentage :=
    if gtb total 0 then toFixed 1 ((amt / total) * 100)%Q else "0" in
  "• " ++ cat ++ ": ₹" ++ toFixed 2 amt ++ " (" ++ percentage ++ "%)".

Definition expenseInsightsReply : string :=
  let e := expenses body in
  if Nat.eqb (Expenses.keyCount e) 0 then
    addressUser "No expense records found. Start tracking expenses to manage your budget."
      userName
  else
    let total := orZero (Expenses.total e) in
    let thisMonth := orZero (Expenses.thisMonth e) in
    let categories :=
      match Expenses.categories e with Some c => c | None => [] end in
    let pace :=
      if gtb thisMonth 10000 then
        ["This month's spending is above average. Consider reviewing discretionary expenses."]
      else if gtb thisMonth 5000 then
        ["Monthly spending is within moderate range."]
      else if gtb thisMonth 0 then
        ["Your current spending pace is manageable."]
      else [] in
    let sortedCategories :=
      firstn 2 (sortBy (fun a b => gtb (snd a) (snd b)) categories) in
    let areas :=
      match categories, sortedCategories with
      | _ :: _, _ :: _ =>
          "Primary spending categories:"
          :: map (categoryLine total) sortedCategories
      | _, _ => []
      end in
    let headline :=
      addressUser
        ("overall spending is ₹" ++ toFixed 2 total ++ ", with ₹"
         ++ toFixed 2 thisMonth ++ " this month.") userName in
    formatReply (map Some (headline :: List.app pace areas)).

(** *** ACADEMIC_INSIGHTS *)
Definition academicReply : Text :=
  match cgpa body with
  | [] =>
      ok (addressUser "No academic records available. Add semester grades to track performance."
            userName)
  | firstSem :: rest =>
      let n := List.length (cgpa body) in
      let sgpa := scoreOf (last (cgpa body) firstSem) in
      if (includes lowerMessage "trend"
          || includes lowerMessage "progress")%bool then
        match rest with
        | _ :: _ =>
            let first := scoreOf firstSem in
            latestShown <- toFixed2 sgpa ;;
            firstShown <- toFixed2 first ;;
            let closing :=
              match sgpa, first with
              | Some l, Some f =>
                  if geb (l - f) 0
                  then "with an improvement of +" ++ toFixed 2 (l - f)
                       ++ " over " ++ showNat n ++ " semesters."
                  else "with a change of " ++ toFixed 2 (l - f)
                       ++ " over " ++ showNat n ++ " semesters."
              | _, _ =>
                  "with a change of NaN over " ++ showNat n
                  ++ " semesters."
              end in
            ok (paragraph
                  [Some (addressUser
                           ("your academic progress shows a current SGPA of "
                            ++ latestShown) userName);
                   Some ("starting from " ++ firstShown);
                   Some closing])
        | [] =>
            shown <- toFixed2 sgpa ;;
            ok (addressUser
                  ("your current SGPA is " ++ shown
                   ++ " (based on 1 semester).") userName)
        end
      else
        shown <- toFixed2 sgpa ;;
        ok (paragraph
              [Some (addressUser ("your latest SGPA is " ++ shown)
                       userName);
               Some ("based on " ++ showNat n ++ " semester"
                     ++ (if Nat.ltb 1 n then "s" else "")
                     ++ " of data.")])
  end.

(** *** ASSIGNMENT_PLANNING *)
Definition dueThisWeek (date : string) : bool :=
  match daysUntil (Some date) with
  | Some d => ((0 <=? d) && (d <=? 7))%bool
  | None => false
  end.

Definition weekLine (date : string) : string :=
  let count := lookup date (assignments body) in
  "• " ++ date ++ ": " ++ showProp showZ count ++ " assignment"
  ++ plural count ++ " (" ++ showNaN (daysUntil (Some date)) ++ " days)".

(** [daysUntil !== 1 ? 's' : ''] *)
Definition pluralDays (d : option Z) : string :=
  match d with
  | Some 1 => ""
  | _ => "s"
  end.

Definition assignmentReply : string :=
  let sortedDates := sortStrings (map fst (assignments body)) in
  if (includes lowerMessage "week"
      || includes lowerMessage "this week")%bool then
    match filter dueThisWeek sortedDates with
    | _ :: _ as weekAssignments =>
        formatReply
          (map Some
             (addressUser "here are assignments due this week:" userName
              :: map weekLine weekAssignments))
    | [] => addressUser "No assignments due this week." userName
    end
  else
    let nearestDate := nth_error sortedDates 0 in
    let nearestCount :=
      match nearestDate with
      | Some d => lookup d (assignments body)
      | None => None
      end in
    let days := daysUntil nearestDate in
    if (includes lowerMessage "next"
        || includes lowerMessage "upcoming")%bool then
      paragraph
        [Some (addressUser
                 ("your next deadline is " ++ showProp id nearestDate)
                 userName);
         Some ("with " ++ showProp showZ nearestCount ++ " assignment"
               ++ plural nearestCount ++ " due in " ++ showNaN days
               ++ " day" ++ pluralDays days ++ ".")]
    else
      paragraph
        [Some (addressUser
                 ("you have " ++ showZ assignmentCount
                  ++ " pending assignment"
                  ++ plural (Some assignmentCount)) userName);
         Some ("with the nearest due on " ++ showProp id nearestDate
               ++ " (" ++ showNaN days ++ " days)");
         Some ("for " ++ showProp showZ nearestCount ++ " assignment"
               ++ plural nearestCount ++ ".")].

Definition assignmentBranch : Completion :=
  if assignmentCount =? 0 then
    EarlyReturn ASSIGNMENT_PLANNING
      (addressUser "No pending assignments." userName)
  else FallThrough ASSIGNMENT_PLANNING assignmentReply.

(** *** TIMETABLE_ANALYSIS *)
Definition specificDay : option Z :=
  match find (fun e => includes lowerMessage (fst e)) dayMap with
  | Some (_, index) => Some index
  | None => None
  end.

(** The answer for the classes of one day, or [none] without any. *)
Definition dayAnswer (opening none : string)
    (dayClasses : list ClassEntry.t) : string :=
  match dayClasses with
  | _ :: _ =>
      paragraph
        [Some (addressUser
                 (opening ++ " you have "
                  ++ classes (List.length dayClasses)) userName);
         Some ("(" ++ classList dayClasses ++ ").")]
  | [] => addressUser none userName
  end.

Definition weekLineFor (i : Z) : string :=
  let n := List.length (getClassesForDay (timetable body) i) in
  let todayMarker := if i =? normalizedTodayIndex then " (Today)" else "" in
  getDayName i ++ todayMarker ++ ": " ++ showNat n ++ " classes".

Definition timetableReply : string :=
  let analysis := analyzeWeeklyPattern (timetable body) in
  let todayClasses :=
    getClassesForDay (timetable body) normalizedTodayIndex in
  let tomorrowClasses :=
    getClassesForDay (timetable body) ((normalizedTodayIndex + 1) mod 7) in
  if includes lowerMessage "tomorrow" then
    dayAnswer "tomorrow" "No classes scheduled for tomorrow."
      tomorrowClasses
  else if includes lowerMessage "today" then
    dayAnswer "today" "No classes scheduled today." todayClasses
  else
    match specificDay with
    | Some d =>
        dayAnswer ("on " ++ getDayName d)
          ("No classes scheduled for " ++ getDayName d ++ ".")
          (getClassesForDay (timetable body) d)
    | None =>
        if (includes lowerMessage "free"
            || includes lowerMessage "which day")%bool then
          match
            map getDayName
              (filter
                 (fun i =>
                    Nat.eqb
                      (List.length (getClassesForDay (timetable body) i))
                      0)
                 weekDays)
          with
          | _ :: _ as freeDays =>
              addressUser
                ("days without classes: " ++ join ", " freeDays ++ ".")
                userName
          | [] =>
              addressUser "Classes scheduled every day this week."
                userName
          end
        else if (includes lowerMessage "busiest"
                 || includes lowerMessage "most busy")%bool then
          match day (busiestDay analysis) with
          | Some d =>
              paragraph
                [Some (addressUser
                         ("the busiest day is " ++ getDayName d)
                         userName);
                 Some ("with " ++ showCount (count (busiestDay analysis))
                       ++ " classes.")]
          | None =>
              addressUser "Schedule is evenly balanced across the week."
                userName
          end
        else if (includes lowerMessage "week"
                 || includes lowerMessage "weekly")%bool then
          if 0 <? totalClasses analysis then
            if (includes lowerMessage "packed"
                || includes lowerMessage "busy")%bool then
              paragraph
                [Some (addressUser
                         ("your week includes "
                          ++ showZ (totalClasses analysis)
                          ++ " classes spread across "
                          ++ showZ (daysWithClasses analysis)
                          ++ " days.") userName);
                 Some (if 6 <=? totalClasses analysis
                       then "It's a fairly busy week, especially toward the heavier days."
                       else "The workload looks manageable if you plan ahead.");
                 match day (busiestDay analysis) with
                 | Some d =>
                     Some ("The busiest day is " ++ getDayName d ++ ".")
                 | None => None
                 end]
            else
              formatReply
                (map Some
                   (addressUser "weekly schedule:" userName
                    :: List.app (map weekLineFor weekDays)
                         ["Total: " ++ showZ (totalClasses analysis)
                          ++ " classes across "
                          ++ showZ (daysWithClasses analysis)
                          ++ " days"]))
          else addressUser "No classes scheduled this week." userName
        else
          dayAnswer "today"
            "No classes scheduled today. Ask about specific days or the weekly schedule."
            todayClasses
    end.

(** *** GREETING *)
Definition greetingWords : string :=
  let timeOfDay := getHours env in
  if timeOfDay <? 12 then "Good morning"
  else if timeOfDay <? 17 then "Good afternoon"
  else "Good evening".

Definition greetingReply : string :=
  let todayClasses :=
    getClassesForDay (timetable body) normalizedTodayIndex in
  formatReply
    [Some (greetingWords ++ ", " ++ userName ++ ".");
     Some "";
     Some "Here's a quick overview of where things stand today:";
     Some (match todayClasses with
           | _ :: _ =>
               "• You have " ++ classes (List.length todayClasses)
               ++ " today"
           | [] => "• You don't have any classes today"
           end);
     (if 0 <? assignmentCount
      then Some ("• " ++ showZ assignmentCount ++ " pending assignment"
                 ++ plural (Some assignmentCount))
      else None);
     (match Attendance.totalHeld (attendance body) with
      | Some h =>
          if 0 <? h
          then Some ("• Attendance is currently at "
                     ++ showProp numberToString
                          (Attendance.percentage (attendance body))
                     ++ "%")
          else None
      | None => None
      end);
     (match Expenses.thisMonth (expenses body) with
      | Some m =>
          if gtb m 0
          then Some ("• ₹" ++ toFixed 2 m ++ " spent this month")
          else None
      | None => None
      end)].

(** *** GRATITUDE and GUIDANCE *)
Definition gratitudeReply : string :=
  addressUser
    "you're welcome. Let me know if you need assistance with anything else."
    userName.

Definition guidanceReply : string :=
  paragraph
    [Some (addressUser
             "I can help you analyse your schedule, assignments, attendance, expenses, and important dates."
             userName);
     Some "You can ask things like:";
     Some "How busy is my week, am I low on attendance, or how my spending looks this month."].

(** *** The [try] block, the envelope and the [catch] clause *)
Definition tryBlock : Completion :=
  match classifyIntent (message body) with
  | EXPENSE_MONTHLY => FallThrough EXPENSE_MONTHLY expenseMonthlyReply
  | EXPENSE_INSIGHTS => FallThrough EXPENSE_INSIGHTS expenseInsightsReply
  | ATTENDANCE_INSIGHTS =>
      FallThrough ATTENDANCE_INSIGHTS
        (attendanceReply userName (attendance body))
  | ACADEMIC_INSIGHTS =>
      match academicReply with
      | inl r => FallThrough ACADEMIC_INSIGHTS r
      | inr msg => Throw msg
      end
  | ASSIGNMENT_PLANNING => assignmentBranch
  | CALENDAR_MANAGEMENT =>
      fst (runCalendar env lowerMessage userName marks)
  | TIMETABLE_ANALYSIS => FallThrough TIMETABLE_ANALYSIS timetableReply
  | GREETING => FallThrough GREETING greetingReply
  | GRATITUDE => FallThrough GRATITUDE gratitudeReply
  | _ => FallThrough GUIDANCE guidanceReply
  end.

Definition usedData : DataUsed :=
  {| hasExpenses := Nat.ltb 0 (Expenses.keyCount (expenses body));
     hasAttendance :=
       match Attendance.totalHeld (attendance body) with
       | Some h => 0 <? h
       | None => false
       end;
     hasTimetable := Nat.ltb 0 (List.length (timetable body));
     hasAssignments := 0 <? assignmentCount;
     hasCalendar := Nat.ltb 0 (List.length marks);
     hasCgpa := Nat.ltb 0 (List.length (cgpa body)) |}.

Definition chat : Outcome :=
  if String.eqb (message body) "" then BadRequest
  else
    match tryBlock with
    | FallThrough i r =>
        Answer
          {| Response.status := 200;
             Response.intent := i;
             Response.reply := r;
             Response.metadata :=
               Some {| Metadata.timestamp := now env;
                       Metadata.userName := userName;
                       Metadata.dataUsed := usedData |};
             Response.error := None |}
    | EarlyReturn i r =>
        Answer
          {| Response.status := 200;
             Response.intent := i;
             Response.reply := r;
             Response.metadata := None;
             Response.error := None |}
    | Throw msg =>
        Answer
          {| Response.status := 500;
             Response.intent := ERROR;
             Response.reply :=
               "Unable to process your request. Please try again.";
             Response.metadata := None;
             Response.error := if DEBUG env then Some msg else None |}
    end.
End Handler.
End PlainHandler.


(** ** Vocabulary of the further statements *)

Module CalendarSpec.
(** The instant a mark is dated at: [new Date(item.date).getTime()]. *)
Definition markTime (env : Env) (m : CalendarMark.t) : option Z :=
  match CalendarMark.date m with
  | Some d => parseDate env d
  | None => None
  end.

(** Both marks have a valid date and the first is not after the second. *)
Definition notAfter (env : Env) (a b : CalendarMark.t) : Prop :=
  exists ta tb,
    markTime env a = Some ta /\ markTime env b = Some tb /\ ta <= tb.

(** The clock of a request read consistently: [today] of
    [getFutureDates] is the midnight that starts the day of [now]. *)
Definition clockConsistent (env : Env) : Prop :=
  startOfToday env <= now env < startOfToday env + Common.MS_PER_DAY.
End CalendarSpec.

Module SubjectSpec.
(** [data.held > 0] *)
Definition heldPositive (d : SubjectAttendance.t) : Prop :=
  match SubjectAttendance.held d with
  | Some h => 0 < h
  | None => False
  end.

(** The search state after the entries [done]: the lowest percentage
    among the subjects with classes held, and the subject that has it;
    without such a subject the threshold is still 101. *)
Definition lowestOver (done : list (string * SubjectAttendance.t))
    (acc : option string * Q) : Prop :=
  match fst acc with
  | Some name =>
      exists data,
        In (name, data) done /\ heldPositive data
        /\ snd acc = JS.orZero (SubjectAttendance.percentage data)
        /\ (snd acc < 101)%Q
        /\ forall n d, In (n, d) done -> heldPositive d ->
              (snd acc <= JS.orZero (SubjectAttendance.percentage d))%Q
  | None =>
      snd acc = 101%Q
      /\ forall n d, In (n, d) done -> heldPositive d ->
            (101 <= JS.orZero (SubjectAttendance.percentage d))%Q
  end.

(** The order of the per-subject listing. *)
Definition percentLe (x y : string * SubjectAttendance.t) : Prop :=
  (Validated.subjectPercent x <= Validated.subjectPercent y)%Q.

(** The order of the expense ranking: larger amounts first. *)
Definition amountGe (x y : string * Q) : Prop := (snd y <= snd x)%Q.
End SubjectSpec.

(** Calendar marks for the examples. *)
Module CalendarScenario.
Definition mark (date category : string) : CalendarMark.t :=
  {| CalendarMark.date := Some date;
     CalendarMark.categoryName := Some category |}.

(** Out of date order, with one mark in the past and one undated. *)
Definition marks : list CalendarMark.t :=
  [mark "2026-03-01" "Spring Break";
   mark "2026-01-09" "Midterm Exam";
   mark "2025-12-31" "Holiday";
   {| CalendarMark.date := None; CalendarMark.categoryName := Some "Exam" |};
   mark "2026-01-05" "Public HOLIDAY"].

Definition withCalendar (msg : string) (l : list CalendarMark.t) : Body :=
  {| message := msg;
     firstName := None;
     assignments := [];
     timetable := [];
     todayIndex := 0;
     cgpa := [];
     calendarMarks := l;
     attendance := Attendance.empty;
     expenses := Expenses.empty |}.
End CalendarScenario.

(** Bodies for the attendance and expense examples. *)
Module LedgerScenario.
Definition subject (percentage : Q) (attended held : Z)
  : SubjectAttendance.t :=
  {| SubjectAttendance.percentage := Some percentage;
     SubjectAttendance.attended := Some attended;
     SubjectAttendance.held := Some held |}.

Definition bySubject : list (string * SubjectAttendance.t) :=
  [("Physics", subject 90 18 20);
   ("Algebra", subject 60 12 20);
   ("Chemistry", subject 80 16 20)].

Definition withSubjects (msg : string) : Body :=
  {| message := msg;
     firstName := None;
     assignments := [];
     timetable := [];
     todayIndex := 0;
     cgpa := [];
     calendarMarks := [];
     attendance :=
       {| Attendance.totalHeld := Some 60;
          Attendance.totalAttended := Some 46;
          Attendance.percentage := Some (767 # 10);
          Attendance.subjects := Some bySubject |};
     expenses := Expenses.empty |}.

Definition spending : list (string * Q) :=
  [("Books", 1200%Q); ("Food", 4500%Q); ("Travel", 800%Q);
   ("Rent", 9000%Q)].

Definition withExpenses (msg : string) : Body :=
  {| message := msg;
     firstName := None;
     assignments := [];
     timetable := [];
     todayIndex := 0;
     cgpa := [];
     calendarMarks := [];
     attendance := Attendance.empty;
     expenses :=
       {| Expenses.total := Some 15500%Q;
          Expenses.thisMonth := Some 6000%Q;
          Expenses.categories := Some spending |} |}.
End LedgerScenario.

(** A body that carries a timetable. *)
Module TimetableScenario.
Definition withTimetable (msg : string)
    (tt : list (string * list ClassEntry.t)) : Body :=
  {| message := msg;
     firstName := None;
     assignments := [];
     timetable := tt;
     todayIndex := 0;
     cgpa := [];
     calendarMarks := [];
     attendance := Attendance.empty;
     expenses := Expenses.empty |}.
End TimetableScenario.

Module HandlerSpec.
(** The intents the classifier chain can assign. *)
Definition chainIntents : list Intent :=
  [NAME_QUERY; EXPENSE_MONTHLY; EXPENSE_INSIGHTS; ATTENDANCE_INSIGHTS;
   ACADEMIC_INSIGHTS; ASSIGNMENT_PLANNING; CALENDAR_MANAGEMENT;
   TIMETABLE_ANALYSIS; GREETING; GRATITUDE; GUIDANCE].

(** Every character of [s] is white space. *)
Fixpoint blank (s : string) : bool :=
  match s with
  | EmptyString => true
  | String c rest => (JS.isWhiteSpace c && blank rest)%bool
  end.

(** The keyword starts with a character that is not white space. *)
Definition startsVisible (k : string) : bool :=
  match k with
  | EmptyString => false
  | String c _ => negb (JS.isWhiteSpace c)
  end.
End HandlerSpec.

(** Vocabulary for the plain handler. *)
Module PlainSpec.
(** How a reply of the plain handler opens, by intent: the greeting
    sentence, or the user's name and a comma. *)
Definition opening (env : Env) (body : Body) (i : Intent) : string :=
  match i with
  | GREETING =>
      PlainHandler.greetingWords env ++ ", " ++ PlainHandler.userName body
      ++ "."
  | _ => PlainHandler.userName body ++ ", "
  end.

(** [s] is [p] followed by some text. *)
Definition opensWith (p s : string) : Prop := exists rest, s = p ++ rest.

(** A mark on which the exam filter's callback throws: an object whose
    [categoryName] is missing or empty. *)
Definition uncategorised (d : Plain.Mark) : bool :=
  match Plain.categoryOf d with
  | inl _ => false
  | inr _ => true
  end.

(** The intents the plain chain can assign. *)
Definition chainIntents : list Intent :=
  [EXPENSE_MONTHLY; EXPENSE_INSIGHTS; ATTENDANCE_INSIGHTS;
   ACADEMIC_INSIGHTS; ASSIGNMENT_PLANNING; CALENDAR_MANAGEMENT;
   TIMETABLE_ANALYSIS; GREETING; GRATITUDE; GUIDANCE].
End PlainSpec.

(** Requests to the plain handler for the examples. *)
Module PlainScenario.
Definition asha (msg : string) : Body :=
  {| message := msg;
     firstName := Some "Asha";
     assignments := [("2026-01-05", 2)];
     timetable := [];
     todayIndex := 0;
     cgpa := [];
     calendarMarks := [];
     attendance := Attendance.empty;
     expenses := Expenses.empty |}.

(** Two dated strings and one object without a category. *)
Definition mixedMarks : list Plain.Mark :=
  [Plain.DateString "2026-03-01 exam";
   Plain.MarkObject
     {| CalendarMark.date := Some "2026-01-09";
        CalendarMark.categoryName := None |};
   Plain.DateString "2026-01-05"].
End PlainScenario.

(** The position of an intent in the [else if] chain of the validated
    handler; the plain chain is the same without its first rule. *)
Module ChainSpec.
Definition rank (i : Intent) : nat :=
  match i with
  | NAME_QUERY => 0
  | EXPENSE_MONTHLY => 1
  | EXPENSE_INSIGHTS => 2
  | ATTENDANCE_INSIGHTS => 3
  | ACADEMIC_INSIGHTS => 4
  | ASSIGNMENT_PLANNING => 5
  | CALENDAR_MANAGEMENT => 6
  | TIMETABLE_ANALYSIS => 7
  | GREETING => 8
  | GRATITUDE => 9
  | GUIDANCE => 10
  | _ => 11
  end.
End ChainSpec.

(** ** Sanity checks of the primitives *)

Example includes_nothing_hi : JS.includes "nothing" "hi" = true.
Proof. reflexivity. Qed.

Example toFixed_samples :
  JS.toFixed 2 (78 # 10) = "7.80" /\ JS.toFixed 2 (-(1 # 2)) = "-0.50"
  /\ JS.toFixed 1 (125 # 10) = "12.5" /\ JS.toFixed 2 (1005 # 1000) = "1.01"
  /\ JS.numberToString (725 # 10) = "72.5" /\ JS.numberToString 70 = "70".
Proof. repeat split; reflexivity. Qed.

Example sortStrings_sample :
  JS.sortStrings ["2025-03-01"; "2025-01-01"; "2025-02-01"]
  = ["2025-01-01"; "2025-02-01"; "2025-03-01"].
Proof. reflexivity. Qed.



(** ** Weekly pattern analysis *)

Module WeeklyFacts.
Import Common WeeklySpec.
Local Open Scope list_scope.

Section Facts.
Variable timetable : list (string * list ClassEntry.t).

Lemma classCount_nonneg i : 0 <= classCount timetable i.
Proof. unfold classCount. lia. Qed.

Lemma sumCounts_snoc days d :
  sumCounts timetable (days ++ [d]) = sumCounts timetable days + classCount timetable d.
Proof.
  induction days as [|x days IH]; simpl.
  - lia.
  - rewrite IH. lia.
Qed.

Lemma activeDays_snoc days d :
  activeDays timetable (days ++ [d])
  = if 0 <? classCount timetable d then activeDays timetable days + 1
    else activeDays timetable days.
Proof.
  unfold activeDays. rewrite filter_app, length_app. simpl.
  destruct (0 <? classCount timetable d); simpl; lia.
Qed.

Lemma scanned_nil : scanned timetable [] (emptyAnalysis).
Proof.
  unfold scanned, busiestOver, lightestOver; simpl.
  repeat split; intros j [].
Qed.

(** One iteration keeps the invariant, provided the new day comes after
    the days already scanned. *)
Lemma scanned_step done a d :
  scanned timetable done a ->
  (forall j, In j done -> j < d) ->
  scanned timetable (done ++ [d]) (analyzeDay timetable a d).
Proof.
  intros (Htot & Hact & Hbusy & Hlight) Hlt.
  pose proof (classCount_nonneg d) as Hd.
  unfold scanned, analyzeDay.
  change (Z.of_nat (List.length (getClassesForDay timetable d)))
    with (classCount timetable d).
  cbn [totalClasses daysWithClasses busiestDay lightestDay].
  split; [rewrite sumCounts_snoc; lia|].
  split; [rewrite activeDays_snoc, Hact; reflexivity|].
  split.
  - (* busiest *)
    unfold busiestOver in *.
    destruct (day (busiestDay a)) as [i|] eqn:Hday.
    + destruct Hbusy as (Hin & Hcnt & Hpos & Hmax & Hfirst).
      rewrite Hcnt. cbn [above].
      destruct (classCount timetable i <? classCount timetable d) eqn:Hcmp; cbn [day count].
      * apply Z.ltb_lt in Hcmp.
        repeat split; try lia.
        -- apply in_or_app; right; left; reflexivity.
        -- intros j Hj. apply in_app_or in Hj as [Hj|[<-|[]]]; [|lia].
           specialize (Hmax j Hj). lia.
        -- intros j Hj Hji. apply in_app_or in Hj as [Hj|[<-|[]]].
           ++ specialize (Hmax j Hj). lia.
           ++ lia.
      * apply Z.ltb_ge in Hcmp. rewrite Hday.
        repeat split; try assumption.
        -- apply in_or_app; left; assumption.
        -- intros j Hj. apply in_app_or in Hj as [Hj|[<-|[]]]; auto.
        -- intros j Hj Hji. apply in_app_or in Hj as [Hj|[<-|[]]]; auto.
           specialize (Hlt i Hin). lia.
    + destruct Hbusy as (Hcnt & Hzero).
      rewrite Hcnt. cbn [above].
      destruct (0 <? classCount timetable d) eqn:Hcmp; cbn [day count].
      * apply Z.ltb_lt in Hcmp.
        repeat split; try lia.
        -- apply in_or_app; right; left; reflexivity.
        -- intros j Hj. apply in_app_or in Hj as [Hj|[<-|[]]]; [|lia].
           rewrite (Hzero j Hj). lia.
        -- intros j Hj Hji. apply in_app_or in Hj as [Hj|[<-|[]]].
           ++ rewrite (Hzero j Hj). lia.
           ++ lia.
      * apply Z.ltb_ge in Hcmp. rewrite Hday.
        split; [assumption|].
        intros j Hj. apply in_app_or in Hj as [Hj|[<-|[]]]; auto. lia.
  - (* lightest *)
    unfold lightestOver in *.
    destruct (day (lightestDay a)) as [i|] eqn:Hday.
    + destruct Hlight as (Hin & Hcnt & Hpos & Hmin & Hfirst).
      rewrite Hcnt. cbn [below].
      destruct ((classCount timetable d <? classCount timetable i) && (0 <? classCount timetable d))%bool eqn:Hcmp; cbn [day count].
      * apply andb_prop in Hcmp as [H1 H2].
        apply Z.ltb_lt in H1, H2.
        repeat split; try lia.
        -- apply in_or_app; right; left; reflexivity.
        -- intros j Hj Hjp. apply in_app_or in Hj as [Hj|[<-|[]]]; [|lia].
           specialize (Hmin j Hj Hjp). lia.
        -- intros j Hj Hji Hjp. apply in_app_or in Hj as [Hj|[<-|[]]].
           ++ specialize (Hmin j Hj Hjp). lia.
           ++ lia.
      * rewrite Hday.
        assert (Hge : 0 < classCount timetable d -> classCount timetable i <= classCount timetable d).
        { intros Hp. apply andb_false_iff in Hcmp as [H|H];
            [apply Z.ltb_ge in H | apply Z.ltb_ge in H]; lia. }
        repeat split; try assumption.
        -- apply in_or_app; left; assumption.
        -- intros j Hj Hjp. apply in_app_or in Hj as [Hj|[<-|[]]]; auto.
        -- intros j Hj Hji Hjp.
           apply in_app_or in Hj as [Hj|[<-|[]]]; auto.
           specialize (Hlt i Hin). lia.
    + destruct Hlight as (Hcnt & Hzero).
      rewrite Hcnt. cbn [below andb].
      destruct (0 <? classCount timetable d) eqn:Hcmp; cbn [day count].
      * apply Z.ltb_lt in Hcmp.
        repeat split; try lia.
        -- apply in_or_app; right; left; reflexivity.
        -- intros j Hj Hjp. apply in_app_or in Hj as [Hj|[<-|[]]]; [|lia].
           rewrite (Hzero j Hj) in Hjp. lia.
        -- intros j Hj Hji Hjp. apply in_app_or in Hj as [Hj|[<-|[]]].
           ++ rewrite (Hzero j Hj) in Hjp. lia.
           ++ lia.
      * apply Z.ltb_ge in Hcmp. rewrite Hday.
        split; [assumption|].
        intros j Hj. apply in_app_or in Hj as [Hj|[<-|[]]]; auto. lia.
Qed.

(** The whole scan, over any increasing list of days. *)
Lemma scanned_fold rest : forall done a,
  scanned timetable done a ->
  StronglySorted Z.lt rest ->
  (forall j d, In j done -> In d rest -> j < d) ->
  scanned timetable (done ++ rest)
    (fold_left (analyzeDay timetable) rest a).
Proof.
  induction rest as [|d rest IH]; intros done a Ha Hsorted Hlt.
  - rewrite app_nil_r. exact Ha.
  - simpl fold_left.
    replace (done ++ d :: rest) with ((done ++ [d]) ++ rest)
      by (rewrite <- app_assoc; reflexivity).
    inversion Hsorted as [|? ? Hs Hall]; subst.
    apply IH.
    + apply scanned_step; [exact Ha|].
      intros j Hj. apply Hlt; [exact Hj | left; reflexivity].
    + exact Hs.
    + intros j e Hj He. apply in_app_or in Hj as [Hj|[<-|[]]].
      * apply Hlt; [exact Hj | right; exact He].
      * rewrite Forall_forall in Hall. apply Hall. exact He.
Qed.

Lemma weekDays_sorted : StronglySorted Z.lt weekDays.
Proof.
  unfold weekDays.
  repeat (constructor; [|repeat constructor; lia]).
  constructor.
Qed.

Lemma scanned_week :
  scanned timetable weekDays
    (fold_left (analyzeDay timetable) weekDays emptyAnalysis).
Proof.
  apply (scanned_fold weekDays [] emptyAnalysis).
  - apply scanned_nil.
  - apply weekDays_sorted.
  - intros j d [].
Qed.

(** C4.  For every timetable, the weekly analysis returns: as
    [totalClasses] the sum of the class counts of days 0..6; as
    [daysWithClasses] the number of those days with a count above zero;
    as busiest day a day of maximal count, the lowest index among
    equals; as lightest day a day of minimal non-zero count (again the
    lowest index among equals); and no day ([null], count 0) for both
    when no day has a class. *)
Theorem analyzeWeeklyPattern_correct :
  let a := analyzeWeeklyPattern timetable in
  totalClasses a
  = classCount timetable 0 + classCount timetable 1
    + classCount timetable 2 + classCount timetable 3
    + classCount timetable 4 + classCount timetable 5
    + classCount timetable 6
  /\ daysWithClasses a
     = Z.of_nat
         (List.length
            (filter (fun i => 0 <? classCount timetable i) weekDays))
  /\ busiestOver timetable weekDays (busiestDay a)
  /\ lightestOver timetable (Finite 0) weekDays (lightestDay a)
  /\ ((forall j, In j weekDays -> classCount timetable j = 0) ->
      busiestDay a = {| day := None; count := Finite 0 |}
      /\ lightestDay a = {| day := None; count := Finite 0 |}).
Proof.
  intros a.
  destruct scanned_week as (Htot & Hact & Hbusy & Hlight).
  set (w := fold_left (analyzeDay timetable) weekDays emptyAnalysis) in *.
  assert (Hshape :
            totalClasses a = totalClasses w
            /\ daysWithClasses a = daysWithClasses w
            /\ busiestDay a = busiestDay w
            /\ lightestOver timetable (Finite 0) weekDays (lightestDay a)).
  { subst a. unfold analyzeWeeklyPattern. fold w.
    unfold lightestOver in *.
    destruct (day (lightestDay w)) as [i|] eqn:Hday.
    - destruct Hlight as (Hin & Hcnt & Hrest).
      rewrite Hcnt. cbn [isInfinity]. rewrite Hday, Hcnt.
      repeat split; try assumption; apply Hrest.
    - destruct Hlight as (Hcnt & Hzero).
      rewrite Hcnt. cbn [isInfinity lightestDay busiestDay totalClasses
                           daysWithClasses day count].
      repeat split; assumption. }
  destruct Hshape as (Ht & Hd & Hb & Hl).
  split; [rewrite Ht, Htot; unfold sumCounts, weekDays; simpl; lia|].
  split; [rewrite Hd, Hact; reflexivity|].
  split; [rewrite Hb; exact Hbusy|].
  split; [exact Hl|].
  intros Hzero. split.
  - rewrite Hb. unfold busiestOver in Hbusy.
    destruct (busiestDay w) as [bd bc]. cbn [day count] in Hbusy.
    destruct bd as [i|].
    + destruct Hbusy as (Hin & _ & Hpos & _).
      rewrite (Hzero i Hin) in Hpos. lia.
    + destruct Hbusy as (-> & _). reflexivity.
  - unfold lightestOver in Hl.
    destruct (lightestDay a) as [ld lc]. cbn [day count] in Hl.
    destruct ld as [i|].
    + destruct Hl as (Hin & _ & Hpos & _).
      rewrite (Hzero i Hin) in Hpos. lia.
    + destruct Hl as (-> & _). reflexivity.
Qed.
End Facts.

(** Two classes on Monday and on Wednesday, one on Friday: Monday wins
    the tie for the busiest day, Friday is the lightest. *)
Example analyzeWeeklyPattern_sample :
  analyzeWeeklyPattern WeekScenario.threeDays
  = {| busiestDay := {| day := Some 0; count := Finite 2 |};
       lightestDay := {| day := Some 4; count := Finite 1 |};
       totalClasses := 5;
       daysWithClasses := 3 |}
  /\ analyzeWeeklyPattern []
     = {| busiestDay := {| day := None; count := Finite 0 |};
          lightestDay := {| day := None; count := Finite 0 |};
          totalClasses := 0;
          daysWithClasses := 0 |}.
Proof. split; reflexivity. Qed.
End WeeklyFacts.


(** ** The intent classifier *)

Module ClassifierFacts.
Import JS Keywords RuleTable.

(** Both chains are first-match evaluations of their rule tables. *)
Lemma classifyIntent_firstMatch (msg : string) :
  Validated.classifyIntent msg
  = firstMatch canonicalOrder msg (toLowerCase msg).
Proof. reflexivity. Qed.

Lemma plain_classifyIntent_firstMatch (msg : string) :
  Plain.classifyIntent msg = firstMatch plainOrder msg (toLowerCase msg).
Proof. reflexivity. Qed.

Lemma anyOf_true_iff lower keys :
  anyOf lower keys = true
  <-> exists k, In k keys /\ includes lower k = true.
Proof. unfold anyOf. apply existsb_exists. Qed.

(** A group that lists more keywords matches more messages. *)
Lemma anyOf_incl lower keys keys' :
  incl keys keys' -> anyOf lower keys' = false -> anyOf lower keys = false.
Proof.
  intros Hincl Hfalse.
  destruct (anyOf lower keys) eqn:Hany; [|reflexivity].
  apply anyOf_true_iff in Hany as (k & Hin & Hk).
  assert (anyOf lower keys' = true) as Htrue
      by (apply anyOf_true_iff; exists k; auto).
  congruence.
Qed.

Lemma expenseMonthly_intro lower :
  includes lower "this month" = true ->
  includes lower "spend" = true \/ includes lower "expense" = true ->
  expenseMonthly lower = true.
Proof.
  intros Hmonth Hword. unfold expenseMonthly. rewrite Hmonth.
  destruct Hword as [-> | ->]; [reflexivity | apply orb_true_r].
Qed.

(** C1 (amended).  A message whose lowered text contains "this month"
    together with "spend" or "expense" is never classified as
    EXPENSE_INSIGHTS: the chain is the first-match evaluation of the rule
    table and the monthly rule precedes the general expense rule.  The
    plain handler always answers EXPENSE_MONTHLY; the validated handler
    answers EXPENSE_MONTHLY unless the message also contains one of the
    name-query phrases, whose rule comes first and then gives
    NAME_QUERY. *)
Theorem expense_monthly_precedence (msg : string) :
  includes (toLowerCase msg) "this month" = true ->
  includes (toLowerCase msg) "spend" = true
  \/ includes (toLowerCase msg) "expense" = true ->
  Validated.classifyIntent msg
  = firstMatch canonicalOrder msg (toLowerCase msg)
  /\ Plain.classifyIntent msg = EXPENSE_MONTHLY
  /\ Validated.classifyIntent msg
     = (if nameQuery (toLowerCase msg) then NAME_QUERY
        else EXPENSE_MONTHLY)
  /\ Validated.classifyIntent msg <> EXPENSE_INSIGHTS.
Proof.
  intros Hmonth Hword.
  pose proof (expenseMonthly_intro _ Hmonth Hword) as Hrule.
  split; [reflexivity|].
  split; [unfold Plain.classifyIntent; cbv zeta; rewrite Hrule; reflexivity|].
  assert (Hv : Validated.classifyIntent msg
               = if nameQuery (toLowerCase msg) then NAME_QUERY
                 else EXPENSE_MONTHLY).
  { unfold Validated.classifyIntent; cbv zeta. rewrite Hrule.
    reflexivity. }
  split; [exact Hv|].
  rewrite Hv. destruct (nameQuery (toLowerCase msg)); discriminate.
Qed.

(** The message of the specification's example is classified as
    EXPENSE_MONTHLY by both handlers. *)
Lemma expense_monthly_precedence_witness :
  Plain.classifyIntent "how much did I spend this month" = EXPENSE_MONTHLY
  /\ Validated.classifyIntent "how much did I spend this month"
     = EXPENSE_MONTHLY.
Proof.
  destruct (expense_monthly_precedence "how much did I spend this month"
              eq_refl (or_introl eq_refl)) as (_ & Hplain & Hvalid & _).
  split; [exact Hplain | exact Hvalid].
Defined.

(** C1 as stated fails on the validated handler: this message contains
    "this month" and "spend", and is a NAME_QUERY. *)
Lemma expense_monthly_not_universal :
  includes (toLowerCase "Who am I to spend this month") "this month" = true
  /\ includes (toLowerCase "Who am I to spend this month") "spend" = true
  /\ Validated.classifyIntent "Who am I to spend this month" = NAME_QUERY
  /\ Validated.classifyIntent "Who am I to spend this month"
     <> EXPENSE_MONTHLY.
Proof. repeat split; try reflexivity. discriminate. Qed.

(** C10.  Greeting detection is substring containment: when none of the
    rules for name query, expenses, attendance, academics, assignments,
    calendar and timetable matches, a lowered message that contains "hi",
    "hello" or "hey" anywhere, also inside a longer word, is a GREETING
    for both handlers, and not GUIDANCE. *)
Theorem greeting_by_substring (msg : string) :
  nameQuery (toLowerCase msg) = false ->
  expenseMonthly (toLowerCase msg) = false ->
  expenseInsights (toLowerCase msg) = false ->
  attendanceInsights (toLowerCase msg) = false ->
  Validated.academicInsights (toLowerCase msg) = false ->
  assignmentPlanning (toLowerCase msg) = false ->
  Validated.calendarManagement (toLowerCase msg) = false ->
  Validated.timetableAnalysis (toLowerCase msg) = false ->
  includes (toLowerCase msg) "hi" = true
  \/ includes (toLowerCase msg) "hello" = true
  \/ includes (toLowerCase msg) "hey" = true ->
  Validated.classifyIntent msg = GREETING
  /\ Plain.classifyIntent msg = GREETING.
Proof.
  intros Hname Hmonthly Hexpense Hatt Hacad Hassign Hcal Htime Hword.
  assert (Hgreet : greetingWord (toLowerCase msg) = true).
  { apply anyOf_true_iff.
    destruct Hword as [H | [H | H]];
      [exists "hi" | exists "hello" | exists "hey"];
      (split; [simpl; tauto | exact H]). }
  split.
  - unfold Validated.classifyIntent; cbv zeta.
    rewrite Hname, Hmonthly, Hexpense, Hatt, Hacad, Hassign, Hcal, Htime,
      Hgreet.
    reflexivity.
  - assert (Hacad' : Plain.academicInsights (toLowerCase msg) = false).
    { revert Hacad. apply anyOf_incl.
      intros k Hk; simpl in *; tauto. }
    assert (Hcal' : Plain.calendarManagement (toLowerCase msg) = false).
    { revert Hcal. apply anyOf_incl.
      intros k Hk; simpl in *; tauto. }
    assert (Htime' : Plain.timetableAnalysis (toLowerCase msg) = false).
    { unfold Validated.timetableAnalysis in Htime.
      apply orb_false_elim in Htime as [Htime _].
      apply orb_false_elim in Htime as [Htime Hwork].
      destruct (Plain.timetableAnalysis (toLowerCase msg)) eqn:Hp;
        [|reflexivity].
      apply anyOf_true_iff in Hp as (k & Hin & Hk).
      assert (anyOf (toLowerCase msg)
                ["class"; "lecture"; "timetable"; "schedule"; "tomorrow";
                 "today"; "monday"; "tuesday"; "wednesday"; "thursday";
                 "friday"; "saturday"; "sunday"; "free day"; "off day";
                 "day off"; "week"; "weekly"] = true
              \/ Validated.workloadQuery (toLowerCase msg) = true)
        as [Habs | Habs].
      { simpl in Hin.
        destruct Hin as [<- | [<- | [<- | [<- | [<- | [<- | [<- | [<- | [<- | [<- | []]]]]]]]]]];
          try (left; apply anyOf_true_iff; eexists;
               split; [|exact Hk]; simpl; tauto);
          right; apply anyOf_true_iff; eexists;
          (split; [|exact Hk]); simpl; tauto. }
      - congruence.
      - congruence. }
    unfold Plain.classifyIntent; cbv zeta.
    rewrite Hmonthly, Hexpense, Hatt, Hacad', Hassign, Hcal', Htime', Hgreet.
    reflexivity.
Qed.

(** "nothing" has no keyword of a higher rule and contains "hi". *)
Lemma greeting_by_substring_witness :
  Validated.classifyIntent "nothing" = GREETING
  /\ Plain.classifyIntent "nothing" = GREETING.
Proof.
  apply (greeting_by_substring "nothing"); try reflexivity.
  left; reflexivity.
Defined.

Example greeting_inside_they :
  includes "they" "hey" = true
  /\ Validated.classifyIntent "they" = GREETING
  /\ Plain.classifyIntent "they" = GREETING.
Proof. repeat split; reflexivity. Qed.
End ClassifierFacts.


(** ** Attendance *)

Module NumberFacts.
Import JS.

Lemma ltb_lt x y : ltb x y = true <-> (x < y)%Q.
Proof.
  unfold ltb. rewrite negb_true_iff.
  split.
  - intros H. apply Qnot_le_lt. intros Hle.
    apply Qle_bool_iff in Hle. congruence.
  - intros H. destruct (Qle_bool y x) eqn:Hb; [|reflexivity].
    apply Qle_bool_iff in Hb. exfalso. exact (Qlt_not_le _ _ H Hb).
Qed.

Lemma ltb_ge x y : ltb x y = false <-> (y <= x)%Q.
Proof.
  unfold ltb. rewrite negb_false_iff. apply Qle_bool_iff.
Qed.

Lemma gtb_gt x y : gtb x y = true <-> (y < x)%Q.
Proof. apply ltb_lt. Qed.

Lemma gtb_le x y : gtb x y = false <-> (x <= y)%Q.
Proof. apply ltb_ge. Qed.

Lemma append_assoc (a b c : string) :
  ((a ++ b) ++ c = a ++ (b ++ c))%string.
Proof.
  induction a as [|ch a IH]; simpl; [reflexivity | now rewrite IH].
Qed.

(** [Math.ceil(held * 0.75)] in integer arithmetic. *)
Lemma classesShort_eq held attended :
  Common.classesShort held attended = (3 * held + 3) / 4 - attended.
Proof.
  unfold Common.classesShort, Qceiling, Qfloor.
  cbn [Qopp Qmult inject_Z Qnum Qden Pos.mul].
  f_equal.
  Z.div_mod_to_equations. lia.
Qed.
End NumberFacts.

Module AttendanceFacts.
Import JS Common Scenario NumberFacts.
Local Open Scope list_scope.

(** C2 (amended).  For an attendance summary with [totalHeld > 0]:
    [needed = max(0, ceil(held * 0.75) - attended)] is never negative.
    Below 75% the reply flags the threshold and gives [needed] whenever it
    is positive, which it is whenever attended/held itself is below 75%;
    a [needed] of zero is not mentioned.  From 75% up to 85% the reply has
    the acceptable tone, from 85% the good tone, and in both no figure.
    These sentences are the reply of an attendance query that asks for
    no per-subject view.  The plain handler has the same three bands. *)
Theorem attendance_bands (body : Body) (held attended : Z) (pct : Q) :
  Attendance.totalHeld (attendance body) = Some held ->
  0 < held ->
  Attendance.totalAttended (attendance body) = Some attended ->
  Attendance.percentage (attendance body) = Some pct ->
  let needed := Z.max 0 (classesShort held attended) in
  let figure := if 0 <? needed then [neededSentence needed] else [] in
  let offer :=
    match Attendance.subjects (attendance body) with
    | Some (_ :: _) => [breakdownOffer]
    | _ => []
    end in
  0 <= needed
  /\ (4 * attended < 3 * held -> 0 < needed)
  /\ ((pct < 75)%Q ->
      Validated.overallParts body
      = overallSummary pct attended held :: belowThreshold
        :: figure ++ offer
      /\ Plain.attendanceRemarks (attendance body)
         = "This is below the recommended threshold of 75%."%string
           :: (if 0 <? needed
               then [("You need to attend " ++ showZ needed
                      ++ " more classes to reach 75%.")%string]
               else []))
  /\ ((75 <= pct)%Q -> (pct < 85)%Q ->
      Validated.overallParts body
      = [overallSummary pct attended held; acceptableTone]
      /\ Plain.attendanceRemarks (attendance body)
         = ["This is acceptable, but could be improved for better academic standing."%string])
  /\ ((85 <= pct)%Q ->
      Validated.overallParts body
      = [overallSummary pct attended held; goodTone]
      /\ Plain.attendanceRemarks (attendance body)
         = ["This is at a good level for academic requirements."%string])
  /\ (forall env,
        Validated.perSubjectQuery (Validated.lowerMessage body) = false ->
        Validated.lowestSubjectQuery (Validated.lowerMessage body) = false ->
        Validated.attendanceBranch env body
        = FallThrough ATTENDANCE_INSIGHTS
            (Validated.addressMaybe env
               (join " " (Validated.overallParts body))
               (Validated.userName body))).
Proof.
  intros Hheld Hpos Hatt Hpct needed figure offer.
  assert (Hneeded : 0 <= needed) by (subst needed; lia).
  split; [exact Hneeded|].
  split.
  { intros Hratio. subst needed. rewrite classesShort_eq.
    Z.div_mod_to_equations. lia. }
  assert (Hsummary :
            ("Your attendance is at "
             ++ Validated.overallFigures (attendance body) " out of "
             ++ " classes).")%string
            = overallSummary pct attended held).
  { unfold Validated.overallFigures, overallSummary.
    rewrite Hheld, Hatt, Hpct. cbn [showProp].
    repeat rewrite append_assoc. reflexivity. }
  assert (Hplain_needed :
            (if 0 <? classesShort held attended
             then [("You need to attend " ++ showZ (classesShort held attended)
                    ++ " more classes to reach 75%.")%string]
             else [])
            = (if 0 <? needed
               then [("You need to attend " ++ showZ needed
                      ++ " more classes to reach 75%.")%string]
               else [])).
  { subst needed.
    destruct (0 <? classesShort held attended) eqn:Hs.
    - apply Z.ltb_lt in Hs. rewrite Z.max_r by lia.
      apply Z.ltb_lt in Hs. rewrite Hs. reflexivity.
    - apply Z.ltb_ge in Hs. rewrite Z.max_l by lia. reflexivity. }
  split; [|split; [|split]].
  - intros Hlt. apply ltb_lt in Hlt.
    split.
    + unfold Validated.overallParts. cbv zeta.
      rewrite Hsummary, Hheld, Hatt, Hpct.
      cbn [ltb' Validated.neededClasses]. rewrite Hlt.
      reflexivity.
    + unfold Plain.attendanceRemarks. cbv zeta.
      rewrite Hheld, Hatt, Hpct. cbn [ltb']. rewrite Hlt.
      rewrite Hplain_needed. reflexivity.
  - intros Hge Hlt. apply ltb_ge in Hge. apply ltb_lt in Hlt.
    split.
    + unfold Validated.overallParts. cbv zeta.
      rewrite Hsummary, Hpct. cbn [ltb']. rewrite Hge, Hlt. reflexivity.
    + unfold Plain.attendanceRemarks. cbv zeta.
      rewrite Hpct. cbn [ltb']. rewrite Hge, Hlt. reflexivity.
  - intros Hge.
    assert (Hge75 : (75 <= pct)%Q)
      by (eapply Qle_trans; [|exact Hge]; discriminate).
    apply ltb_ge in Hge, Hge75.
    split.
    + unfold Validated.overallParts. cbv zeta.
      rewrite Hsummary, Hpct. cbn [ltb']. rewrite Hge, Hge75. reflexivity.
    + unfold Plain.attendanceRemarks. cbv zeta.
      rewrite Hpct. cbn [ltb']. rewrite Hge, Hge75. reflexivity.
  - intros env Hper Hlow.
    unfold Validated.attendanceBranch. rewrite Hheld, Hper, Hlow.
    destruct held; try lia. reflexivity.
Qed.

(** The specification's example: 28 of 40 classes at 70% gives the
    below-threshold flag and [needed = 2]. *)
Lemma attendance_bands_witness :
  Validated.overallParts
    (withAttendance "attendance" (summary 40 28 70))
  = ["Your attendance is at 70% (28 out of 40 classes)."%string;
     "This is below the 75% threshold — something to be mindful of."%string;
     "You'd need to attend 2 more classes to reach 75%."%string].
Proof.
  destruct (attendance_bands
              (withAttendance "attendance" (summary 40 28 70)) 40 28 70
              eq_refl eq_refl eq_refl eq_refl) as (_ & _ & Hbelow & _).
  destruct (Hbelow eq_refl) as [Hparts _].
  exact Hparts.
Defined.

(** C2 as stated fails where the percentage field is below 75 although
    the attended count already reaches 75% of the classes held: the reply
    flags the threshold and gives no figure. *)
Lemma needed_figure_absent_when_zero :
  Z.max 0 (classesShort 40 35) = 0
  /\ Validated.overallParts
       (withAttendance "attendance" (summary 40 35 70))
     = ["Your attendance is at 70% (35 out of 40 classes)."%string;
        "This is below the 75% threshold — something to be mindful of."%string]
  /\ ~ In (neededSentence (Z.max 0 (classesShort 40 35)))
          (Validated.overallParts
             (withAttendance "attendance" (summary 40 35 70))).
Proof.
  split; [reflexivity|].
  split; [reflexivity|].
  intros [H | [H | []]]; discriminate H.
Qed.

(** The whole response for the specification's example. *)
Example attendance_scenario (env : Env) :
  Validated.chat env (withAttendance "attendance" (summary 40 28 70))
  = {| Response.status := 200;
       Response.intent := ATTENDANCE_INSIGHTS;
       Response.reply :=
         Validated.addressMaybe env
           "Your attendance is at 70% (28 out of 40 classes). This is below the 75% threshold — something to be mindful of. You'd need to attend 2 more classes to reach 75%."
           "there";
       Response.metadata :=
         Some {| Metadata.timestamp := now env;
                 Metadata.userName := "there";
                 Metadata.dataUsed :=
                   {| hasExpenses := false;
                      hasAttendance := true;
                      hasTimetable := false;
                      hasAssignments := false;
                      hasCalendar := false;
                      hasCgpa := false |} |};
       Response.error := None |}.
Proof. reflexivity. Qed.
End AttendanceFacts.


(** ** Grades *)

Module TextFacts.
Import JS GradeSpec.

Lemma allAscii_app a b :
  allAscii (a ++ b) = (allAscii a && allAscii b)%bool.
Proof.
  induction a as [|c a IH]; simpl; [reflexivity|].
  rewrite IH. apply andb_assoc.
Qed.

Lemma allAscii_uint d : allAscii (NilEmpty.string_of_uint d) = true.
Proof. induction d; simpl; auto. Qed.

Lemma allAscii_showZ z : allAscii (showZ z) = true.
Proof.
  unfold showZ. destruct (Z.to_int z); simpl; apply allAscii_uint.
Qed.

Lemma allAscii_zeros n : allAscii (zeros n) = true.
Proof. induction n; simpl; auto. Qed.

Lemma allAscii_toFixed f x : allAscii (toFixed f x) = true.
Proof.
  unfold toFixed, padZeros.
  destruct (ltb x 0); destruct f;
    repeat (rewrite allAscii_app || rewrite allAscii_showZ
            || rewrite allAscii_zeros || simpl);
    reflexivity.
Qed.

(** A needle that starts outside ASCII is not found in an ASCII text. *)
Lemma includes_ascii_text s c needle :
  allAscii s = true -> isAscii c = false ->
  includes s (String c needle) = false.
Proof.
  intros Hs Hc. induction s as [|a s IH]; simpl.
  - reflexivity.
  - simpl in Hs. apply andb_prop in Hs as [Ha Hs].
    destruct (ascii_dec c a) as [->|Hne]; [congruence|].
    apply IH. exact Hs.
Qed.
End TextFacts.

Module GradeFacts.
Import JS Validated GradeSpec NumberFacts TextFacts Scenario.
Local Open Scope list_scope.

(** Turn the boolean tests of a cascade into facts about rationals. *)
Ltac cascade :=
  repeat match goal with
    | |- context [ltb ?a ?b] =>
        let H := fresh "Hcmp" in
        destruct (ltb a b) eqn:H;
        [apply ltb_lt in H | apply ltb_ge in H]
    | |- context [gtb ?a ?b] =>
        let H := fresh "Hcmp" in
        destruct (gtb a b) eqn:H;
        [apply gtb_gt in H | apply gtb_le in H]
    end.

Lemma trendOf_bands (d : Q) :
  (trendOf d = StrongImprovement <-> (3 # 10) < d)%Q
  /\ (trendOf d = SlightImprovement <-> 0 < d /\ d <= 3 # 10)%Q
  /\ (trendOf d = SignificantDrop <-> d < - (3 # 10))%Q
  /\ (trendOf d = SlightDecline <-> - (3 # 10) <= d /\ d < 0)%Q
  /\ (trendOf d = Stable <-> d == 0)%Q.
Proof.
  unfold trendOf.
  cascade; repeat split; intros;
    repeat match goal with H : _ /\ _ |- _ => destruct H end;
    first [ discriminate | reflexivity | lra | exfalso; lra ].
Qed.

Lemma trendOf_monotone (d1 d2 : Q) :
  (d1 <= d2)%Q -> trendRank (trendOf d1) <= trendRank (trendOf d2).
Proof.
  intros Hle. unfold trendOf.
  cascade; cbn [trendRank]; try lia; exfalso; lra.
Qed.

Lemma progression_defined sems :
  Forall (fun s => scoreOf s <> None) sems ->
  progression sems = inl (map shownScore sems).
Proof.
  induction 1 as [|s sems Hs _ IH]; simpl.
  - reflexivity.
  - unfold shownScore at 1.
    destruct (scoreOf s) as [v|]; [|congruence].
    simpl. rewrite IH. reflexivity.
Qed.

Lemma last_defined (sems : list SemesterRecord.t) d :
  sems <> [] ->
  Forall (fun s => scoreOf s <> None) sems ->
  scoreOf (last sems d) <> None.
Proof.
  intros Hne Hall. rewrite Forall_forall in Hall. apply Hall.
  destruct sems as [|s sems]; [congruence|].
  clear. revert s. induction sems as [|x sems IH]; intros s.
  - left; reflexivity.
  - right. exact (IH x).
Qed.

Lemma trendText_not_ascii t :
  exists c rest, trendText t = String c rest /\ isAscii c = false.
Proof. destruct t; simpl; eexists; eexists; split; reflexivity. Qed.



(** *** Score resolution *)

Lemma semesterLines_ext sems sems' :
  Forall2 sameGrade sems sems' ->
  forall index, semesterLines index sems = semesterLines index sems'.
Proof.
  induction 1 as [|a b sems sems' (Hs & Hsem & Hname) _ IH]; intros index.
  - reflexivity.
  - simpl. unfold semesterName. rewrite Hs, Hsem, Hname, IH. reflexivity.
Qed.

Lemma progression_ext sems sems' :
  Forall2 sameGrade sems sems' -> progression sems = progression sems'.
Proof.
  induction 1 as [|a b sems sems' (Hs & _) _ IH]; simpl.
  - reflexivity.
  - rewrite Hs, IH. reflexivity.
Qed.

Lemma totalScore_ext sems sems' :
  Forall2 sameGrade sems sems' -> totalScore sems = totalScore sems'.
Proof.
  unfold totalScore. generalize (Some 0%Q).
  intros acc H. revert acc.
  induction H as [|a b sems sems' (Hs & _) _ IH]; intros acc; simpl.
  - reflexivity.
  - rewrite Hs. apply IH.
Qed.

Lemma cgpaAvg_ext sems sems' :
  Forall2 sameGrade sems sems' -> cgpaAvg sems = cgpaAvg sems'.
Proof.
  intros H. unfold cgpaAvg.
  rewrite (totalScore_ext _ _ H), (Forall2_length H). reflexivity.
Qed.

Lemma last_ext sems sems' :
  Forall2 sameGrade sems sems' ->
  forall d d', sameGrade d d' -> sameGrade (last sems d) (last sems' d').
Proof.
  induction 1 as [|a b sems sems' Hab Hrest IH]; intros d d' Hd.
  - exact Hd.
  - destruct Hrest as [|a' b' sems sems' Hab' Hrest].
    + exact Hab.
    + exact (IH d d' Hd).
Qed.

Lemma academicBranch_ext env body sems sems' :
  Forall2 sameGrade sems sems' ->
  academicBranch env (setCgpa body sems)
  = academicBranch env (setCgpa body sems').
Proof.
  intros H.
  unfold academicBranch. f_equal.
  unfold academicReply.
  change (lowerMessage (setCgpa body sems)) with (lowerMessage body).
  change (lowerMessage (setCgpa body sems')) with (lowerMessage body).
  change (userName (setCgpa body sems)) with (userName body).
  change (userName (setCgpa body sems')) with (userName body).
  cbn [cgpa setCgpa].
  pose proof (Forall2_length H) as Hlen.
  destruct H as [|a b rest rest' Hab Hrest]; [reflexivity|].
  assert (Hall : Forall2 sameGrade (a :: rest) (b :: rest'))
    by (constructor; assumption).
  destruct (allGradesQuery (lowerMessage body)).
  - unfold allGradesReply.
    change (userName (setCgpa body (a :: rest))) with (userName body).
    cbn [cgpa setCgpa].
    rewrite (semesterLines_ext _ _ Hall), (cgpaAvg_ext _ _ Hall), Hlen.
    reflexivity.
  - destruct (trendQuery (lowerMessage body)).
    + unfold trendReply.
      change (userName (setCgpa body (a :: rest))) with (userName body).
      change (userName (setCgpa body (b :: rest'))) with (userName body).
      cbn [cgpa setCgpa].
      destruct Hab as (Hs & Hsem & Hname).
      destruct Hrest as [|a' b' rest rest' Hab' Hrest].
      * rewrite Hs. reflexivity.
      * assert (Hlast : sameGrade (last (a :: a' :: rest) a)
                          (last (b :: b' :: rest') b))
          by (apply last_ext; [exact Hall | repeat split; assumption]).
        destruct Hlast as (Hls & _).
        cbv zeta. rewrite Hls, Hs, (progression_ext _ _ Hall), Hlen.
        reflexivity.
    + unfold latestReply.
      change (userName (setCgpa body (a :: rest))) with (userName body).
      change (userName (setCgpa body (b :: rest'))) with (userName body).
      cbn [cgpa setCgpa].
      assert (Hlast : sameGrade (last (a :: rest) a) (last (b :: rest') b))
        by (apply last_ext; [exact Hall | exact Hab]).
      destruct Hlast as (Hls & Hlsem & Hlname).
      cbv zeta. unfold semesterName.
      rewrite Hls, Hlsem, Hlname, (cgpaAvg_ext _ _ Hall), Hlen.
      reflexivity.
Qed.

(** C7 (amended).  The score of a semester record is resolved in the
    order [sgpa], [gpa], [score]: an [sgpa] that is present and not zero
    is used whatever the other keys hold; a [gpa] that is present and not
    zero is used when [sgpa] is absent; [score] is used when both are
    absent.  Every grade computation (latest and first score, trend
    difference, per-semester listing, CGPA average) sees a record only
    through that resolved score: replacing the records by records with
    the same resolved scores and labels leaves every academic reply
    unchanged. *)
Theorem score_resolution :
  (forall sem v,
      SemesterRecord.sgpa sem = Some v -> ~ (v == 0)%Q ->
      scoreOf sem = Some v)
  /\ (forall sem v,
         SemesterRecord.sgpa sem = None ->
         SemesterRecord.gpa sem = Some v -> ~ (v == 0)%Q ->
         scoreOf sem = Some v)
  /\ (forall sem,
         SemesterRecord.sgpa sem = None ->
         SemesterRecord.gpa sem = None ->
         scoreOf sem = SemesterRecord.score sem)
  /\ (forall env body sems sems',
         Forall2 sameGrade sems sems' ->
         academicBranch env (setCgpa body sems)
         = academicBranch env (setCgpa body sems')).
Proof.
  split; [|split; [|split]].
  - intros sem v Hs Hv. unfold scoreOf, orElse. rewrite Hs.
    destruct (Qeq_bool v 0) eqn:Hz;
      [apply Qeq_bool_iff in Hz; contradiction|].
    rewrite Hz. reflexivity.
  - intros sem v Hs Hg Hv. unfold scoreOf, orElse. rewrite Hs, Hg.
    destruct (Qeq_bool v 0) eqn:Hz;
      [apply Qeq_bool_iff in Hz; contradiction|].
    reflexivity.
  - intros sem Hs Hg. unfold scoreOf, orElse. rewrite Hs, Hg.
    reflexivity.
  - exact academicBranch_ext.
Qed.

(** A record with [sgpa: 8.2] and a stray [gpa: 3.1] reads as 8.2, and
    the reply to "gpa" is the one for [{ sgpa: 8.2 }]. *)
Lemma score_resolution_witness :
  scoreOf (semester (Some (82 # 10)) (Some (31 # 10)) None)
  = Some (82 # 10)
  /\ academicBranch newYear
       (setCgpa (onlyMessage "gpa")
          [semester (Some (82 # 10)) (Some (31 # 10)) None])
     = academicBranch newYear
         (setCgpa (onlyMessage "gpa")
            [semester (Some (82 # 10)) None None]).
Proof.
  destruct score_resolution as (Hsgpa & _ & _ & Hext).
  split.
  - apply Hsgpa; [reflexivity | discriminate].
  - apply Hext. repeat constructor.
Defined.

(** C7 as stated fails for an [sgpa] of zero: the record
    [{ sgpa: 0, gpa: 8.5 }] resolves to 8.5, and is reported so. *)
Lemma zero_sgpa_is_skipped :
  SemesterRecord.sgpa (semester (Some 0%Q) (Some (85 # 10)) None)
  = Some 0%Q
  /\ scoreOf (semester (Some 0%Q) (Some (85 # 10)) None)
     = Some (85 # 10)
  /\ academicBranch newYear
       (withCgpa "gpa" [semester (Some 0%Q) (Some (85 # 10)) None])
     = FallThrough ACADEMIC_INSIGHTS "Your SGPA for Semester 1 is 8.50.".
Proof. repeat split; reflexivity. Qed.
End GradeFacts.


(** ** Assignment windowing *)

Module AssignmentFacts.
Import JS Common Validated AssignmentScenario Scenario.
Local Open Scope list_scope.

(** [Math.ceil(a / b)] for integers, [b > 0]. *)
Lemma Qceiling_div (a b : Z) :
  0 < b -> Qceiling (inject_Z a / inject_Z b) = - ((- a) / b).
Proof.
  intros Hb. unfold Qceiling. f_equal.
  rewrite Zdiv_Qdiv. apply Qfloor_comp.
  rewrite inject_Z_opp. unfold Qdiv. ring.
Qed.

Lemma MS_PER_DAY_value : MS_PER_DAY = 86400000.
Proof. reflexivity. Qed.

Lemma daysBetween_ceiling (due now : Z) :
  exists d,
    daysBetween (Some due) now = Some d
    /\ d = Qceiling (inject_Z (due - now) / inject_Z MS_PER_DAY)
    /\ MS_PER_DAY * (d - 1) < due - now <= MS_PER_DAY * d.
Proof.
  eexists. split; [reflexivity|]. split; [reflexivity|].
  rewrite Qceiling_div by reflexivity.
  rewrite MS_PER_DAY_value.
  Z.div_mod_to_equations. lia.
Qed.

(** For a due instant at midnight UTC (a date-only ISO string) the count
    is the difference of the two day numbers. *)
Lemma daysBetween_calendar (due now : Z) :
  due mod MS_PER_DAY = 0 ->
  daysBetween (Some due) now
  = Some (due / MS_PER_DAY - now / MS_PER_DAY).
Proof.
  intros Hmid. unfold daysBetween. f_equal.
  rewrite Qceiling_div by reflexivity.
  rewrite MS_PER_DAY_value in *.
  Z.div_mod_to_equations. lia.
Qed.

Lemma insertSorted_In {A} (before : A -> A -> bool) x y l :
  In x (insertSorted before y l) <-> x = y \/ In x l.
Proof.
  induction l as [|z l IH]; simpl.
  - intuition.
  - destruct (before z y); simpl; rewrite ?IH; intuition.
Qed.

(** Sorting keeps the elements. *)
Lemma sortBy_In {A} (before : A -> A -> bool) x l :
  In x (sortBy before l) <-> In x l.
Proof.
  induction l as [|y l IH]; simpl.
  - reflexivity.
  - rewrite insertSorted_In, IH. intuition.
Qed.



(** A key that carries a time of day is not at midnight UTC; its count
    is the time left rounded up to whole days (39 hours: 2 days). *)
Example days_for_timed_key :
  daysUntil newYear (Some "2026-01-02T15:00:00Z") = Some 2.
Proof. reflexivity. Qed.

(** The reply to "what is due this week" on that day: the keys are
    sorted, the one in March is outside the window. *)
Example due_this_week_reply :
  assignmentBranch newYear (withAssignments "what is due this week" pending)
  = FallThrough ASSIGNMENT_PLANNING
      "Here's what's due this week: • 2026-01-05: 2 assignments (in 4 days)"%string.
Proof. reflexivity. Qed.
End AssignmentFacts.


(** ** The response envelope and the no-data guards *)

Module EnvelopeFacts.
Import JS Common Validated Scenario.
Local Open Scope list_scope.

(** The three shapes a response of the validated handler can take. *)
Lemma chat_shapes (env : Env) (body : Body) :
  match tryBlock env body with
  | FallThrough i r =>
      chat env body
      = {| Response.status := 200;
           Response.intent := i;
           Response.reply := r;
           Response.metadata :=
             Some {| Metadata.timestamp := now env;
                     Metadata.userName := userName body;
                     Metadata.dataUsed := usedData body |};
           Response.error := None |}
  | EarlyReturn i r =>
      chat env body
      = {| Response.status := 200;
           Response.intent := i;
           Response.reply := r;
           Response.metadata := None;
           Response.error := None |}
  | Throw msg =>
      chat env body
      = {| Response.status := 500;
           Response.intent := ERROR;
           Response.reply :=
             "Something went wrong. Could you try that again?";
           Response.metadata := None;
           Response.error := if DEBUG env then Some msg else None |}
  end.
Proof. unfold chat. destruct (tryBlock env body); reflexivity. Qed.

(** Where the bare [{ intent, reply }] document comes from: the three
    no-data guards that end with [return res.json(...)]. *)
Lemma early_return_sites (env : Env) (body : Body) i r :
  tryBlock env body = EarlyReturn i r ->
  (i = ATTENDANCE_INSIGHTS
   /\ Attendance.totalHeld (attendance body) = Some 0)
  \/ (i = ASSIGNMENT_PLANNING /\ assignmentCount body = 0)
  \/ (i = CALENDAR_MANAGEMENT /\ calendarMarks body = []).
Proof.
  unfold tryBlock.
  destruct (classifyIntent (message body)); try discriminate.
  - unfold attendanceBranch.
    destruct (Attendance.totalHeld (attendance body)) as [[| |]|];
      try discriminate.
    intros H. injection H as <- _. left. split; reflexivity.
  - unfold academicBranch. destruct (academicReply env body); discriminate.
  - unfold assignmentBranch.
    destruct (assignmentCount body =? 0) eqn:Hz; [|discriminate].
    intros H. injection H as <- _. right; left.
    split; [reflexivity | apply Z.eqb_eq; exact Hz].
  - unfold calendarBranch.
    destruct (calendarMarks body); [|discriminate].
    intros H. injection H as <- _. right; right. split; reflexivity.
Qed.

(** An exception can only come from the grade branch, and the caller
    sees its message only when [DEBUG] is set. *)
Lemma throw_sites (env : Env) (body : Body) msg :
  tryBlock env body = Throw msg ->
  classifyIntent (message body) = ACADEMIC_INSIGHTS
  /\ Response.intent (chat env body) = ERROR
  /\ Response.error (chat env body)
     = if DEBUG env then Some msg else None.
Proof.
  intros H. unfold chat. rewrite H. cbn.
  split; [|split; reflexivity].
  revert H. unfold tryBlock.
  destruct (classifyIntent (message body)); try discriminate; auto.
  - unfold attendanceBranch.
    destruct (Attendance.totalHeld (attendance body)) as [[| |]|];
      discriminate.
  - unfold assignmentBranch.
    destruct (assignmentCount body =? 0); discriminate.
  - unfold calendarBranch. destruct (calendarMarks body); discriminate.
Qed.

(** C5 (the code departs from the claim).  An attendance query on a
    summary with no class held leaves through the guard's own
    [return res.json({ intent, reply })]: the response has the intent and
    the reply and no metadata block.  The no-data reply of the grade
    branch, which does not return early, carries the block. *)
Theorem early_return_without_metadata (env : Env) :
  chat env (withAttendance "attendance" (summary 0 0 0))
  = {| Response.status := 200;
       Response.intent := ATTENDANCE_INSIGHTS;
       Response.reply :=
         addressMaybe env
           "No attendance records yet. Once classes start, I can help you track it."
           "there";
       Response.metadata := None;
       Response.error := None |}
  /\ Response.metadata (chat env (onlyMessage "my grades"))
     = Some {| Metadata.timestamp := now env;
               Metadata.userName := "there";
               Metadata.dataUsed :=
                 {| hasExpenses := false;
                    hasAttendance := false;
                    hasTimetable := false;
                    hasAssignments := false;
                    hasCalendar := false;
                    hasCgpa := false |} |}.
Proof. split; reflexivity. Qed.

(** The guards that do hold: zero classes held, no semester, no pending
    assignment and no calendar mark give the no-data reply whatever else
    the message asks for. *)
Lemma no_data_guards (env : Env) (body : Body) :
  (Attendance.totalHeld (attendance body) = Some 0 ->
   attendanceBranch env body
   = EarlyReturn ATTENDANCE_INSIGHTS
       (addressMaybe env
          "No attendance records yet. Once classes start, I can help you track it."
          (userName body)))
  /\ (cgpa body = [] ->
      academicBranch env body
      = FallThrough ACADEMIC_INSIGHTS
          (addressMaybe env
             "No academic records yet. Add your semester grades and I can track your progress."
             (userName body)))
  /\ (assignmentCount body = 0 ->
      assignmentBranch env body
      = EarlyReturn ASSIGNMENT_PLANNING
          (addressMaybe env "No pending assignments at the moment."
             (userName body)))
  /\ (calendarMarks body = [] ->
      calendarBranch env body
      = EarlyReturn CALENDAR_MANAGEMENT
          (addressMaybe env "Your calendar is clear — no dates marked yet."
             (userName body))).
Proof.
  repeat split.
  - intros H. unfold attendanceBranch. rewrite H. reflexivity.
  - intros H. unfold academicBranch, academicReply. rewrite H. reflexivity.
  - intros H. unfold assignmentBranch. rewrite H. reflexivity.
  - intros H. unfold calendarBranch. rewrite H. reflexivity.
Qed.

(** Without [totalHeld] the attendance guard never fires. *)
Lemma absent_totalHeld_skips_guard (env : Env) (body : Body) :
  Attendance.totalHeld (attendance body) = None ->
  exists r, attendanceBranch env body = FallThrough ATTENDANCE_INSIGHTS r.
Proof.
  intros H. unfold attendanceBranch. rewrite H. eexists. reflexivity.
Qed.

(** C6 (the code departs from the claim).  A body without an
    [attendance] key takes the default [{}]; [totalHeld] is then
    [undefined], the guard [totalHeld === 0] is false, and the overall
    reply is assembled from the undefined fields.  Both handlers do so;
    the metadata of the same response reports that there is no attendance
    data. *)
Theorem absent_attendance_passes_guard (env : Env) :
  attendance (onlyMessage "attendance") = Attendance.empty
  /\ chat env (onlyMessage "attendance")
     = {| Response.status := 200;
          Response.intent := ATTENDANCE_INSIGHTS;
          Response.reply :=
            addressMaybe env
              "Your attendance is at undefined% (undefined out of undefined classes). You're maintaining good attendance — that's solid."
              "there";
          Response.metadata :=
            Some {| Metadata.timestamp := now env;
                    Metadata.userName := "there";
                    Metadata.dataUsed :=
                      {| hasExpenses := false;
                         hasAttendance := false;
                         hasTimetable := false;
                         hasAssignments := false;
                         hasCalendar := false;
                         hasCgpa := false |} |};
          Response.error := None |}
  /\ Plain.classifyIntent "attendance" = ATTENDANCE_INSIGHTS
  /\ Plain.attendanceReply "there" Attendance.empty
     = "there, your attendance is currently at undefined% (undefined of undefined classes). This is at a good level for academic requirements."%string.
Proof. repeat split; reflexivity. Qed.

(** The name query of the specification's first example. *)
Example name_query_scenario (env : Env) :
  chat env (withUser "what is my name" "Asha")
  = {| Response.status := 200;
       Response.intent := NAME_QUERY;
       Response.reply := "Your name is Asha. How can I help you today?";
       Response.metadata :=
         Some {| Metadata.timestamp := now env;
                 Metadata.userName := "Asha";
                 Metadata.dataUsed := usedData (withUser "what is my name" "Asha") |};
       Response.error := None |}.
Proof. reflexivity. Qed.

(** A semester record without any score makes [toFixed] throw; the
    [catch] clause answers with intent ERROR and, in production, without
    the message of the exception. *)
Example missing_score_is_caught :
  chat newYear (withCgpa "gpa" [semester None None None])
  = {| Response.status := 500;
       Response.intent := ERROR;
       Response.reply := "Something went wrong. Could you try that again?";
       Response.metadata := None;
       Response.error := None |}.
Proof. reflexivity. Qed.
End EnvelopeFacts.


(** ** Effects on the request body *)

Module FrameFacts.
Import JS Common Scenario.
Local Open Scope list_scope.

Lemma read_alloc_old {A} (r : Heap.ref) (elems : list A) (h : Heap.t) :
  (r < List.length h)%nat ->
  Heap.read r (snd (Heap.alloc elems h)) = Heap.read r h.
Proof.
  intros Hr. unfold Heap.alloc, Heap.read; simpl.
  apply app_nth1. exact Hr.
Qed.

Lemma read_alloc_new {A} (elems : list A) (h : Heap.t) :
  Heap.read (fst (Heap.alloc elems h)) (snd (Heap.alloc elems h)) = elems.
Proof.
  unfold Heap.alloc, Heap.read; simpl.
  rewrite app_nth2 by lia. rewrite Nat.sub_diag. reflexivity.
Qed.

Lemma read_write_other {A} (r r' : Heap.ref) (elems : list A)
    (h : Heap.t) :
  r <> r' -> Heap.read r (Heap.write r' elems h) = Heap.read r h.
Proof.
  unfold Heap.read. revert r r'.
  induction h as [|a h IH]; intros r r' Hne.
  - destruct r'; reflexivity.
  - destruct r' as [|r'], r as [|r]; simpl; try reflexivity.
    + congruence.
    + apply IH. congruence.
Qed.

Lemma read_write_same {A} (r : Heap.ref) (elems : list A) (h : Heap.t) :
  (r < List.length h)%nat -> Heap.read r (Heap.write r elems h) = elems.
Proof.
  unfold Heap.read. revert r.
  induction h as [|a h IH]; intros r Hr; simpl in Hr.
  - lia.
  - destruct r as [|r]; simpl; [reflexivity|].
    apply IH. lia.
Qed.

(** X18.  [getFutureDates] of the validated handler sorts a copy: the
    array it was given is as before, and the array it returns holds the
    future marks in date order. *)
Lemma getFutureDates_keeps_input (env : Env) (items : Heap.ref)
    (h : Heap.t) :
  (items < List.length h)%nat ->
  let (result, h') := ValidatedHeap.getFutureDates env items h in
  Heap.read items h' = Heap.read items h
  /\ Heap.read result h'
     = Validated.getFutureDates env (Heap.read items h).
Proof.
  intros Hr. unfold ValidatedHeap.getFutureDates, Heap.filter, Heap.sort.
  pose proof (read_alloc_old items
                (filter (Validated.isFuture env) (Heap.read items h)) h Hr)
    as Hold.
  pose proof (read_alloc_new
                (filter (Validated.isFuture env) (Heap.read items h)) h)
    as Hnew.
  destruct (Heap.alloc
              (filter (Validated.isFuture env) (Heap.read items h)) h)
    as [kept h1] eqn:Halloc.
  cbn [fst snd] in Hold, Hnew.
  assert (Hkept : kept = List.length h)
    by (unfold Heap.alloc in Halloc; injection Halloc as <- _; reflexivity).
  assert (Hlen : (kept < List.length h1)%nat).
  { unfold Heap.alloc in Halloc. injection Halloc as _ <-.
    rewrite length_app. simpl. lia. }
  split.
  - rewrite read_write_other by lia. exact Hold.
  - rewrite read_write_same by exact Hlen.
    rewrite Hnew. reflexivity.
Qed.

(** Whatever the plain calendar branch replies, a non-empty
    [calendarMarks] array of the body is left in sorted order. *)
Lemma plain_calendar_leaves_array_sorted (env : Env)
    (lowerMessage userName : string) (marks : list Plain.Mark) :
  marks <> [] ->
  snd (Plain.runCalendar env lowerMessage userName marks)
  = sortBy (fun a b => String.ltb (Plain.toString a) (Plain.toString b))
      marks.
Proof.
  intros Hne. unfold Plain.runCalendar, Plain.calendarBranch.
  cbn [Heap.alloc List.length app Heap.read nth Heap.sort Heap.write
       Heap.slice].
  destruct marks as [|m marks]; [congruence|].
  set (sorted := sortBy _ (m :: marks)).
  destruct (includes lowerMessage "exam").
  - destruct (Plain.examFilter sorted) as [kept|msg]; [|reflexivity].
    destruct kept; reflexivity.
  - destruct (includes lowerMessage "next" || includes lowerMessage "upcoming")%bool.
    + destruct sorted; reflexivity.
    + destruct (Nat.leb (List.length sorted) 3); reflexivity.
Qed.

(** C9 (the code departs from the claim).  The plain handler runs
    [calendarMarks.sort()] on the array of the request body.  For the
    message "calendar" and the marks ["2026-03-01", "2026-01-05"] the
    reply lists the dates in sorted order and the array of the body is
    left reordered. *)
Theorem plain_calendar_sorts_request_array :
  Plain.classifyIntent "calendar" = CALENDAR_MANAGEMENT
  /\ Plain.runCalendar newYear "calendar" "there"
       [Plain.DateString "2026-03-01"; Plain.DateString "2026-01-05"]
     = (FallThrough CALENDAR_MANAGEMENT
          (join LF
             ["there, important calendar dates:"%string;
              "1. 2026-01-05 (4 days)"%string;
              "2. 2026-03-01 (59 days)"%string]),
        [Plain.DateString "2026-01-05"; Plain.DateString "2026-03-01"])
  /\ snd (Plain.runCalendar newYear "calendar" "there"
            [Plain.DateString "2026-03-01"; Plain.DateString "2026-01-05"])
     <> [Plain.DateString "2026-03-01"; Plain.DateString "2026-01-05"].
Proof.
  split; [reflexivity|].
  split; [reflexivity|].
  discriminate.
Qed.

(** With the example marks as the only array of the heap, the call
    returns a second array and leaves the first as it was. *)
Lemma getFutureDates_keeps_input_witness :
  let (result, h') :=
    ValidatedHeap.getFutureDates newYear 0%nat [CalendarScenario.marks] in
  Heap.read 0%nat h' = CalendarScenario.marks
  /\ Heap.read result h'
     = Validated.getFutureDates newYear CalendarScenario.marks.
Proof.
  apply (getFutureDates_keeps_input newYear 0%nat [CalendarScenario.marks]).
  simpl. lia.
Defined.
End FrameFacts.


(** ** Sorting *)

Module SortFacts.
Import JS.
Local Open Scope list_scope.

Section Sorted.
Context {A : Type} (before : A -> A -> bool) (R : A -> A -> Prop)
        (P : A -> Prop).
Hypothesis R_trans : forall x y z, R x y -> R y z -> R x z.
Hypothesis before_R : forall x y, P x -> P y -> before x y = true -> R x y.
Hypothesis not_before_R :
  forall x y, P x -> P y -> before y x = false -> R x y.

Lemma insertSorted_Forall (Q : A -> Prop) x l :
  Q x -> Forall Q l -> Forall Q (insertSorted before x l).
Proof.
  intros Hx Hl. induction Hl as [|y l Hy Hl IH]; simpl.
  - constructor; [exact Hx | constructor].
  - destruct (before y x); repeat constructor; assumption.
Qed.

Lemma sortBy_Forall (Q : A -> Prop) l :
  Forall Q l -> Forall Q (sortBy before l).
Proof.
  induction 1 as [|x l Hx Hl IH]; simpl.
  - constructor.
  - apply insertSorted_Forall; assumption.
Qed.

Lemma insertSorted_sorted x l :
  P x -> Forall P l -> StronglySorted R l ->
  StronglySorted R (insertSorted before x l).
Proof.
  intros Hx HP Hs. induction Hs as [|y l Hs IH Hy]; simpl.
  - repeat constructor.
  - inversion HP as [|? ? HPy HPl]; subst.
    destruct (before y x) eqn:Hb.
    + constructor; [apply IH; exact HPl|].
      apply insertSorted_Forall; [|exact Hy].
      apply before_R; assumption.
    + assert (Hxy : R x y) by (apply not_before_R; assumption).
      constructor; [constructor; assumption|].
      constructor; [exact Hxy|].
      rewrite Forall_forall in *. intros z Hz.
      apply R_trans with y; [exact Hxy | apply Hy; exact Hz].
Qed.

(** The sort puts the elements in the order of the comparator. *)
Lemma sortBy_sorted l :
  Forall P l -> StronglySorted R (sortBy before l).
Proof.
  induction 1 as [|x l Hx Hl IH]; simpl.
  - constructor.
  - apply insertSorted_sorted; [exact Hx | | exact IH].
    apply sortBy_Forall. exact Hl.
Qed.
End Sorted.

Lemma insertSorted_perm {A} (before : A -> A -> bool) x l :
  Permutation (insertSorted before x l) (x :: l).
Proof.
  induction l as [|y l IH]; simpl.
  - reflexivity.
  - destruct (before y x).
    + rewrite IH. apply perm_swap.
    + reflexivity.
Qed.

(** The sort keeps every element, as often as it occurs. *)
Lemma sortBy_perm {A} (before : A -> A -> bool) l :
  Permutation (sortBy before l) l.
Proof.
  induction l as [|x l IH]; simpl.
  - constructor.
  - rewrite insertSorted_perm. constructor. exact IH.
Qed.

Lemma filter_sorted {A} (R : A -> A -> Prop) (keep : A -> bool) l :
  StronglySorted R l -> StronglySorted R (filter keep l).
Proof.
  induction 1 as [|x l Hs IH Hx]; simpl.
  - constructor.
  - destruct (keep x); [|exact IH].
    constructor; [exact IH|].
    rewrite Forall_forall in *. intros y Hy.
    apply filter_In in Hy as [Hy _]. apply Hx. exact Hy.
Qed.

Lemma firstn_In {A} n (l : list A) x : In x (firstn n l) -> In x l.
Proof.
  intros H. rewrite <- (firstn_skipn n l). apply in_or_app. left. exact H.
Qed.

Lemma firstn_sorted {A} (R : A -> A -> Prop) n l :
  StronglySorted R l -> StronglySorted R (firstn n l).
Proof.
  intros Hs. revert n. induction Hs as [|x l Hs IH Hx]; intros [|n]; simpl;
    try constructor.
  - apply IH.
  - rewrite Forall_forall in *. intros y Hy.
    apply Hx. eapply firstn_In; exact Hy.
Qed.
End SortFacts.


(** ** Calendar filtering *)

Module CalendarFacts.
Import JS Common Validated CalendarSpec CalendarScenario Scenario SortFacts.
Local Open Scope list_scope.

Lemma isFuture_markTime env m :
  isFuture env m = true ->
  exists t, markTime env m = Some t /\ startOfToday env <= t.
Proof.
  unfold isFuture, markTime.
  destruct (CalendarMark.date m) as [d|]; [|discriminate].
  destruct (String.eqb d ""); [discriminate|].
  destruct (parseDate env d) as [t|]; [|discriminate].
  intros H. exists t. split; [reflexivity | apply Z.leb_le; exact H].
Qed.

Lemma notAfter_trans env a b c :
  notAfter env a b -> notAfter env b c -> notAfter env a c.
Proof.
  intros (ta & tb & Ha & Hb & Hab) (tb' & tc & Hb' & Hc & Hbc).
  exists ta, tc. repeat split; try assumption.
  rewrite Hb in Hb'. injection Hb' as <-. lia.
Qed.

Lemma earlier_notAfter env a b :
  earlier env a b = true -> notAfter env a b.
Proof.
  unfold earlier, notAfter, markTime.
  destruct (CalendarMark.date a) as [da|]; [|discriminate].
  destruct (CalendarMark.date b) as [db|]; [|discriminate].
  destruct (parseDate env da) as [ta|]; [|discriminate].
  destruct (parseDate env db) as [tb|]; [|discriminate].
  intros H. apply Z.ltb_lt in H. exists ta, tb.
  repeat split; try reflexivity. lia.
Qed.

Lemma not_earlier_notAfter env a b :
  isFuture env a = true -> isFuture env b = true ->
  earlier env b a = false -> notAfter env a b.
Proof.
  intros Ha Hb.
  apply isFuture_markTime in Ha as (ta & Ha & _).
  apply isFuture_markTime in Hb as (tb & Hb & _).
  unfold earlier, notAfter. intros H.
  exists ta, tb. repeat split; try assumption.
  unfold markTime in Ha, Hb.
  destruct (CalendarMark.date a) as [da|]; [|discriminate].
  destruct (CalendarMark.date b) as [db|]; [|discriminate].
  rewrite Ha, Hb in H. apply Z.ltb_ge in H. exact H.
Qed.

(** [getFutureDates] keeps the elements of the filtered array. *)
Lemma getFutureDates_perm (env : Env) (items : list CalendarMark.t) :
  Permutation (getFutureDates env items) (filter (isFuture env) items).
Proof. unfold getFutureDates. apply sortBy_perm. Qed.

Lemma getFutureDates_In (env : Env) (items : list CalendarMark.t) m :
  In m (getFutureDates env items)
  <-> In m items /\ isFuture env m = true.
Proof.
  rewrite <- filter_In. split; intros H.
  - eapply Permutation_in; [apply getFutureDates_perm | exact H].
  - eapply Permutation_in;
      [symmetry; apply getFutureDates_perm | exact H].
Qed.

Lemma getFutureDates_sorted (env : Env) (items : list CalendarMark.t) :
  StronglySorted (notAfter env) (getFutureDates env items).
Proof.
  unfold getFutureDates.
  apply (sortBy_sorted (earlier env) (notAfter env)
           (fun m => isFuture env m = true)).
  - apply notAfter_trans.
  - intros x y _ _. apply earlier_notAfter.
  - apply not_earlier_notAfter.
  - apply Forall_forall. intros m Hm.
    apply filter_In in Hm as [_ Hm]. exact Hm.
Qed.


(** The first element of a filtered sorted list is the earliest of all
    future marks that pass the filter. *)
Lemma first_match_earliest env marks (keep : CalendarMark.t -> bool) h rest :
  filter keep (getFutureDates env marks) = h :: rest ->
  In h marks /\ isFuture env h = true /\ keep h = true
  /\ forall m, In m marks -> isFuture env m = true -> keep m = true ->
               notAfter env h m.
Proof.
  intros Hfilter.
  pose proof (getFutureDates_In env marks) as Hin.
  pose proof (getFutureDates_sorted env marks) as Hsorted.
  assert (Htime : forall m, In m (getFutureDates env marks) ->
                   exists t, markTime env m = Some t
                             /\ startOfToday env <= t).
  { intros m Hm. apply Hin in Hm as [_ Hm].
    apply isFuture_markTime. exact Hm. }
  assert (Hh : In h (filter keep (getFutureDates env marks)))
    by (rewrite Hfilter; left; reflexivity).
  apply filter_In in Hh as [Hh Hkeep].
  pose proof (proj1 (Hin h) Hh) as [Hmarks Hfuture].
  repeat split; try assumption.
  intros m Hm Hmf Hmk.
  assert (Hm' : In m (filter keep (getFutureDates env marks))).
  { apply filter_In. split; [apply Hin; split; assumption | exact Hmk]. }
  pose proof (filter_sorted (notAfter env) keep _ Hsorted) as Hs.
  rewrite Hfilter in Hs, Hm'.
  destruct Hm' as [<- | Hm'].
  - destruct (Htime h Hh) as (t & Ht & _).
    exists t, t. repeat split; try assumption. lia.
  - inversion Hs as [|? ? _ Hall]; subst.
    rewrite Forall_forall in Hall. apply Hall. exact Hm'.
Qed.

(** X2.  The holiday, exam and next-date answers of the calendar
    branch name the earliest upcoming mark of their kind: the mark is one
    of the request's marks, dated today or later, of the asked category
    (matched case-insensitively on "holiday", "break", "vacation", or on
    "exam", "test"; any category for a next-date query), and no other
    such mark is dated before it. *)
Theorem calendar_answers_name_earliest (env : Env) (body : Body)
    (h : CalendarMark.t) (rest : list CalendarMark.t) :
  let future := getFutureDates env (calendarMarks body) in
  let lower := lowerMessage body in
  let earliestOf (keep : CalendarMark.t -> bool) :=
    In h (calendarMarks body) /\ isFuture env h = true /\ keep h = true
    /\ forall m, In m (calendarMarks body) -> isFuture env m = true ->
                 keep m = true -> notAfter env h m in
  (includes lower "holiday" = true ->
   filter isHoliday future = h :: rest ->
   earliestOf isHoliday
   /\ calendarReply env body
      = addressMaybe env
          ("Your next holiday is on "
           ++ showProp id (CalendarMark.date h) ++ " — "
           ++ showNaN (daysUntil env (CalendarMark.date h)) ++ " day"
           ++ pluralDays (daysUntil env (CalendarMark.date h))
           ++ " to go.")%string
          (userName body))
  /\ (includes lower "holiday" = false -> includes lower "exam" = true ->
      filter isExam future = h :: rest ->
      earliestOf isExam
      /\ calendarReply env body
         = addressMaybe env
             ("Your next exam is on "
              ++ showProp id (CalendarMark.date h) ++ " — "
              ++ showNaN (daysUntil env (CalendarMark.date h)) ++ " day"
              ++ pluralDays (daysUntil env (CalendarMark.date h))
              ++ " left.")%string
             (userName body))
  /\ (includes lower "holiday" = false -> includes lower "exam" = false ->
      (includes lower "next" || includes lower "upcoming")%bool = true ->
      future = h :: rest ->
      earliestOf (fun _ => true)
      /\ calendarReply env body
         = addressMaybe env
             ("Your next marked date is "
              ++ showProp id (CalendarMark.date h) ++ " ("
              ++ showProp id (CalendarMark.categoryName h)
              ++ ") — in "
              ++ showNaN (daysUntil env (CalendarMark.date h))
              ++ " days.")%string
             (userName body)).
Proof.
  intros future lower earliestOf. subst future lower earliestOf.
  split; [|split].
  - intros Hhol Hf. split.
    + eapply first_match_earliest; exact Hf.
    + unfold calendarReply; cbv zeta. fold (lowerMessage body).
      rewrite Hhol, Hf. reflexivity.
  - intros Hhol Hexam Hf. split.
    + eapply first_match_earliest; exact Hf.
    + unfold calendarReply; cbv zeta. rewrite Hhol, Hexam, Hf.
      reflexivity.
  - intros Hhol Hexam Hnext Hf. split.
    + apply (first_match_earliest env (calendarMarks body) (fun _ => true)
               h rest).
      rewrite <- Hf. clear.
      induction (getFutureDates env (calendarMarks body)); simpl;
        congruence.
    + unfold calendarReply; cbv zeta. rewrite Hhol, Hexam, Hnext, Hf.
      reflexivity.
Qed.

(** Asked on 1 January 2026, the next holiday among the example marks is
    the one of 5 January: the break in March is later, the holiday of 31
    December is past. *)
Lemma calendar_answers_name_earliest_witness :
  calendarReply newYear (withCalendar "when is my next holiday" marks)
  = "Your next holiday is on 2026-01-05 — 4 days to go."%string.
Proof.
  destruct (calendar_answers_name_earliest newYear
              (withCalendar "when is my next holiday" marks)
              (mark "2026-01-05" "Public HOLIDAY")
              [mark "2026-03-01" "Spring Break"])
    as (Hholiday & _ & _).
  destruct (Hholiday eq_refl eq_refl) as [_ Hreply].
  exact Hreply.
Defined.


End CalendarFacts.


(** ** Attendance thresholds, subject ranking and expense ranking *)

Module LedgerFacts.
Import JS Common Validated SubjectSpec LedgerScenario Scenario SortFacts
       NumberFacts.
Local Open Scope list_scope.

(** X4.  The number of classes the attendance replies ask for,
    [max(0, ceil(held * 0.75) - attended)], is never negative and is the
    least number of further attended classes that brings the attended
    count to 75% of the classes held: attending [k >= 0] more reaches
    the mark exactly when [k] is at least that number. *)
Theorem needed_is_least (held attended : Z) :
  exists n,
    neededClasses (Some held) (Some attended) = Some n
    /\ 0 <= n
    /\ forall k, 0 <= k -> (3 * held <= 4 * (attended + k) <-> n <= k).
Proof.
  exists (Z.max 0 (classesShort held attended)).
  split; [reflexivity|].
  rewrite classesShort_eq.
  split; [lia|].
  intros k Hk. Z.div_mod_to_equations. lia.
Qed.


Lemma heldPositive_test d :
  match SubjectAttendance.held d with
  | Some h => 0 <? h
  | None => false
  end = true <-> heldPositive d.
Proof.
  unfold heldPositive. destruct (SubjectAttendance.held d) as [h|].
  - apply Z.ltb_lt.
  - split; [discriminate | intros []].
Qed.

Lemma lowestOver_keep done acc name data :
  lowestOver done acc ->
  (heldPositive data ->
   (snd acc <= orZero (SubjectAttendance.percentage data))%Q) ->
  lowestOver (done ++ [(name, data)]) acc.
Proof.
  destruct acc as [ls lp]. unfold lowestOver. cbn [fst snd].
  intros Hacc Hnew.
  destruct ls as [old|].
  - destruct Hacc as (od & Hin & Hod & Heq & Hlp & Hmin).
    exists od. repeat split; try assumption.
    + apply in_or_app. left. exact Hin.
    + intros n d Hd Hp. apply in_app_or in Hd as [Hd | [Heq' | []]].
      * eauto.
      * injection Heq' as _ <-. auto.
  - destruct Hacc as (Heq & Hmin). split; [exact Heq|].
    intros n d Hd Hp. apply in_app_or in Hd as [Hd | [Heq' | []]].
    + eauto.
    + injection Heq' as _ <-. rewrite <- Heq. auto.
Qed.

Lemma lowestOver_bound done acc :
  lowestOver done acc ->
  (snd acc <= 101)%Q
  /\ forall n d, In (n, d) done -> heldPositive d ->
                 (snd acc <= orZero (SubjectAttendance.percentage d))%Q.
Proof.
  destruct acc as [ls lp]. unfold lowestOver. cbn [fst snd].
  destruct ls as [old|].
  - intros (od & _ & _ & _ & Hlp & Hmin). split; [lra | exact Hmin].
  - intros (-> & Hmin). split; [lra | exact Hmin].
Qed.

Lemma lowestOver_step done acc entry :
  lowestOver done acc -> lowestOver (done ++ [entry]) (lowestStep acc entry).
Proof.
  destruct entry as [name data]. intros Hacc.
  unfold lowestStep.
  destruct acc as [ls lp]. cbn [snd].
  set (percent := orZero (SubjectAttendance.percentage data)).
  destruct (ltb percent lp) eqn:Hlt; cbn [andb].
  - apply ltb_lt in Hlt.
    destruct (match SubjectAttendance.held data with
              | Some h => 0 <? h
              | None => false
              end) eqn:Hheld.
    + apply heldPositive_test in Hheld.
      destruct (lowestOver_bound _ _ Hacc) as [Hlp Hmin]. cbn [snd] in *.
      unfold lowestOver. cbn [fst snd].
      exists data. repeat split; try assumption; try lra.
      * apply in_or_app. right. left. reflexivity.
      * intros n d Hin Hd. apply in_app_or in Hin as [Hin | [Heq | []]].
        -- specialize (Hmin n d Hin Hd). lra.
        -- injection Heq as _ <-. fold percent. lra.
    + apply lowestOver_keep; [exact Hacc|].
      intros H. apply heldPositive_test in H. congruence.
  - apply ltb_ge in Hlt.
    apply lowestOver_keep; [exact Hacc|].
    intros _. exact Hlt.
Qed.

Lemma lowestOver_fold rest : forall done acc,
  lowestOver done acc ->
  lowestOver (done ++ rest) (fold_left lowestStep rest acc).
Proof.
  induction rest as [|entry rest IH]; intros done acc Hacc.
  - rewrite app_nil_r. exact Hacc.
  - simpl fold_left.
    replace (done ++ entry :: rest) with ((done ++ [entry]) ++ rest)
      by (rewrite <- app_assoc; reflexivity).
    apply IH. apply lowestOver_step. exact Hacc.
Qed.

(** X5.  The scan for the subject with the lowest attendance ends with
    a subject of the request that has classes held and whose percentage
    (a missing one counts as 0) is below 101 and not above that of any
    other subject with classes held; it ends with no subject exactly
    when no subject with classes held has a percentage below 101. *)
Theorem lowest_subject_found
    (subjects : list (string * SubjectAttendance.t)) :
  lowestOver subjects (fold_left lowestStep subjects (None, 101%Q)).
Proof.
  apply (lowestOver_fold subjects [] (None, 101%Q)).
  split; [reflexivity|]. intros n d [].
Qed.

Lemma percentLe_trans x y z : percentLe x y -> percentLe y z -> percentLe x z.
Proof. unfold percentLe. intros. lra. Qed.

(** X6.  The per-subject attendance reply lists every subject of the
    request exactly once, ordered by ascending percentage (a missing
    percentage counts as 0), between the heading and the overall line. *)
Theorem per_subject_listing (env : Env) (body : Body)
    (first : string * SubjectAttendance.t)
    (rest : list (string * SubjectAttendance.t)) :
  Attendance.subjects (attendance body) = Some (first :: rest) ->
  exists sorted,
    Permutation sorted (first :: rest)
    /\ StronglySorted percentLe sorted
    /\ perSubjectReply env body
       = formatReply
           (map Some
              ("Here's your attendance by subject:"%string
               :: map subjectLine sorted
               ++ [(LF ++ "Overall: "
                    ++ overallFigures (attendance body) "/" ++ ")")%string])).
Proof.
  intros Hsubjects.
  exists (sortBy (fun x y => ltb (subjectPercent x) (subjectPercent y))
            (first :: rest)).
  split; [apply sortBy_perm|].
  split.
  - apply (sortBy_sorted _ percentLe (fun _ => True)).
    + apply percentLe_trans.
    + intros x y _ _ H. apply ltb_lt in H. unfold percentLe. lra.
    + intros x y _ _ H. apply ltb_ge in H. exact H.
    + apply Forall_forall. intros; exact I.
  - unfold perSubjectReply. rewrite Hsubjects. reflexivity.
Qed.

Lemma per_subject_listing_witness :
  exists sorted,
    Permutation sorted bySubject
    /\ StronglySorted percentLe sorted
    /\ perSubjectReply newYear (withSubjects "attendance by subject")
       = formatReply
           (map Some
              ("Here's your attendance by subject:"%string
               :: map subjectLine sorted
               ++ [(LF ++ "Overall: 76.7% (46/60)")%string])).
Proof.
  exact (per_subject_listing newYear
           (withSubjects "attendance by subject") _ _ eq_refl).
Defined.

Example per_subject_listing_sample :
  perSubjectReply newYear (withSubjects "attendance by subject")
  = join LF
      ["Here's your attendance by subject:"%string;
       "⚠️ Algebra: 60% (12/20)"%string;
       " Chemistry: 80% (16/20)"%string;
       "✓ Physics: 90% (18/20)"%string;
       (LF ++ "Overall: 76.7% (46/60)")%string].
Proof. reflexivity. Qed.

Lemma sorted_app_cross {A} (R : A -> A -> Prop) (a b : list A) :
  StronglySorted R (a ++ b) ->
  forall x y, In x a -> In y b -> R x y.
Proof.
  induction a as [|z a IH]; intros Hs x y Hx Hy; [destruct Hx|].
  simpl in Hs. inversion Hs as [|? ? Hs' Hall]; subst.
  destruct Hx as [<- | Hx].
  - rewrite Forall_forall in Hall. apply Hall.
    apply in_or_app. right. exact Hy.
  - exact (IH Hs' x y Hx Hy).
Qed.

(** X7.  When the request has expense categories, the expense overview
    closes with the heading of the main spending areas and one line for
    each of the (at most two) categories with the largest amounts, the
    larger first: no category that is left out has a larger amount than
    one that is listed. *)
Theorem expense_top_categories (env : Env) (body : Body)
    (first : string * Q) (rest : list (string * Q)) :
  Expenses.categories (expenses body) = Some (first :: rest) ->
  exists top others before,
    Permutation (top ++ others) (first :: rest)
    /\ List.length top = Nat.min 2 (List.length (first :: rest))
    /\ StronglySorted amountGe top
    /\ (forall x y, In x top -> In y others -> amountGe x y)
    /\ expenseInsightsReply env body
       = addressMaybe env
           (join " "
              (before
               ++ "Your main spending areas:"%string
                  :: map (categoryLine
                            (orZero (Expenses.total (expenses body))))
                       top))
           (userName body).
Proof.
  intros Hcats.
  set (sorted := sortBy (fun a b : string * Q => gtb (snd a) (snd b))
                   (first :: rest)).
  assert (Hperm : Permutation sorted (first :: rest))
    by apply sortBy_perm.
  assert (Hsorted : StronglySorted amountGe sorted).
  { apply (sortBy_sorted _ amountGe (fun _ => True)).
    - unfold amountGe. intros x y z Hxy Hyz. lra.
    - intros x y _ _ H. apply gtb_gt in H. unfold amountGe. lra.
    - intros x y _ _ H. apply gtb_le in H. exact H.
    - apply Forall_forall. intros; exact I. }
  assert (Hlen : List.length (firstn 2 sorted)
                 = Nat.min 2 (List.length (first :: rest))).
  { rewrite length_firstn, (Permutation_length Hperm). reflexivity. }
  assert (Hkeys : Nat.eqb (Expenses.keyCount (expenses body)) 0 = false).
  { unfold Expenses.keyCount. rewrite Hcats.
    destruct (Expenses.total (expenses body)),
      (Expenses.thisMonth (expenses body)); reflexivity. }
  exists (firstn 2 sorted), (skipn 2 sorted).
  unfold expenseInsightsReply. cbv zeta. rewrite Hcats, Hkeys. fold sorted.
  destruct (firstn 2 sorted) as [|t ts] eqn:Htop;
    [simpl in Hlen; discriminate|].
  eexists.
  split; [rewrite <- Htop, firstn_skipn; exact Hperm|].
  split; [exact Hlen|].
  split; [rewrite <- Htop; apply firstn_sorted; exact Hsorted|].
  split.
  - rewrite <- Htop. apply sorted_app_cross.
    rewrite firstn_skipn. exact Hsorted.
  - match goal with
    | |- addressMaybe _ (join _ (?h :: ?pace ++ _)) _ = _ =>
        instantiate (1 := h :: pace)
    end.
    reflexivity.
Qed.

Lemma expense_top_categories_witness :
  exists top others before,
    Permutation (top ++ others) spending
    /\ List.length top = 2%nat
    /\ StronglySorted amountGe top
    /\ (forall x y, In x top -> In y others -> amountGe x y)
    /\ expenseInsightsReply newYear (withExpenses "where does my money go")
       = addressMaybe newYear
           (join " "
              (before
               ++ "Your main spending areas:"%string
                  :: map (categoryLine 15500) top))
           "there".
Proof.
  exact (expense_top_categories newYear
           (withExpenses "where does my money go") _ _ eq_refl).
Defined.

Example expense_overview_sample :
  expenseInsightsReply newYear (withExpenses "where does my money go")
  = "Overall, you've spent ₹15500.00 across all time, with ₹6000.00 so far this month. Monthly spending is within a reasonable range. Your main spending areas: • Rent: ₹9000.00 (58.1% of total) • Food: ₹4500.00 (29.0% of total)"%string.
Proof. reflexivity. Qed.
End LedgerFacts.


(** ** Consistency of the weekly analysis and its replies *)

Module TimetableFacts.
Import JS Common Validated WeeklySpec WeeklyFacts WeekScenario Scenario
       TimetableScenario.
Local Open Scope list_scope.

Section Week.
Variable timetable : list (string * list ClassEntry.t).

(** Resetting a lightest day that was never set. *)
Lemma reset_of_scan (w : Analysis) :
  scanned timetable weekDays w ->
  let a :=
    if isInfinity (count (lightestDay w))
    then {| busiestDay := busiestDay w;
            lightestDay := {| day := None; count := Finite 0 |};
            totalClasses := totalClasses w;
            daysWithClasses := daysWithClasses w |}
    else w in
  totalClasses a = sumCounts timetable weekDays
  /\ daysWithClasses a = activeDays timetable weekDays
  /\ busiestOver timetable weekDays (busiestDay a)
  /\ lightestOver timetable (Finite 0) weekDays (lightestDay a).
Proof.
  intros (Htot & Hact & Hbusy & Hlight). cbv zeta.
  unfold lightestOver in *.
  destruct (day (lightestDay w)) as [i|] eqn:Hday.
  - destruct Hlight as (Hin & Hcnt & Hrest).
    rewrite Hcnt. cbn [isInfinity]. rewrite Hday, Hcnt.
    repeat split; try assumption; apply Hrest.
  - destruct Hlight as (Hcnt & Hzero).
    rewrite Hcnt.
    cbn [isInfinity lightestDay busiestDay totalClasses daysWithClasses
         day count].
    repeat split; assumption.
Qed.

(** The analysis is the scan with the lightest day reset when it was
    never set. *)
Lemma analysis_of_scan :
  let a := analyzeWeeklyPattern timetable in
  totalClasses a = sumCounts timetable weekDays
  /\ daysWithClasses a = activeDays timetable weekDays
  /\ busiestOver timetable weekDays (busiestDay a)
  /\ lightestOver timetable (Finite 0) weekDays (lightestDay a).
Proof.
  exact (reset_of_scan _ (scanned_week timetable)).
Qed.

Lemma activeDays_bounds days :
  0 <= activeDays timetable days <= Z.of_nat (List.length days).
Proof.
  unfold activeDays. split; [lia|].
  apply inj_le. apply filter_length_le.
Qed.

(** A sum of counts lies between the number of active days times a
    lower bound of the positive counts and that number times an upper
    bound of all counts. *)
Lemma sumCounts_bounds days lo hi :
  0 <= lo ->
  (forall j, In j days -> classCount timetable j <= hi) ->
  (forall j, In j days -> 0 < classCount timetable j ->
             lo <= classCount timetable j) ->
  activeDays timetable days * lo <= sumCounts timetable days
  /\ sumCounts timetable days <= activeDays timetable days * hi
  /\ activeDays timetable days <= sumCounts timetable days.
Proof.
  intros Hlo. induction days as [|d days IH]; intros Hhi Hlow.
  - unfold activeDays, sumCounts. simpl. lia.
  - destruct IH as (IH1 & IH2 & IH3).
    + intros j Hj. apply Hhi. right. exact Hj.
    + intros j Hj. apply Hlow. right. exact Hj.
    + pose proof (classCount_nonneg timetable d) as Hd.
      pose proof (Hhi d (or_introl eq_refl)) as Hdhi.
      pose proof (Hlow d (or_introl eq_refl)) as Hdlo.
      unfold activeDays, sumCounts in *. simpl.
      destruct (0 <? classCount timetable d) eqn:Hpos.
      * apply Z.ltb_lt in Hpos. specialize (Hdlo Hpos).
        simpl List.length. rewrite Nat2Z.inj_succ. lia.
      * apply Z.ltb_ge in Hpos. lia.
Qed.

Lemma consistent_of_scan (a : Analysis) :
  totalClasses a = sumCounts timetable weekDays ->
  daysWithClasses a = activeDays timetable weekDays ->
  busiestOver timetable weekDays (busiestDay a) ->
  lightestOver timetable (Finite 0) weekDays (lightestDay a) ->
  0 <= daysWithClasses a <= 7
  /\ daysWithClasses a <= totalClasses a
  /\ (day (busiestDay a) = None <-> totalClasses a = 0)
  /\ (day (lightestDay a) = None <-> totalClasses a = 0)
  /\ (daysWithClasses a = 0 <-> totalClasses a = 0)
  /\ exists b l,
       count (busiestDay a) = Finite b /\ count (lightestDay a) = Finite l
       /\ 0 <= l <= b
       /\ daysWithClasses a * l <= totalClasses a
          <= daysWithClasses a * b.
Proof.
  intros Htot Hact Hbusy Hlight.
  pose proof (activeDays_bounds weekDays) as Hdays.
  change (Z.of_nat (List.length weekDays)) with 7 in Hdays.
  unfold busiestOver in Hbusy. unfold lightestOver in Hlight.
  destruct (day (busiestDay a)) as [i|] eqn:Hbd.
  - destruct Hbusy as (Hi & Hbc & Hipos & Hmax & _).
    destruct (day (lightestDay a)) as [k|] eqn:Hld.
    + destruct Hlight as (Hk & Hlc & Hkpos & Hmin & _).
      destruct (sumCounts_bounds weekDays (classCount timetable k)
                  (classCount timetable i)) as (H1 & H2 & H3);
        [lia | exact Hmax | exact Hmin |].
      assert (Hact1 : 1 <= activeDays timetable weekDays).
      { unfold activeDays.
        assert (In i (filter (fun j => 0 <? classCount timetable j)
                        weekDays))
          by (apply filter_In; split; [exact Hi | apply Z.ltb_lt; lia]).
        destruct (filter (fun j => 0 <? classCount timetable j) weekDays);
          [contradiction | simpl List.length; lia]. }
      rewrite Htot, Hact.
      split; [lia|].
      split; [lia|].
      split; [split; [discriminate | intros; exfalso; lia]|].
      split; [split; [discriminate | intros; exfalso; lia]|].
      split; [split; intros; exfalso; lia|].
      exists (classCount timetable i), (classCount timetable k).
      pose proof (Hmax k Hk).
      repeat split; try assumption; lia.
    + destruct Hlight as (_ & Hzero).
      rewrite (Hzero i Hi) in Hipos. lia.
  - destruct Hbusy as (Hbc & Hzero).
    assert (Hsum : sumCounts timetable weekDays = 0
                   /\ activeDays timetable weekDays = 0).
    { destruct (sumCounts_bounds weekDays 0 0) as (H1 & H2 & H3);
        [lia | | | ].
      - intros j Hj. rewrite (Hzero j Hj). lia.
      - intros j Hj Hp. rewrite (Hzero j Hj) in Hp. lia.
      - lia. }
    destruct Hsum as [Hs Ha].
    destruct (day (lightestDay a)) as [k|] eqn:Hld.
    + destruct Hlight as (Hk & _ & Hkpos & _).
      rewrite (Hzero k Hk) in Hkpos. lia.
    + destruct Hlight as (Hlc & _).
      rewrite Htot, Hact, Hs, Ha.
      split; [lia|].
      split; [lia|].
      split; [split; reflexivity|].
      split; [split; reflexivity|].
      split; [split; reflexivity|].
      exists 0, 0. repeat split; try assumption; lia.
Qed.

(** X8.  The figures of one weekly analysis agree with each other:
    between 0 and 7 days have classes, and never more days than
    classes; no busiest day, no lightest day and no day with classes
    all mean the same thing, a week without classes; and with [b] and
    [l] the counts of the busiest and the lightest day, the total lies
    between [daysWithClasses * l] and [daysWithClasses * b]. *)
Theorem analysis_consistent :
  let a := analyzeWeeklyPattern timetable in
  0 <= daysWithClasses a <= 7
  /\ daysWithClasses a <= totalClasses a
  /\ (day (busiestDay a) = None <-> totalClasses a = 0)
  /\ (day (lightestDay a) = None <-> totalClasses a = 0)
  /\ (daysWithClasses a = 0 <-> totalClasses a = 0)
  /\ exists b l,
       count (busiestDay a) = Finite b /\ count (lightestDay a) = Finite l
       /\ 0 <= l <= b
       /\ daysWithClasses a * l <= totalClasses a
          <= daysWithClasses a * b.
Proof.
  destruct analysis_of_scan as (Htot & Hact & Hbusy & Hlight).
  exact (consistent_of_scan _ Htot Hact Hbusy Hlight).
Qed.

End Week.

Lemma getDayName_week d : In d weekDays -> In (getDayName d) DAYS.
Proof.
  unfold weekDays. simpl.
  intros [<- | [<- | [<- | [<- | [<- | [<- | [<- | []]]]]]]];
    unfold getDayName; simpl; tauto.
Qed.

(** X10.  A busiest-day query is answered with the busiest day, one of
    Monday to Sunday with a positive class count, whenever the week has
    a class, and with "No classes scheduled this week." when it has
    none; the handler's third answer ("evenly spread out") is never
    given. *)
Theorem busiest_day_answer (env : Env) (body : Body) :
  busiestDayQuery (lowerMessage body) = true ->
  let a := analyzeWeeklyPattern (timetable body) in
  (totalClasses a = 0
   /\ timetableReply env body
      = addressMaybe env "No classes scheduled this week." (userName body))
  \/ (exists d b,
         busiestDay a = {| day := Some d; count := Finite b |}
         /\ In (getDayName d) DAYS /\ 0 < b /\ 0 < totalClasses a
         /\ timetableReply env body
            = addressMaybe env
                ("Your busiest day is " ++ getDayName d ++ " with "
                 ++ showZ b ++ " classes.")%string
                (userName body)).
Proof.
  intros Hquery. cbv zeta.
  destruct (analysis_of_scan (timetable body))
    as (Htot & Hact & Hbusy & Hlight).
  destruct (consistent_of_scan (timetable body) _ Htot Hact Hbusy Hlight)
    as ([Hlo _] & Hle & Hnone & _).
  clear Htot Hact Hlight.
  unfold timetableReply. cbv zeta. rewrite Hquery.
  revert Hbusy Hlo Hle Hnone.
  generalize (analyzeWeeklyPattern (timetable body)).
  intros a Hbusy Hlo Hle Hnone.
  unfold busiestOver in Hbusy.
  destruct (busiestDay a) as [bd bc] eqn:Hb. cbn [day count] in *.
  destruct bd as [d|].
  - right. destruct Hbusy as (Hd & -> & Hpos & _).
    exists d, (classCount (timetable body) d).
    split; [reflexivity|].
    split; [apply getDayName_week; exact Hd|].
    split; [exact Hpos|].
    split; [|reflexivity].
    destruct (Z.eq_dec (totalClasses a) 0) as [Hz|Hz].
    + apply Hnone in Hz. discriminate.
    + lia.
  - left. assert (Hz : totalClasses a = 0) by (apply Hnone; reflexivity).
    split; [exact Hz|]. rewrite Hz. reflexivity.
Qed.

Lemma busiest_day_answer_witness :
  (totalClasses (analyzeWeeklyPattern threeDays) = 0
   /\ timetableReply newYear
        (withTimetable "which day is busiest" threeDays)
      = addressMaybe newYear "No classes scheduled this week." "there")
  \/ (exists d b,
         busiestDay (analyzeWeeklyPattern threeDays)
         = {| day := Some d; count := Finite b |}
         /\ In (getDayName d) DAYS /\ 0 < b
         /\ 0 < totalClasses (analyzeWeeklyPattern threeDays)
         /\ timetableReply newYear
              (withTimetable "which day is busiest" threeDays)
            = addressMaybe newYear
                ("Your busiest day is " ++ getDayName d ++ " with "
                 ++ showZ b ++ " classes.")%string
                "there").
Proof.
  exact (busiest_day_answer newYear
           (withTimetable "which day is busiest" threeDays) eq_refl).
Defined.

Example busiest_day_sample :
  timetableReply newYear (withTimetable "which day is busiest" threeDays)
  = "Your busiest day is Monday with 2 classes."%string.
Proof. reflexivity. Qed.
End TimetableFacts.


(** ** Class time normalisation *)

Module ClassTimeFacts.
Import JS Common WeekScenario.
Local Open Scope list_scope.

Lemma includes_dash_cons a s :
  includes (String a s) "-" = (Ascii.eqb a "-" || includes s "-")%bool.
Proof.
  cbn [includes prefix].
  destruct (ascii_dec "-" a) as [<-|Hne].
  - destruct s; reflexivity.
  - destruct (Ascii.eqb a "-") eqn:He; [|reflexivity].
    apply Ascii.eqb_eq in He. congruence.
Qed.

Lemma split_without_dash s :
  includes s "-" = false -> split "-" s = [s].
Proof.
  induction s as [|a s IH]; [reflexivity|].
  rewrite includes_dash_cons. intros H.
  apply orb_false_elim in H as [Ha Hs].
  cbn [split]. rewrite Ha, (IH Hs). reflexivity.
Qed.

Lemma split_at_dash a rest :
  includes a "-" = false ->
  split "-" (a ++ String "-" rest) = a :: split "-" rest.
Proof.
  induction a as [|c a IH]; intros H.
  - reflexivity.
  - rewrite includes_dash_cons in H.
    apply orb_false_elim in H as [Hc Ha].
    cbn [String.append split]. rewrite Hc, (IH Ha). reflexivity.
Qed.

Lemma normalizeClassTime_keeps cls :
  ClassEntry.name (normalizeClassTime cls) = ClassEntry.name cls
  /\ ClassEntry.subject (normalizeClassTime cls) = ClassEntry.subject cls
  /\ ClassEntry.time (normalizeClassTime cls) = ClassEntry.time cls.
Proof.
  unfold normalizeClassTime.
  destruct (truthy (ClassEntry.startTime cls)
            && truthy (ClassEntry.endTime cls))%bool; [tauto|].
  destruct (ClassEntry.time cls) as [t|] eqn:Ht; [|rewrite Ht; tauto].
  destruct (negb (String.eqb t "") && includes t "-")%bool;
    cbn; rewrite ?Ht; tauto.
Qed.

Lemma normalizeClassTime_idempotent cls :
  normalizeClassTime (normalizeClassTime cls) = normalizeClassTime cls.
Proof.
  destruct (truthy (ClassEntry.startTime cls)
            && truthy (ClassEntry.endTime cls))%bool eqn:Hboth.
  - assert (Hn : normalizeClassTime cls = cls)
      by (unfold normalizeClassTime; rewrite Hboth; reflexivity).
    rewrite Hn. exact Hn.
  - destruct (ClassEntry.time cls) as [t|] eqn:Ht.
    + destruct (negb (String.eqb t "") && includes t "-")%bool eqn:Hdash.
      * assert (Hn : normalizeClassTime cls
                     = {| ClassEntry.name := ClassEntry.name cls;
                          ClassEntry.subject := ClassEntry.subject cls;
                          ClassEntry.startTime :=
                            nth_error (map trim (split "-" t)) 0;
                          ClassEntry.endTime :=
                            nth_error (map trim (split "-" t)) 1;
                          ClassEntry.time := Some t |})
          by (unfold normalizeClassTime; rewrite Hboth, Ht, Hdash;
              reflexivity).
        rewrite Hn. unfold normalizeClassTime.
        cbn [ClassEntry.startTime ClassEntry.endTime ClassEntry.time
             ClassEntry.name ClassEntry.subject].
        rewrite Hdash.
        destruct (truthy (nth_error (map trim (split "-" t)) 0)
                  && truthy (nth_error (map trim (split "-" t)) 1))%bool;
          reflexivity.
      * assert (Hn : normalizeClassTime cls = cls)
          by (unfold normalizeClassTime; rewrite Hboth, Ht, Hdash;
              reflexivity).
        rewrite Hn. exact Hn.
    + assert (Hn : normalizeClassTime cls = cls)
        by (unfold normalizeClassTime; rewrite Hboth, Ht; reflexivity).
      rewrite Hn. exact Hn.
Qed.

(** X11.  Normalising a class entry twice is the same as normalising
    it once, and never touches its name, subject or time text, so the
    class count and the class list of a day are those of the raw
    timetable entry.  An entry that lacks a start or an end time and
    whose time text is [a-b] gets [a] and [b], trimmed, as its start and
    end. *)
Theorem normalizeClassTime_sound :
  (forall cls,
      normalizeClassTime (normalizeClassTime cls) = normalizeClassTime cls)
  /\ (forall classes,
         classList (map normalizeClassTime classes) = classList classes
         /\ List.length (map normalizeClassTime classes)
            = List.length classes)
  /\ (forall cls a b,
         (truthy (ClassEntry.startTime cls)
          && truthy (ClassEntry.endTime cls))%bool = false ->
         ClassEntry.time cls = Some (a ++ String "-" b)%string ->
         includes a "-" = false -> includes b "-" = false ->
         ClassEntry.startTime (normalizeClassTime cls) = Some (trim a)
         /\ ClassEntry.endTime (normalizeClassTime cls) = Some (trim b)).
Proof.
  split; [exact normalizeClassTime_idempotent|].
  split.
  - intros classes. split; [|apply length_map].
    unfold classList. rewrite map_map. f_equal.
    apply map_ext. intros c.
    destruct (normalizeClassTime_keeps c) as (-> & -> & _). reflexivity.
  - intros cls a b Hboth Htime Ha Hb.
    unfold normalizeClassTime. rewrite Hboth, Htime.
    assert (Hinc : includes (a ++ String "-" b) "-" = true).
    { clear. induction a as [|c a IH].
      - cbn [String.append]. rewrite includes_dash_cons. reflexivity.
      - cbn [String.append]. rewrite includes_dash_cons, IH.
        apply orb_true_r. }
    assert (Hne : String.eqb (a ++ String "-" b) "" = false)
      by (destruct a; reflexivity).
    rewrite Hinc, Hne.
    cbn [negb andb ClassEntry.startTime ClassEntry.endTime].
    rewrite (split_at_dash a b Ha), (split_without_dash b Hb).
    split; reflexivity.
Qed.

Lemma normalizeClassTime_sound_witness :
  ClassEntry.startTime
    (normalizeClassTime (lecture "Algebra" "11:00 - 12:00"))
  = Some "11:00"%string
  /\ ClassEntry.endTime
       (normalizeClassTime (lecture "Algebra" "11:00 - 12:00"))
     = Some "12:00"%string.
Proof.
  destruct normalizeClassTime_sound as (_ & _ & Hhalves).
  exact (Hhalves (lecture "Algebra" "11:00 - 12:00") "11:00 " " 12:00"
           eq_refl eq_refl eq_refl eq_refl).
Defined.
End ClassTimeFacts.


(** ** Outcomes of the validated handler *)

Module HandlerFacts.
Import JS Keywords Common Validated HandlerSpec Scenario.
Local Open Scope list_scope.

Lemma classifyIntent_range (msg : string) :
  In (classifyIntent msg) chainIntents.
Proof.
  unfold classifyIntent, chainIntents. cbv zeta.
  repeat match goal with
    | |- context [if ?c then _ else _] => destruct c
    end; simpl; tauto.
Qed.

(** A branch that ends normally carries the intent of the chain. *)
Lemma tryBlock_intent (env : Env) (body : Body) i r :
  tryBlock env body = FallThrough i r \/ tryBlock env body = EarlyReturn i r ->
  i = classifyIntent (message body).
Proof.
  pose proof (classifyIntent_range (message body)) as Hrange.
  unfold tryBlock, attendanceBranch, academicBranch, assignmentBranch,
    calendarBranch.
  destruct (classifyIntent (message body));
    try (simpl in Hrange; exfalso;
         repeat (destruct Hrange as [Hrange | Hrange];
                 [discriminate|]); exact Hrange);
    repeat match goal with
      | |- context [match ?x with _ => _ end] => destruct x
      end;
    intros [H | H]; try discriminate H; injection H as <- _; reflexivity.
Qed.

Lemma semesterLines_defined sems :
  Forall (fun s => scoreOf s <> None) sems ->
  forall index, exists lines, semesterLines index sems = inl lines.
Proof.
  induction 1 as [|s sems Hs _ IH]; intros index; simpl.
  - eexists; reflexivity.
  - destruct (scoreOf s) as [v|]; [|congruence].
    destruct (IH (S index)) as (more & ->).
    eexists; reflexivity.
Qed.

(** With a score in every semester record the grade branch ends
    normally. *)
Lemma academicReply_defined (env : Env) (body : Body) :
  Forall (fun s => scoreOf s <> None) (cgpa body) ->
  exists r, academicReply env body = inl r.
Proof.
  intros Hall. unfold academicReply.
  destruct (cgpa body) as [|firstSem rest] eqn:Hcgpa;
    [eexists; reflexivity|].
  assert (Hlast : scoreOf (last (firstSem :: rest) firstSem) <> None)
    by (apply GradeFacts.last_defined; [discriminate | exact Hall]).
  assert (Hfirst : scoreOf firstSem <> None)
    by (inversion Hall; assumption).
  destruct (allGradesQuery (lowerMessage body)).
  - unfold allGradesReply. rewrite Hcgpa.
    destruct (semesterLines_defined _ Hall 0%nat) as (lines & ->).
    eexists; reflexivity.
  - destruct (trendQuery (lowerMessage body)).
    + unfold trendReply. rewrite Hcgpa.
      destruct rest as [|second rest'].
      * destruct (scoreOf firstSem); [|congruence]. eexists; reflexivity.
      * cbv zeta.
        destruct (scoreOf firstSem) as [f|]; [|congruence].
        destruct (scoreOf (last (firstSem :: second :: rest') firstSem))
          as [l|]; [|congruence].
        cbn [toFixed2 bind ok].
        rewrite (GradeFacts.progression_defined _ Hall).
        destruct (Nat.leb (List.length (firstSem :: second :: rest')) 4);
          eexists; reflexivity.
    + unfold latestReply. rewrite Hcgpa. cbv zeta.
      destruct (scoreOf (last (firstSem :: rest) firstSem)) as [l|];
        [|congruence].
      destruct (Nat.eqb (List.length (firstSem :: rest)) 1);
        eexists; reflexivity.
Qed.

Lemma missing_or_all (sems : list SemesterRecord.t) :
  Forall (fun s => scoreOf s <> None) sems
  \/ exists s, In s sems /\ scoreOf s = None.
Proof.
  induction sems as [|s sems [IH | (x & Hx & Hnone)]].
  - left. constructor.
  - destruct (scoreOf s) as [v|] eqn:Hs.
    + left. constructor; [congruence | exact IH].
    + right. exists s. split; [left; reflexivity | exact Hs].
  - right. exists x. split; [right; exact Hx | exact Hnone].
Qed.


(** *** Blank messages *)

Lemma trimStart_blank s : trimStart s = "" -> blank s = true.
Proof.
  induction s as [|c s IH]; [reflexivity|].
  simpl. destruct (isWhiteSpace c); [|discriminate].
  intros H. rewrite (IH H). reflexivity.
Qed.

Lemma trimEnd_empty s : trimEnd s = "" -> blank s = true.
Proof.
  induction s as [|c s IH]; [reflexivity|].
  simpl. destruct (isWhiteSpace c); simpl.
  - destruct (String.eqb (trimEnd s) "") eqn:He; [|discriminate].
    apply String.eqb_eq in He. intros _. exact (IH He).
  - discriminate.
Qed.

Lemma trimStart_suffix_blank s :
  blank (trimStart s) = true -> blank s = true.
Proof.
  induction s as [|c s IH]; [reflexivity|].
  simpl. destruct (isWhiteSpace c) eqn:Hc.
  - intros H. exact (IH H).
  - simpl. rewrite Hc. discriminate.
Qed.

Lemma trim_blank s : trim s = "" <-> blank s = true.
Proof.
  unfold trim. split.
  - intros H. apply trimStart_suffix_blank, trimEnd_empty. exact H.
  - intros H.
    assert (Hs : trimStart s = "").
    { induction s as [|c s IH]; [reflexivity|].
      simpl in *. apply andb_prop in H as [-> H]. exact (IH H). }
    rewrite Hs. reflexivity.
Qed.

Lemma lowerChar_whitespace c :
  isWhiteSpace c = true -> lowerChar c = c.
Proof.
  unfold isWhiteSpace, lowerChar. intros H.
  destruct (Nat.leb 65 (nat_of_ascii c) && Nat.leb (nat_of_ascii c) 90)%bool
    eqn:Hup; [|reflexivity].
  apply andb_prop in Hup as [H1 H2].
  apply Nat.leb_le in H1, H2.
  apply orb_prop in H as [H | H].
  - apply andb_prop in H as [_ H]. apply Nat.leb_le in H. lia.
  - apply Nat.eqb_eq in H. lia.
Qed.

Lemma toLowerCase_blank s : blank s = true -> toLowerCase s = s.
Proof.
  induction s as [|c s IH]; [reflexivity|].
  simpl. intros H. apply andb_prop in H as [Hc Hs].
  rewrite (lowerChar_whitespace c Hc), (IH Hs). reflexivity.
Qed.

(** A blank text contains no keyword that starts with a visible
    character. *)
Lemma blank_includes s k :
  blank s = true -> startsVisible k = true -> includes s k = false.
Proof.
  destruct k as [|kc k]; [discriminate|].
  cbn [startsVisible]. intros Hs Hk.
  induction s as [|c s IH]; [reflexivity|].
  simpl in Hs. apply andb_prop in Hs as [Hc Hs].
  cbn [includes prefix].
  destruct (ascii_dec kc c) as [->|_].
  - rewrite Hc in Hk. discriminate.
  - exact (IH Hs).
Qed.

Lemma blank_anyOf s keys :
  blank s = true -> forallb startsVisible keys = true ->
  anyOf s keys = false.
Proof.
  intros Hs. unfold anyOf. induction keys as [|k keys IH]; intros Hk.
  - reflexivity.
  - simpl in Hk. apply andb_prop in Hk as [Hk Hks].
    simpl. rewrite (blank_includes s k Hs Hk), (IH Hks). reflexivity.
Qed.


End HandlerFacts.


(** ** The plain handler: how replies open, and how requests end *)

Module PlainFacts.
Import JS Keywords Common Plain PlainHandler PlainSpec PlainScenario
       Scenario.
Local Open Scope list_scope.

(** *** Text *)

Lemma append_nil_r (s : string) : (s ++ "")%string = s.
Proof. induction s as [|c s IH]; simpl; [reflexivity | now rewrite IH]. Qed.

Lemma prefix_append (p rest : string) : prefix p (p ++ rest) = true.
Proof.
  induction p as [|c p IH]; simpl.
  - destruct rest; reflexivity.
  - destruct (ascii_dec c c) as [_|Hne]; [exact IH | congruence].
Qed.

Lemma opensWith_prefix p s : opensWith p s -> prefix p s = true.
Proof. intros (rest & ->). apply prefix_append. Qed.

Lemma opensWith_trans p q s :
  opensWith p q -> opensWith q s -> opensWith p s.
Proof.
  intros (a & ->) (b & ->). exists (a ++ b)%string.
  apply NumberFacts.append_assoc.
Qed.

Lemma opens_address text userName :
  opensWith (userName ++ ", ") (addressUser text userName).
Proof.
  exists text. unfold addressUser.
  symmetry. apply NumberFacts.append_assoc.
Qed.

Lemma address_nonempty text userName :
  String.eqb (addressUser text userName) "" = false.
Proof. unfold addressUser. destruct userName; reflexivity. Qed.

Lemma opens_join sep x l : opensWith x (join sep (x :: l)).
Proof.
  destruct l as [|y l].
  - exists ""%string. simpl. symmetry. apply append_nil_r.
  - eexists. cbn [join]. reflexivity.
Qed.

(** A reply assembled from lines opens with the first line. *)
Lemma opens_lines sep first rest :
  String.eqb first "" = false ->
  opensWith first (join sep (filterBoolean (Some first :: rest))).
Proof.
  intros Hne. unfold filterBoolean. cbn [flat_map]. rewrite Hne.
  cbn [List.app]. apply opens_join.
Qed.

Lemma opens_addressed sep text userName rest :
  opensWith (userName ++ ", ")
    (join sep (filterBoolean (Some (addressUser text userName) :: rest))).
Proof.
  eapply opensWith_trans; [apply opens_address|].
  apply opens_lines. apply address_nonempty.
Qed.

Ltac opens :=
  lazymatch goal with
  | |- opensWith _ (addressUser _ _) => apply opens_address
  | |- opensWith _ (paragraph (Some (addressUser _ _) :: _)) =>
      apply opens_addressed
  | |- opensWith _ (formatReply (Some (addressUser _ _) :: _)) =>
      apply opens_addressed
  | |- opensWith _ (paragraph (map Some (addressUser _ _ :: _))) =>
      apply (opens_addressed " ")
  | |- opensWith _ (formatReply (map Some (addressUser _ _ :: _))) =>
      apply (opens_addressed LF)
  | |- opensWith _ (match ?x with _ => _ end) => destruct x; opens
  end.

(** *** Branches *)

Section Branches.
Variable env : Env.
Variable body : Body.
Variable marks : list Mark.

Lemma expenseMonthly_opens :
  opensWith (userName body ++ ", ") (expenseMonthlyReply body).
Proof. unfold expenseMonthlyReply. opens. Qed.

Lemma expenseInsights_opens :
  opensWith (userName body ++ ", ") (expenseInsightsReply body).
Proof. unfold expenseInsightsReply. cbv zeta. opens. Qed.

Lemma attendance_opens :
  opensWith (userName body ++ ", ")
    (attendanceReply (userName body) (attendance body)).
Proof. unfold attendanceReply. opens. Qed.

Lemma academic_opens r :
  academicReply body = inl r -> opensWith (userName body ++ ", ") r.
Proof.
  unfold academicReply.
  destruct (cgpa body) as [|firstSem rest].
  - intros [= <-]. opens.
  - cbv zeta.
    destruct (scoreOf (last (firstSem :: rest) firstSem)) as [l|];
      destruct (includes (lowerMessage body) "trend"
                || includes (lowerMessage body) "progress")%bool;
      try destruct rest as [|second rest];
      try destruct (scoreOf firstSem) as [f|];
      cbn [toFixed2 bind ok throw];
      try discriminate;
      intros [= <-]; opens.
Qed.

Lemma assignment_opens :
  opensWith (userName body ++ ", ") (assignmentReply env body).
Proof. unfold assignmentReply. cbv zeta. opens. Qed.

Lemma timetable_opens :
  opensWith (userName body ++ ", ") (timetableReply env body).
Proof.
  unfold timetableReply, dayAnswer. cbv zeta. opens.
Qed.

Lemma calendar_opens i r :
  fst (runCalendar env (lowerMessage body) (userName body) marks)
  = FallThrough i r
  \/ fst (runCalendar env (lowerMessage body) (userName body) marks)
     = EarlyReturn i r ->
  i = CALENDAR_MANAGEMENT /\ opensWith (userName body ++ ", ") r.
Proof.
  unfold runCalendar, calendarBranch.
  cbn [Heap.alloc List.length app Heap.read nth Heap.sort Heap.write
       Heap.slice].
  destruct marks as [|m rest].
  - cbn [fst]. intros [H | H]; [discriminate H|].
    injection H as <- <-. split; [reflexivity | opens].
  - set (sorted := sortBy _ (m :: rest)).
    destruct (includes (lowerMessage body) "exam").
    + destruct (examFilter sorted) as [kept|msg].
      * destruct kept; cbn [fst];
          (intros [H | H]; [|discriminate H]);
          injection H as <- <-; (split; [reflexivity | opens]).
      * cbn [fst]. intros [H | H]; discriminate H.
    + destruct (includes (lowerMessage body) "next"
                || includes (lowerMessage body) "upcoming")%bool.
      * destruct sorted; cbn [fst];
          (intros [H | H]; [|discriminate H]);
          injection H as <- <-; (split; [reflexivity | opens]).
      * destruct (Nat.leb (List.length sorted) 3); cbn [fst];
          (intros [H | H]; [|discriminate H]);
          injection H as <- <-; (split; [reflexivity | opens]).
Qed.

Lemma greeting_opens :
  opensWith (opening env body GREETING) (greetingReply env body).
Proof.
  unfold greetingReply, opening. cbv zeta.
  apply opens_lines.
  unfold greetingWords.
  destruct (getHours env <? 12); [reflexivity|].
  destruct (getHours env <? 17); reflexivity.
Qed.

Lemma plain_classifyIntent_range (msg : string) :
  In (Plain.classifyIntent msg) chainIntents.
Proof.
  unfold Plain.classifyIntent, chainIntents. cbv zeta.
  repeat match goal with
    | |- context [if ?c then _ else _] => destruct c
    end; simpl; tauto.
Qed.

(** A branch that ends normally carries the intent of the chain and a
    reply with the opening of that intent. *)
Lemma tryBlock_opens i r :
  tryBlock env body marks = FallThrough i r
  \/ tryBlock env body marks = EarlyReturn i r ->
  i = Plain.classifyIntent (message body)
  /\ opensWith (opening env body i) r.
Proof.
  pose proof (plain_classifyIntent_range (message body)) as Hrange.
  unfold tryBlock.
  destruct (Plain.classifyIntent (message body)) eqn:Hc;
    try (simpl in Hrange; exfalso;
         repeat (destruct Hrange as [Hrange | Hrange];
                 [discriminate|]); exact Hrange).
  - intros [H | H]; [|discriminate H]. injection H as <- <-.
    split; [reflexivity | apply expenseMonthly_opens].
  - intros [H | H]; [|discriminate H]. injection H as <- <-.
    split; [reflexivity | apply expenseInsights_opens].
  - intros [H | H]; [|discriminate H]. injection H as <- <-.
    split; [reflexivity | apply attendance_opens].
  - destruct (academicReply body) as [text|msg] eqn:Hr;
      (intros [H | H]; try discriminate H).
    injection H as <- <-.
    split; [reflexivity | apply academic_opens; exact Hr].
  - unfold assignmentBranch.
    destruct (assignmentCount body =? 0);
      (intros [H | H]; try discriminate H); injection H as <- <-;
      (split; [reflexivity|]).
    + apply opens_address.
    + apply assignment_opens.
  - intros H. destruct (calendar_opens i r H) as [-> Hopen].
    split; [reflexivity | exact Hopen].
  - intros [H | H]; [|discriminate H]. injection H as <- <-.
    split; [reflexivity | apply timetable_opens].
  - intros [H | H]; [|discriminate H]. injection H as <- <-.
    split; [reflexivity | apply greeting_opens].
  - intros [H | H]; [|discriminate H]. injection H as <- <-.
    split; [reflexivity | apply opens_address].
  - intros [H | H]; [|discriminate H]. injection H as <- <-.
    split; [reflexivity|]. unfold guidanceReply. opens.
Qed.

(** The response assembled from each completion. *)
Lemma plain_chat_shapes :
  String.eqb (message body) "" = false ->
  match tryBlock env body marks with
  | FallThrough i r =>
      chat env body marks
      = Answer
          {| Response.status := 200;
             Response.intent := i;
             Response.reply := r;
             Response.metadata :=
               Some {| Metadata.timestamp := now env;
                       Metadata.userName := userName body;
                       Metadata.dataUsed := usedData body marks |};
             Response.error := None |}
  | EarlyReturn i r =>
      chat env body marks
      = Answer
          {| Response.status := 200;
             Response.intent := i;
             Response.reply := r;
             Response.metadata := None;
             Response.error := None |}
  | Throw msg =>
      chat env body marks
      = Answer
          {| Response.status := 500;
             Response.intent := ERROR;
             Response.reply :=
               "Unable to process your request. Please try again.";
             Response.metadata := None;
             Response.error := if DEBUG env then Some msg else None |}
  end.
Proof.
  intros Hmsg. unfold chat. rewrite Hmsg.
  destruct (tryBlock env body marks); reflexivity.
Qed.

(** X14.  Every status-200 reply of the plain handler opens by
    addressing the user: a greeting reply with "Good morning",
    "Good afternoon" or "Good evening", a comma, the user's name and a
    full stop; every other reply with the user's name and a comma.  The
    name is [user.firstName], or "there" when it is missing or
    empty. *)
Theorem plain_reply_opens_with_name (r : Response.t) :
  chat env body marks = Answer r ->
  Response.status r = 200 ->
  prefix (opening env body (Response.intent r)) (Response.reply r) = true
  /\ Response.intent r = Plain.classifyIntent (message body).
Proof.
  intros Hchat Hstatus.
  destruct (String.eqb (message body) "") eqn:Hmsg.
  - unfold chat in Hchat. rewrite Hmsg in Hchat. discriminate Hchat.
  - pose proof (plain_chat_shapes Hmsg) as Hshape.
    destruct (tryBlock env body marks) as [i t | i t | msg] eqn:Htry;
      rewrite Hshape in Hchat; injection Hchat as <-;
      cbn [Response.status Response.intent Response.reply] in *;
      try discriminate Hstatus.
    + destruct (tryBlock_opens i t (or_introl Htry)) as [Hi Hopen].
      split; [apply opensWith_prefix; exact Hopen | exact Hi].
    + destruct (tryBlock_opens i t (or_intror Htry)) as [Hi Hopen].
      split; [apply opensWith_prefix; exact Hopen | exact Hi].
Qed.

(** *** Where a request ends *)

Lemma last_In {A} (l : list A) (d : A) : l <> [] -> In (last l d) l.
Proof.
  induction l as [|x l IH]; [congruence|]. intros _.
  destruct l as [|y l]; [left; reflexivity|].
  right. apply IH. discriminate.
Qed.

Lemma academic_throws msg :
  academicReply body = inr msg ->
  exists sem, In sem (cgpa body) /\ scoreOf sem = None.
Proof.
  unfold academicReply.
  destruct (cgpa body) as [|firstSem rest] eqn:Hcgpa; [discriminate|].
  cbv zeta.
  assert (Hlast : In (last (firstSem :: rest) firstSem)
                    (firstSem :: rest))
    by (apply last_In; discriminate).
  destruct (scoreOf (last (firstSem :: rest) firstSem)) as [l|] eqn:Hl.
  - destruct (includes (lowerMessage body) "trend"
              || includes (lowerMessage body) "progress")%bool;
      [|discriminate].
    destruct rest as [|second rest]; [discriminate|].
    destruct (scoreOf firstSem) as [f|] eqn:Hf; [discriminate|].
    intros _. exists firstSem. split; [left; reflexivity | exact Hf].
  - intros _. eexists. split; [exact Hlast | exact Hl].
Qed.

(** The exam filter throws exactly on an array that holds an object
    without a category. *)
Lemma examFilter_throws (l : list Mark) :
  (exists msg, examFilter l = inr msg)
  <-> exists d, In d l /\ uncategorised d = true.
Proof.
  induction l as [|d l IH]; cbn [examFilter].
  - split; [intros (msg & H); discriminate H | intros (d & [] & _)].
  - unfold uncategorised in *.
    destruct (categoryOf d) as [c|m] eqn:Hd; cbn [bind].
    + destruct (examFilter l) as [more|m'] eqn:Hl; cbn [bind].
      * split; [intros (msg & H); discriminate H|].
        intros (x & [<- | Hx] & Hu).
        -- rewrite Hd in Hu. discriminate Hu.
        -- assert (Hex : exists x, In x l
                           /\ match categoryOf x with
                              | inl _ => false
                              | inr _ => true
                              end = true)
             by (exists x; split; assumption).
           apply IH in Hex as (msg & H). discriminate H.
      * split; [|intros _; eexists; reflexivity].
        intros _.
        destruct (proj1 IH (ex_intro _ m' eq_refl)) as (x & Hx & Hu).
        exists x. split; [right; exact Hx | exact Hu].
    + split; [|intros _; eexists; reflexivity].
      intros _. exists d. split; [left; reflexivity|].
      rewrite Hd. reflexivity.
Qed.

(** The calendar branch on an exam query. *)
Lemma calendar_exam_throws :
  includes (lowerMessage body) "exam" = true ->
  (exists msg,
      fst (runCalendar env (lowerMessage body) (userName body) marks)
      = Throw msg)
  <-> exists d, In d marks /\ uncategorised d = true.
Proof.
  intros Hexam.
  unfold runCalendar, calendarBranch.
  cbn [Heap.alloc List.length app Heap.read nth Heap.sort Heap.write
       Heap.slice].
  destruct marks as [|m rest].
  - cbn [fst]. split; [intros (msg & H); discriminate H|].
    intros (d & [] & _).
  - rewrite Hexam.
    set (before := fun a b => String.ltb (toString a) (toString b)).
    assert (Hsame :
              (exists d, In d (sortBy before (m :: rest))
                         /\ uncategorised d = true)
              <-> exists d, In d (m :: rest) /\ uncategorised d = true).
    { split; intros (d & Hd & Hu); exists d; (split; [|exact Hu]);
        apply (AssignmentFacts.sortBy_In before); exact Hd. }
    rewrite <- Hsame, <- examFilter_throws.
    destruct (examFilter (sortBy before (m :: rest))) as [kept|msg].
    + split; [|intros (msg & H); discriminate H].
      destruct kept; cbn [fst]; intros (msg & H); discriminate H.
    + cbn [fst]. split; intros _; eexists; reflexivity.
Qed.

Lemma calendar_throws_on_exam msg :
  fst (runCalendar env (lowerMessage body) (userName body) marks)
  = Throw msg ->
  includes (lowerMessage body) "exam" = true.
Proof.
  unfold runCalendar, calendarBranch.
  cbn [Heap.alloc List.length app Heap.read nth Heap.sort Heap.write
       Heap.slice].
  destruct marks as [|m rest]; [discriminate|].
  set (sorted := sortBy _ (m :: rest)).
  destruct (includes (lowerMessage body) "exam"); [reflexivity|].
  destruct (includes (lowerMessage body) "next"
            || includes (lowerMessage body) "upcoming")%bool.
  - destruct sorted; discriminate.
  - destruct (Nat.leb (List.length sorted) 3); discriminate.
Qed.

Lemma tryBlock_throw_sites msg :
  tryBlock env body marks = Throw msg ->
  (Plain.classifyIntent (message body) = ACADEMIC_INSIGHTS
   /\ exists sem, In sem (cgpa body) /\ scoreOf sem = None)
  \/ (Plain.classifyIntent (message body) = CALENDAR_MANAGEMENT
      /\ includes (lowerMessage body) "exam" = true
      /\ exists d, In d marks /\ uncategorised d = true).
Proof.
  unfold tryBlock.
  destruct (Plain.classifyIntent (message body)); try discriminate.
  - destruct (academicReply body) as [text|m] eqn:Hr; [discriminate|].
    intros _. left. split; [reflexivity|].
    exact (academic_throws m Hr).
  - unfold assignmentBranch.
    destruct (assignmentCount body =? 0); discriminate.
  - intros H. right. split; [reflexivity|].
    pose proof (calendar_throws_on_exam msg H) as Hexam.
    split; [exact Hexam|].
    apply (calendar_exam_throws Hexam). exists msg. exact H.
Qed.

(** The two guards that answer with [return res.json({ intent, reply })]. *)
Lemma calendar_early :
  match fst (runCalendar env (lowerMessage body) (userName body) marks)
  with
  | EarlyReturn _ _ => marks = []
  | FallThrough _ _ => marks <> []
  | Throw _ => True
  end.
Proof.
  unfold runCalendar, calendarBranch.
  cbn [Heap.alloc List.length app Heap.read nth Heap.sort Heap.write
       Heap.slice].
  destruct marks as [|m rest]; [reflexivity|].
  set (sorted := sortBy _ (m :: rest)).
  destruct (includes (lowerMessage body) "exam").
  - destruct (examFilter sorted) as [kept|msg]; [|exact I].
    destruct kept; cbn [fst]; discriminate.
  - destruct (includes (lowerMessage body) "next"
              || includes (lowerMessage body) "upcoming")%bool.
    + destruct sorted; cbn [fst]; discriminate.
    + destruct (Nat.leb (List.length sorted) 3); cbn [fst]; discriminate.
Qed.

Lemma tryBlock_early_sites :
  match tryBlock env body marks with
  | EarlyReturn _ _ =>
      (Plain.classifyIntent (message body) = ASSIGNMENT_PLANNING
       /\ assignmentCount body = 0)
      \/ (Plain.classifyIntent (message body) = CALENDAR_MANAGEMENT
          /\ marks = [])
  | FallThrough _ _ =>
      ~ ((Plain.classifyIntent (message body) = ASSIGNMENT_PLANNING
          /\ assignmentCount body = 0)
         \/ (Plain.classifyIntent (message body) = CALENDAR_MANAGEMENT
             /\ marks = []))
  | Throw _ => True
  end.
Proof.
  pose proof calendar_early as Hcal.
  unfold tryBlock.
  destruct (Plain.classifyIntent (message body));
    try (intros [[H _] | [H _]]; discriminate H).
  - destruct (academicReply body); [|exact I].
    intros [[H _] | [H _]]; discriminate H.
  - unfold assignmentBranch.
    destruct (assignmentCount body =? 0) eqn:Hz.
    + left. split; [reflexivity | apply Z.eqb_eq; exact Hz].
    + apply Z.eqb_neq in Hz.
      intros [[_ H] | [H _]]; [contradiction | discriminate H].
  - destruct (fst (runCalendar env (lowerMessage body) (userName body)
                     marks)).
    + intros [[H _] | [_ H]]; [discriminate H | contradiction].
    + right. split; [reflexivity | exact Hcal].
    + exact I.
Qed.


End Branches.

Lemma plain_reply_opens_with_name_witness :
  prefix "Asha, "
    "Asha, you're welcome. Let me know if you need assistance with anything else."
  = true
  /\ GRATITUDE = Plain.classifyIntent "thanks a lot".
Proof.
  exact (plain_reply_opens_with_name newYear (asha "thanks a lot") []
           _ eq_refl eq_refl).
Defined.


Example plain_exam_listing :
  chat newYear (asha "exam dates")
    [DateString "2026-03-01 exam"; DateString "2026-01-05"]
  = Answer
      {| Response.status := 200;
         Response.intent := CALENDAR_MANAGEMENT;
         Response.reply :=
           ("Asha, your exam schedule:" ++ LF ++ "1. 2026-03-01 exam (NaN days)")%string;
         Response.metadata :=
           Some {| Metadata.timestamp := now newYear;
                   Metadata.userName := "Asha";
                   Metadata.dataUsed :=
                     {| hasExpenses := false;
                        hasAttendance := false;
                        hasTimetable := false;
                        hasAssignments := true;
                        hasCalendar := true;
                        hasCgpa := false |} |};
         Response.error := None |}.
Proof. reflexivity. Qed.
End PlainFacts.


(** ** The two keyword chains compared *)

Module ChainFacts.
Import JS Keywords ChainSpec.
Local Open Scope list_scope.

Lemma academic_incl lower :
  Validated.academicInsights lower = false ->
  Plain.academicInsights lower = false.
Proof.
  apply ClassifierFacts.anyOf_incl.
  intros k Hk; simpl in *; tauto.
Qed.

Lemma calendar_incl lower :
  Validated.calendarManagement lower = false ->
  Plain.calendarManagement lower = false.
Proof.
  apply ClassifierFacts.anyOf_incl.
  intros k Hk; simpl in *; tauto.
Qed.

Lemma timetable_incl lower :
  Validated.timetableAnalysis lower = false ->
  Plain.timetableAnalysis lower = false.
Proof.
  unfold Validated.timetableAnalysis, Validated.workloadQuery.
  intros H.
  apply orb_false_iff in H as [H _].
  apply orb_false_iff in H as [Hdays Hload].
  destruct (Plain.timetableAnalysis lower) eqn:Hplain; [|reflexivity].
  apply ClassifierFacts.anyOf_true_iff in Hplain as (k & Hin & Hk).
  assert (Hfalse : includes lower k = false).
  { simpl in Hin.
    destruct Hin as [<- | [<- | [<- | [<- | [<- | [<- | [<- | [<- | Hin]]]]]]]].
    1-8: (destruct (includes lower _) eqn:Hinc; [|reflexivity];
          assert (Hany : anyOf lower
                           ["class"; "lecture"; "timetable"; "schedule";
                            "tomorrow"; "today"; "monday"; "tuesday";
                            "wednesday"; "thursday"; "friday"; "saturday";
                            "sunday"; "free day"; "off day"; "day off";
                            "week"; "weekly"]%string = true)
            by (apply ClassifierFacts.anyOf_true_iff; eexists;
                split; [|exact Hinc]; simpl; tauto);
          congruence).
    destruct Hin as [<- | [<- | []]];
      (destruct (includes lower _) eqn:Hinc; [|reflexivity];
       assert (Hany : anyOf lower
                        ["busy"; "packed"; "workload"; "work load";
                         "how busy"; "how packed"; "am i busy";
                         "am i too busy"; "am i packed"; "is my week busy";
                         "is my week packed"; "overall load"]%string = true)
         by (apply ClassifierFacts.anyOf_true_iff; eexists;
             split; [|exact Hinc]; simpl; tauto);
       congruence). }
  congruence.
Qed.

Lemma greeting_incl (msg : string) :
  String.eqb (trim msg) "" = false ->
  String.eqb (toLowerCase msg) "" = false.
Proof.
  destruct msg as [|c msg]; [intros H; exact H | reflexivity].
Qed.

(** X17.  On a message that is no name query the chain of the validated
    handler never picks a later group than the chain of the plain
    handler, and where the two disagree the validated handler answers as a
    grade, calendar, timetable or greeting query: these are the groups
    whose keyword lists it widened. *)
Theorem validated_chain_refines_plain (msg : string) :
  nameQuery (toLowerCase msg) = false ->
  (rank (Validated.classifyIntent msg)
   <= rank (Plain.classifyIntent msg))%nat
  /\ (Validated.classifyIntent msg <> Plain.classifyIntent msg ->
      In (Validated.classifyIntent msg)
        [ACADEMIC_INSIGHTS; CALENDAR_MANAGEMENT; TIMETABLE_ANALYSIS;
         GREETING]).
Proof.
  intros Hname.
  unfold Validated.classifyIntent, Plain.classifyIntent. cbv zeta.
  rewrite Hname.
  pose proof (academic_incl (toLowerCase msg)) as Hacad.
  pose proof (calendar_incl (toLowerCase msg)) as Hcal.
  pose proof (timetable_incl (toLowerCase msg)) as Htime.
  pose proof (greeting_incl msg) as Hgreet.
  set (lower := toLowerCase msg) in *.
  destruct (expenseMonthly lower);
    [cbn [rank]; split; [lia | congruence]|].
  destruct (expenseInsights lower);
    [cbn [rank]; split; [lia | congruence]|].
  destruct (attendanceInsights lower);
    [cbn [rank]; split; [lia | congruence]|].
  destruct (Validated.academicInsights lower).
  { split; [|intros _; simpl; tauto].
    repeat match goal with
      | |- context [if ?c then _ else _] => destruct c
      end; cbn [rank]; lia. }
  rewrite (Hacad eq_refl).
  destruct (assignmentPlanning lower);
    [cbn [rank]; split; [lia | congruence]|].
  destruct (Validated.calendarManagement lower).
  { split; [|intros _; simpl; tauto].
    repeat match goal with
      | |- context [if ?c then _ else _] => destruct c
      end; cbn [rank]; lia. }
  rewrite (Hcal eq_refl).
  destruct (Validated.timetableAnalysis lower).
  { split; [|intros _; simpl; tauto].
    repeat match goal with
      | |- context [if ?c then _ else _] => destruct c
      end; cbn [rank]; lia. }
  rewrite (Htime eq_refl).
  destruct (greetingWord lower);
    [cbn [orb rank]; split; [lia | congruence]|].
  cbn [orb].
  destruct (String.eqb (trim msg) "").
  { split; [|intros _; simpl; tauto].
    repeat match goal with
      | |- context [if ?c then _ else _] => destruct c
      end; cbn [rank]; lia. }
  rewrite (Hgreet eq_refl).
  destruct (gratitude lower); cbn [rank]; split; (lia || congruence).
Qed.

Lemma validated_chain_refines_plain_witness :
  (rank (Validated.classifyIntent "any improvement in my results?")
   <= rank (Plain.classifyIntent "any improvement in my results?"))%nat
  /\ (Validated.classifyIntent "any improvement in my results?"
      <> Plain.classifyIntent "any improvement in my results?" ->
      In (Validated.classifyIntent "any improvement in my results?")
        [ACADEMIC_INSIGHTS; CALENDAR_MANAGEMENT; TIMETABLE_ANALYSIS;
         GREETING]).
Proof.
  exact (validated_chain_refines_plain "any improvement in my results?"
           eq_refl).
Defined.

Example chains_disagree :
  Validated.classifyIntent "any improvement in my results?"
  = ACADEMIC_INSIGHTS
  /\ Plain.classifyIntent "any improvement in my results?" = GUIDANCE.
Proof. split; reflexivity. Qed.
End ChainFacts.
